(** * Weekly opening hours: a shallow embedding of package [openinghours]

  The Go package parses and prints the notation [W<d>T<HH>:<MM>:<SS>] for
  recurring weekly opening hours and expands intervals into per-day ranges
  ([GetHumanReadableTimes]) and into OCPI regular hours
  ([GetOCPIOpeningTimes]).

  Conventions of the embedding:
  - Go's [int] is a [Z]; the one place where 64-bit arithmetic can leave the
    range ([*w - 1] in [setPreviousDay]) wraps explicitly through [wrap64];
    Go's [/] and [%] truncate toward zero, hence [Z.quot] and [Z.rem].
  - Go strings are byte strings: Rocq's [string]. A slice is a list (the
    nil slice and the empty slice are both the empty list).
  - [*TimeInWeek] is an optional location in a store of [TimeInWeek] cells.
    [OpeningHours] values are copied by [range], the cells they point to are
    not: the functions below thread the store explicitly.
  - A [(value, error)] result is a pair whose second component is
    [option string] (the error's message), as the Go functions return it. *)

From Stdlib Require Import ZArith String Ascii List Lia Bool.
From Stdlib Require Import DecimalString.
From stdpp Require Import base gmap strings list fin_maps.

Open Scope Z_scope.

(* ===================================================================== *)
(** ** Library functions the package calls ([strconv], [fmt], [strings]) *)
(* ===================================================================== *)

Module GoLib.

(** The byte is one of ['0'..'9'] (the class [\d] of Go's regexp, and the
    digits [strconv.Atoi] accepts). *)
Definition isDigit (c : ascii) : bool :=
  (48 <=? Z.of_nat (nat_of_ascii c)) && (Z.of_nat (nat_of_ascii c) <=? 57).

Definition digitVal (c : ascii) : Z := Z.of_nat (nat_of_ascii c) - 48.

(** The digit loop of [strconv.Atoi]: [n = n*10 + int(ch - '0')], a syntax
    error at the first byte that is not a digit. *)
Fixpoint atoiDigits (s : string) (n : Z) : option Z :=
  match s with
  | EmptyString => Some n
  | String ch s' =>
      if isDigit ch then atoiDigits s' (n * 10 + digitVal ch) else None
  end.

Definition minInt64 : Z := - 2 ^ 63.
Definition maxInt64 : Z := 2 ^ 63 - 1.

(** Two's complement wrap-around of a 64-bit [int]. *)
Definition wrap64 (z : Z) : Z := (z + 2 ^ 63) mod 2 ^ 64 - 2 ^ 63.

(** [strconv.Atoi]: an optional sign, then at least one decimal digit and
    nothing else; [None] stands for a non-nil error (syntax or range). *)
Definition Atoi (s : string) : option Z :=
  match s with
  | EmptyString => None
  | String c rest =>
      let neg := Ascii.eqb c "-" in
      let body := if neg || Ascii.eqb c "+" then rest else s in
      match body with
      | EmptyString => None
      | _ =>
          match atoiDigits body 0 with
          | None => None
          | Some n =>
              let v := if neg then - n else n in
              if (minInt64 <=? v) && (v <=? maxInt64) then Some v else None
          end
      end
  end.

(** [%d] of [fmt.Sprintf]: decimal, with a leading [-] below zero. *)
Definition fmtD (n : Z) : string := NilZero.string_of_int (Z.to_int n).

(** [%02d]: at least two bytes wide, padded with zeros on the left (the
    sign of a negative number already fills the width). *)
Definition fmt02D (n : Z) : string :=
  let s := fmtD n in
  if (String.length s <? 2)%nat then String "0" s else s.

(** [strings.Split(s, sep)] for a separator of one byte: the pieces between
    the occurrences of [sep], the empty string included; always at least
    one piece. *)
Fixpoint Split (s : string) (sep : ascii) : list string :=
  match s with
  | EmptyString => [EmptyString]
  | String c s' =>
      if Ascii.eqb c sep then EmptyString :: Split s' sep
      else match Split s' sep with
           | [] => [String c EmptyString]
           | p :: ps => String c p :: ps
           end
  end.

(** [strings.Join(elems, sep)]. *)
Definition Join (elems : list string) (sep : string) : string :=
  String.concat sep elems.

Definition isASCII (s : string) : bool :=
  forallb (fun c => Z.of_nat (nat_of_ascii c) <? 128) (list_ascii_of_string s).

Definition lowerByte (c : ascii) : ascii :=
  let n := nat_of_ascii c in
  if (65 <=? n)%nat && (n <=? 90)%nat then ascii_of_nat (n + 32) else c.

Fixpoint lowerBytes (s : string) : string :=
  match s with
  | EmptyString => EmptyString
  | String c s' => String (lowerByte c) (lowerBytes s')
  end.

(** [strings.ToLower]: a string of ASCII bytes has ['A'..'Z'] moved to
    ['a'..'z']; any other string goes through the Unicode case tables of
    the Go runtime, which are not part of this package and are taken as
    the parameter [unicodeLower]. *)
Definition ToLower (unicodeLower : string → string) (s : string) : string :=
  if isASCII s then lowerBytes s else unicodeLower s.

End GoLib.

Import GoLib.

(* ===================================================================== *)
(** ** Clock values and weekday names                                     *)
(* ===================================================================== *)

(** [ParseMinutesSinceMidnight(v1, v2 string) (int, error)]. The product
  [hours*60 + minutes] is at most [24*60 + 59]: no overflow. *)
Definition ParseMinutesSinceMidnight (v1 v2 : string) : Z * option string :=
  match Atoi v1 with
  | None => (0, Some "invalid hours value"%string)
  | Some hours =>
      if (hours <? 0) || (hours >? 24) then (0, Some "invalid hours value"%string)
      else
        match Atoi v2 with
        | None => (0, Some "invalid minutes value"%string)
        | Some minutes =>
            if (minutes <? 0) || (minutes >? 59)
            then (0, Some "invalid minutes value"%string)
            else if (hours =? 24) && negb (minutes =? 0)
            then (0, Some "invalid value"%string)
            else (hours * 60 + minutes, None)
        end
  end.

Section Weekday.

Variable unicodeLower : string → string.

(** [ParseStringWeekdayToTimeWeekday(dayStr string) (int, error)]. *)
Definition ParseStringWeekdayToTimeWeekday (dayStr : string) : Z * option string :=
  let s := ToLower unicodeLower dayStr in
  if String.eqb s "monday" || String.eqb s "mon" then (1, None)
  else if String.eqb s "tuesday" || String.eqb s "tue" then (2, None)
  else if String.eqb s "wednesday" || String.eqb s "wed" then (3, None)
  else if String.eqb s "thursday" || String.eqb s "thu" then (4, None)
  else if String.eqb s "friday" || String.eqb s "fri" then (5, None)
  else if String.eqb s "saturday" || String.eqb s "sat" then (6, None)
  else if String.eqb s "sunday" || String.eqb s "sun" then (7, None)
  else (0, Some ("invalid weekday: " +:+ dayStr)).

End Weekday.

(* ===================================================================== *)
(** ** Data model and the store of [TimeInWeek] cells                     *)
(* ===================================================================== *)

(** [type TimeInWeek struct { Weekday int; MinutesSinceMidnight int }]. *)
Record TimeInWeek : Type := mkTimeInWeek {
  Weekday : Z;
  MinutesSinceMidnight : Z
}.

(** A non-nil [*TimeInWeek]: the index of a cell of the store. A [*int]
    obtained as [&t.Weekday] is modelled by the location of [t]. *)
Abbreviation loc := nat.

Abbreviation heap := (list TimeInWeek).

(** [type OpeningHours struct { Open *TimeInWeek; Close *TimeInWeek }];
    [None] is the nil pointer. *)
Record OpeningHours : Type := mkOpeningHours {
  Open : option loc;
  Close : option loc
}.

(** Outcome of running a function on a store: it returns a value and the
    store it leaves, or panics (nil dereference) leaving a store, or is still
    inside a [for] loop when the iteration budget ends. *)
Inductive outcome (A : Type) : Type :=
| Done (a : A) (h : heap)
| Panic (h : heap)
| Diverge.

Arguments Done {A} a h.
Arguments Panic {A} h.
Arguments Diverge {A}.

Definition M (A : Type) : Type := heap → outcome A.

Definition ret {A : Type} (a : A) : M A := fun h => Done a h.

Definition bind {A B : Type} (m : M A) (k : A → M B) : M B :=
  fun h =>
    match m h with
    | Done a h' => k a h'
    | Panic h' => Panic h'
    | Diverge => Diverge
    end.

Declare Scope go_scope.
Delimit Scope go_scope with go.
Notation "x <- m ;; k" := (bind m (fun x => k))
  (at level 100, m at next level, right associativity) : go_scope.
Notation "m ;;; k" := (bind m (fun _ => k))
  (at level 100, right associativity) : go_scope.
Open Scope go_scope.

(** [&tiw] of a fresh local: a new cell at the end of the store. *)
Definition alloc (t : TimeInWeek) : M loc :=
  fun h => Done (length h) (h ++ [t]).

(** Follow a pointer before a field access: nil panics. *)
Definition deref (p : option loc) : M loc :=
  fun h => match p with
           | Some l => Done l h
           | None => Panic h
           end.

(** Read the cell at [l] (Go has no dangling pointers, a location outside
    the store is treated like nil). *)
Definition load (l : loc) : M TimeInWeek :=
  fun h => match h !! l with
           | Some t => Done t h
           | None => Panic h
           end.

Definition loadWeekday (l : loc) : M Z := t <- load l ;; ret (Weekday t).

Definition loadMinutes (l : loc) : M Z :=
  t <- load l ;; ret (MinutesSinceMidnight t).

Definition storeWeekday (l : loc) (w : Z) : M unit :=
  t <- load l ;;
  fun h => Done tt (<[l := mkTimeInWeek w (MinutesSinceMidnight t)]> h).

Definition storeMinutes (l : loc) (m : Z) : M unit :=
  t <- load l ;;
  fun h => Done tt (<[l := mkTimeInWeek (Weekday t) m]> h).

(** The value behind an optional pointer, as [reflect.DeepEqual] would
    compare it. *)
Definition view (h : heap) (p : option loc) : option TimeInWeek :=
  match p with
  | Some l => h !! l
  | None => None
  end.

(** A sequence of intervals as values: the weekday and minute fields of
    every entry. *)
Definition snapshot (h : heap) (ohs : list OpeningHours)
  : list (option TimeInWeek * option TimeInWeek) :=
  map (fun oh => (view h (Open oh), view h (Close oh))) ohs.

(* ===================================================================== *)
(** ** Format and Parse                                                   *)
(* ===================================================================== *)

(** [fmt.Sprintf("W%dT%02d:%02d:00", t.Weekday, t.MinutesSinceMidnight/60,
    t.MinutesSinceMidnight%60)]. *)
Definition formatTimeInWeek (t : TimeInWeek) : string :=
  "W" +:+ fmtD (Weekday t) +:+ "T"
      +:+ fmt02D (Z.quot (MinutesSinceMidnight t) 60) +:+ ":"
      +:+ fmt02D (Z.rem (MinutesSinceMidnight t) 60) +:+ ":00".

(** One side of [OpeningHours.String]: [if oh.Open != nil { open = fmt.Sprintf(...) }],
    the empty string for nil. *)
Definition formatEndpoint (v : option TimeInWeek) : string :=
  match v with
  | Some t => formatTimeInWeek t
  | None => EmptyString
  end.

(** [func (oh OpeningHours) String() string]. (A location outside the store,
    which Go never produces, prints like nil.) *)
Definition OpeningHours_String (h : heap) (oh : OpeningHours) : string :=
  let open := formatEndpoint (view h (Open oh)) in
  let close := formatEndpoint (view h (Close oh)) in
  open +:+ "/" +:+ close.

(** [OpeningHoursSliceToString(ohs []OpeningHours) string]. *)
Definition OpeningHoursSliceToString (h : heap) (ohs : list OpeningHours) : string :=
  Join (map (OpeningHours_String h) ohs) ",".

(** [regexp.MustCompile(`^W(\d)T(\d{2}):(\d{2}):\d{2}$`).FindStringSubmatch(v)]:
    the three groups when the whole of [v] has that shape, [None] for the
    nil slice of a failed match. *)
Definition matchTimeInWeek (v : string) : option (string * string * string) :=
  match v with
  | String cW (String d (String cT (String h1 (String h2 (String c1
      (String m1 (String m2 (String c2 (String s1 (String s2 EmptyString)))))))))) =>
      if Ascii.eqb cW "W" && isDigit d && Ascii.eqb cT "T"
         && isDigit h1 && isDigit h2 && Ascii.eqb c1 ":"
         && isDigit m1 && isDigit m2 && Ascii.eqb c2 ":"
         && isDigit s1 && isDigit s2
      then Some (String d EmptyString,
                 String h1 (String h2 EmptyString),
                 String m1 (String m2 EmptyString))
      else None
  | _ => None
  end.

(** [parseWeekDay(v string) int]: 0 for anything but 1..7. *)
Definition parseWeekDay (v : string) : Z :=
  match Atoi v with
  | None => 0
  | Some i => if (i <? 1) || (i >? 7) then 0 else i
  end.

(** [parseTimeInWeek(v string)], returning a [*TimeInWeek] and an error. *)
Definition parseTimeInWeek (v : string) : M (option loc * option string) :=
  match v with
  | EmptyString => ret (None, None)
  | _ =>
      match matchTimeInWeek v with
      | None => ret (None, Some ("invalid value `" +:+ v +:+ "`"))
      | Some (g1, g2, g3) =>
          let weekday := parseWeekDay g1 in
          if weekday =? 0 then
            ret (None, Some ("invalid workday in `" +:+ v +:+
                   "`: expected to be between 1 (monday) and 7 (sunday)"))
          else
            match ParseMinutesSinceMidnight g2 g3 with
            | (_, Some err) =>
                ret (None, Some ("invalid time in `" +:+ v +:+ "`: " +:+ err))
            | (minutesSinceMidnight, None) =>
                p <- alloc (mkTimeInWeek weekday minutesSinceMidnight) ;;
                ret (Some p, None)
            end
      end
  end.

(** The [for _, str := range strs] loop of [ParseOpeningHours]; [ohs] is the
    slice built so far. On an error the function returns [nil] and the
    error. *)
Fixpoint parseSegments (strs : list string) (ohs : list OpeningHours)
  : M (list OpeningHours * option string) :=
  match strs with
  | [] => ret (ohs, None)
  | str :: rest =>
      match str with
      | EmptyString => parseSegments rest ohs
      | _ =>
          match Split str "/" with
          | [part0; part1] =>
              r0 <- parseTimeInWeek part0 ;;
              match r0 with
              | (_, Some err) => ret ([], Some ("invalid opening hours: " +:+ err))
              | (openingHours, None) =>
                  r1 <- parseTimeInWeek part1 ;;
                  match r1 with
                  | (_, Some err) =>
                      ret ([], Some ("invalid closing hours: " +:+ err))
                  | (closingHours, None) =>
                      parseSegments rest
                        (ohs ++ [mkOpeningHours openingHours closingHours])
                  end
              end
          | _ => ret ([], Some ("invalid opening hours string `" +:+ str +:+ "`"))
          end
      end
  end.

(** [ParseOpeningHours(v string) ([]OpeningHours, error)]. *)
Definition ParseOpeningHours (v : string) : M (list OpeningHours * option string) :=
  parseSegments (Split v ",") [].

(* ===================================================================== *)
(** ** Weekday helpers                                                    *)
(* ===================================================================== *)

(** [getWeekDay(weekday int) string]. *)
Definition getWeekDay (weekday : Z) : string :=
  match weekday with
  | 1 => "monday"
  | 2 => "tuesday"
  | 3 => "wednesday"
  | 4 => "thursday"
  | 5 => "friday"
  | 6 => "saturday"
  | 7 => "sunday"
  | _ => EmptyString
  end.

(** [minutesSinceMidnightToTime(m int) string]. *)
Definition minutesSinceMidnightToTime (minutesSinceMidnight : Z) : string :=
  let hours := Z.quot minutesSinceMidnight 60 in
  let minutes := Z.rem minutesSinceMidnight 60 in
  fmt02D hours +:+ ":" +:+ fmt02D minutes.

(** The new value of [*w] in [setNextDay]: [*w%7 + 1]. *)
Definition nextDay (w : Z) : Z := Z.rem w 7 + 1.

(** The new value of [*w] in [setPreviousDay]: [*w - 1], then 7 when that
    is below 1. *)
Definition previousDay (w : Z) : Z :=
  let w' := wrap64 (w - 1) in
  if w' <? 1 then 7 else w'.

(** [setNextDay(w *int)], called on [&t.Weekday] for the cell [t] at [l]. *)
Definition setNextDay (l : loc) : M unit :=
  w <- loadWeekday l ;; storeWeekday l (nextDay w).

(** [setPreviousDay(w *int)], called on [&t.Weekday] for the cell [t] at [l]. *)
Definition setPreviousDay (l : loc) : M unit :=
  w <- loadWeekday l ;; storeWeekday l (previousDay w).

(* ===================================================================== *)
(** ** Day expansion                                                      *)
(* ===================================================================== *)

(** [type TimeRange struct { Open string; Close string }]. *)
Record TimeRange : Type := mkTimeRange {
  TimeRange_Open : string;
  TimeRange_Close : string
}.

(** [addTimeToWeek(times, weekday, openingTime, closingTime)]:
    [times[weekday] = append(times[weekday], TimeRange{...})]. *)
Definition addTimeToWeek (times : gmap string (list TimeRange))
    (weekday openingTime closingTime : string) : gmap string (list TimeRange) :=
  <[weekday := default [] (times !! weekday) ++ [mkTimeRange openingTime closingTime]]> times.

(** The inner loop of [GetHumanReadableTimes]:
    [for oh.Open.Weekday != oh.Close.Weekday { addTimeToWeek(...); setNextDay(&oh.Open.Weekday) }],
    with [po] and [pc] the two pointers of [oh]; [fuel] bounds the number of
    tests of the loop condition. *)
Fixpoint daysLoop (fuel : nat) (po pc : loc) (times : gmap string (list TimeRange))
  : M (gmap string (list TimeRange)) :=
  match fuel with
  | O => fun _ => Diverge
  | S fuel' =>
      ow <- loadWeekday po ;;
      cw <- loadWeekday pc ;;
      if ow =? cw then ret times
      else
        setNextDay po ;;;
        daysLoop fuel' po pc (addTimeToWeek times (getWeekDay ow) "00:00" "24:00")
  end.

(** The first statement of the outer loop's body: a close at minute 0 is
    moved to 24:00 of the day before,
    [if oh.Close.MinutesSinceMidnight == 0 { setPreviousDay(&oh.Close.Weekday); oh.Close.MinutesSinceMidnight = 1440 }]. *)
Definition daysNormalize (pc : loc) : M unit :=
  cm <- loadMinutes pc ;;
  if cm =? 0 then setPreviousDay pc ;;; storeMinutes pc 1440 else ret tt.

(** The second statement of the body: [if oh.Open.Weekday == oh.Close.Weekday
    { ... } else { ... }], which adds the ranges of one interval. *)
Definition daysEmit (fuel : nat) (po pc : loc)
    (times : gmap string (list TimeRange)) : M (gmap string (list TimeRange)) :=
  ow <- loadWeekday po ;;
  cw <- loadWeekday pc ;;
  if ow =? cw then
    om <- loadMinutes po ;;
    cm <- loadMinutes pc ;;
    ret (addTimeToWeek times (getWeekDay ow)
           (minutesSinceMidnightToTime om) (minutesSinceMidnightToTime cm))
  else
    om <- loadMinutes po ;;
    setNextDay po ;;;
    times' <- daysLoop fuel po pc
                (addTimeToWeek times (getWeekDay ow)
                   (minutesSinceMidnightToTime om) "24:00") ;;
    cw' <- loadWeekday pc ;;
    cm <- loadMinutes pc ;;
    ret (addTimeToWeek times' (getWeekDay cw') "00:00"
           (minutesSinceMidnightToTime cm)).

(** The body of the outer loop of [GetHumanReadableTimes] for one [oh]; the
    first use of [oh.Close] and of [oh.Open] panics when the pointer is nil. *)
Definition daysBody (fuel : nat) (oh : OpeningHours)
    (times : gmap string (list TimeRange)) : M (gmap string (list TimeRange)) :=
  pc <- deref (Close oh) ;;
  daysNormalize pc ;;;
  po <- deref (Open oh) ;;
  daysEmit fuel po pc times.

(** [for _, oh := range ohs { ... }] of [GetHumanReadableTimes]. *)
Fixpoint daysRange (fuel : nat) (ohs : list OpeningHours)
    (times : gmap string (list TimeRange)) : M (gmap string (list TimeRange)) :=
  match ohs with
  | [] => ret times
  | oh :: rest =>
      times' <- daysBody fuel oh times ;;
      daysRange fuel rest times'
  end.

(** [GetHumanReadableTimes(ohs []OpeningHours) map[string][]TimeRange];
    [None] is the nil map returned for an empty slice. *)
Definition GetHumanReadableTimes (fuel : nat) (ohs : list OpeningHours)
  : M (option (gmap string (list TimeRange))) :=
  match ohs with
  | [] => ret None
  | _ => times <- daysRange fuel ohs ∅ ;; ret (Some times)
  end.

(* ===================================================================== *)
(** ** OCPI projection                                                    *)
(* ===================================================================== *)

(** [type OCPIRegularHours struct { Weekday int; PeriodBegin, PeriodEnd string }]. *)
Record OCPIRegularHours : Type := mkOCPIRegularHours {
  OCPI_Weekday : Z;
  PeriodBegin : string;
  PeriodEnd : string
}.

(** [type OCPIOpeningTimes struct { TwentyFourSeven bool; RegularHours *[]OCPIRegularHours }]. *)
Record OCPIOpeningTimes : Type := mkOCPIOpeningTimes {
  TwentyFourSeven : bool;
  RegularHours : option (list OCPIRegularHours)
}.

(** The [for _, oh := range ohs] loop of [isTwentyFourSeven]. *)
Fixpoint isTwentyFourSevenRange (ohs : list OpeningHours) : M bool :=
  match ohs with
  | [] => ret true
  | oh :: rest =>
      match Open oh, Close oh with
      | Some po, Some pc =>
          o <- load po ;;
          c <- load pc ;;
          if negb (Weekday o =? 1) || negb (Weekday c =? 7) then ret false
          else if negb (MinutesSinceMidnight o =? 0)
                  || negb (MinutesSinceMidnight c =? 1440) then ret false
          else isTwentyFourSevenRange rest
      | _, _ => ret false
      end
  end.

(** [isTwentyFourSeven(ohs []OpeningHours) bool]. *)
Definition isTwentyFourSeven (ohs : list OpeningHours) : M bool :=
  match ohs with
  | [] => ret false
  | _ => isTwentyFourSevenRange ohs
  end.

(** The inner loop of [GetOCPIOpeningTimes]. *)
Fixpoint ocpiLoop (fuel : nat) (po pc : loc) (regularHours : list OCPIRegularHours)
  : M (list OCPIRegularHours) :=
  match fuel with
  | O => fun _ => Diverge
  | S fuel' =>
      ow <- loadWeekday po ;;
      cw <- loadWeekday pc ;;
      if ow =? cw then ret regularHours
      else
        setNextDay po ;;;
        ocpiLoop fuel' po pc
          (regularHours ++ [mkOCPIRegularHours ow "00:00" "00:00"])
  end.

(** The [switch oh.Close.MinutesSinceMidnight] of the outer loop's body:
    [case 0: setPreviousDay(&oh.Close.Weekday)] and
    [case 1440: oh.Close.MinutesSinceMidnight = 0]. *)
Definition ocpiNormalize (pc : loc) : M unit :=
  cm <- loadMinutes pc ;;
  if cm =? 0 then setPreviousDay pc
  else if cm =? 1440 then storeMinutes pc 0
  else ret tt.

(** The [if oh.Open.Weekday == oh.Close.Weekday { ... } else { ... }] of the
    body, which appends the regular hours of one interval. *)
Definition ocpiEmit (fuel : nat) (po pc : loc)
    (regularHours : list OCPIRegularHours) : M (list OCPIRegularHours) :=
  ow <- loadWeekday po ;;
  cw <- loadWeekday pc ;;
  if ow =? cw then
    om <- loadMinutes po ;;
    cm <- loadMinutes pc ;;
    ret (regularHours ++
           [mkOCPIRegularHours ow (minutesSinceMidnightToTime om)
              (minutesSinceMidnightToTime cm)])
  else
    om <- loadMinutes po ;;
    setNextDay po ;;;
    regularHours' <- ocpiLoop fuel po pc
                       (regularHours ++
                          [mkOCPIRegularHours ow (minutesSinceMidnightToTime om) "00:00"]) ;;
    cw' <- loadWeekday pc ;;
    cm <- loadMinutes pc ;;
    ret (regularHours' ++
           [mkOCPIRegularHours cw' "00:00" (minutesSinceMidnightToTime cm)]).

(** The body of the outer loop of [GetOCPIOpeningTimes] for one [oh]. *)
Definition ocpiBody (fuel : nat) (oh : OpeningHours)
    (regularHours : list OCPIRegularHours) : M (list OCPIRegularHours) :=
  pc <- deref (Close oh) ;;
  ocpiNormalize pc ;;;
  po <- deref (Open oh) ;;
  ocpiEmit fuel po pc regularHours.

(** [for _, oh := range ohs { ... }] of [GetOCPIOpeningTimes]. *)
Fixpoint ocpiRange (fuel : nat) (ohs : list OpeningHours)
    (regularHours : list OCPIRegularHours) : M (list OCPIRegularHours) :=
  match ohs with
  | [] => ret regularHours
  | oh :: rest =>
      regularHours' <- ocpiBody fuel oh regularHours ;;
      ocpiRange fuel rest regularHours'
  end.

(** [GetOCPIOpeningTimes(ohs []OpeningHours) OCPIOpeningTimes]. *)
Definition GetOCPIOpeningTimes (fuel : nat) (ohs : list OpeningHours)
  : M OCPIOpeningTimes :=
  b <- isTwentyFourSeven ohs ;;
  if b then ret (mkOCPIOpeningTimes true None)
  else
    regularHours <- ocpiRange fuel ohs [] ;;
    match regularHours with
    | [] => ret (mkOCPIOpeningTimes false None)
    | _ => ret (mkOCPIOpeningTimes false (Some regularHours))
    end.

(* ===================================================================== *)
(** ** Definitions used to state and prove the properties                 *)
(* ===================================================================== *)

(** The common shape of the two inner loops ([daysLoop], [ocpiLoop]):
    while the open weekday differs from the close weekday, record the open
    weekday with [emit] and advance it with [setNextDay]. *)
Fixpoint walkLoop {A : Type} (emit : A → Z → A) (fuel : nat) (po pc : loc) (acc : A)
  : M A :=
  match fuel with
  | O => fun _ => Diverge
  | S fuel' =>
      ow <- loadWeekday po ;;
      cw <- loadWeekday pc ;;
      if ow =? cw then ret acc
      else setNextDay po ;;; walkLoop emit fuel' po pc (emit acc ow)
  end.

(** [n] successive weekdays from [w] on, each the [nextDay] of the one
    before. *)
Fixpoint cycleDays (w : Z) (n : nat) : list Z :=
  match n with
  | O => []
  | S n' => w :: cycleDays (nextDay w) n'
  end.

(** The data-model invariant on a weekday. *)
Definition inWeek (w : Z) : Prop := 1 ≤ w ≤ 7.

(** The byte [c] does not occur in [s]. *)
Fixpoint noByte (c : ascii) (s : string) : bool :=
  match s with
  | EmptyString => true
  | String x s' => negb (Ascii.eqb x c) && noByte c s'
  end.

(** The data-model invariant on a cell: weekday in 1..7, minutes in 0..1440. *)
Definition legalTime (t : TimeInWeek) : Prop :=
  inWeek (Weekday t) ∧ 0 ≤ MinutesSinceMidnight t ≤ 1440.

(** An endpoint is absent or points to a cell satisfying the invariant. *)
Definition legalEndpoint (h : heap) (p : option loc) : Prop :=
  match p with
  | None => True
  | Some l => ∃ t, h !! l = Some t ∧ legalTime t
  end.

(** A legally constructed interval. *)
Definition legal (h : heap) (oh : OpeningHours) : Prop :=
  legalEndpoint h (Open oh) ∧ legalEndpoint h (Close oh).

(** Executable check that the printed form of the cell [(w, m)] is not
    empty, holds no [,] and no [/], and parses back to [(w, m)]. *)
Definition tokenCheck (w m : Z) : bool :=
  let v := formatTimeInWeek (mkTimeInWeek w m) in
  noByte "," v && noByte "/" v
  && match v with EmptyString => false | _ => true end
  && match matchTimeInWeek v with
     | Some (g1, g2, g3) =>
         (parseWeekDay g1 =? w) && negb (w =? 0)
         && match ParseMinutesSinceMidnight g2 g3 with
            | (m', None) => m' =? m
            | _ => false
            end
     | None => false
     end.

(** Both endpoints of [oh] are present and point to cells of [h] whose
    weekdays satisfy the data-model invariant. *)
Definition present (h : heap) (oh : OpeningHours) : Prop :=
  ∃ (po pc : loc) (o c : TimeInWeek),
    Open oh = Some po ∧ Close oh = Some pc ∧
    h !! po = Some o ∧ h !! pc = Some c ∧
    inWeek (Weekday o) ∧ inWeek (Weekday c).

(** No pointer of [oh] leaves the store (always so in Go). *)
Definition wellFormed (h : heap) (oh : OpeningHours) : Prop :=
  (∀ p, Open oh = Some p → is_Some (h !! p)) ∧
  (∀ p, Close oh = Some p → is_Some (h !! p)).

(** [oh] is exactly open=(1,0), close=(7,1440). *)
Definition fullWeek (h : heap) (oh : OpeningHours) : Prop :=
  view h (Open oh) = Some (mkTimeInWeek 1 0) ∧
  view h (Close oh) = Some (mkTimeInWeek 7 1440).

(** [h'] has the cells of [h], and a weekday that was in 1..7 still is. *)
Definition keeps (h h' : heap) : Prop :=
  ∀ (l : loc) (t : TimeInWeek),
    h !! l = Some t →
    ∃ t', h' !! l = Some t' ∧ (inWeek (Weekday t) → inWeek (Weekday t')).

(** One call of [addTimeToWeek]: a weekday number and the range added to
    that day's list. *)
Definition addEntry (times : gmap string (list TimeRange)) (e : Z * TimeRange)
  : gmap string (list TimeRange) :=
  addTimeToWeek times (getWeekDay e.1) (TimeRange_Open e.2) (TimeRange_Close e.2).

(** The close cell as [daysNormalize] leaves it. *)
Definition daysClose (c : TimeInWeek) : TimeInWeek :=
  if MinutesSinceMidnight c =? 0
  then mkTimeInWeek (previousDay (Weekday c)) 1440
  else c.

(** The close cell as [ocpiNormalize] leaves it. *)
Definition ocpiClose (c : TimeInWeek) : TimeInWeek :=
  if MinutesSinceMidnight c =? 0
  then mkTimeInWeek (previousDay (Weekday c)) 0
  else if MinutesSinceMidnight c =? 1440
  then mkTimeInWeek (Weekday c) 0
  else c.

(** From the spec's words (4.2, step 3): the weekdays strictly between [ow]
    and [cw], walking forward from [ow] with 7 followed by 1. *)
Definition specWeekdaysBetween (ow cw : Z) : list Z :=
  map (fun k => (ow - 1 + Z.of_nat k) mod 7 + 1)
      (seq 1 (Z.to_nat ((cw - ow) mod 7) - 1)).

(** From the spec's words (4.2, steps 2 and 3): the day ranges of an interval
    that opens at [o] and closes at [c], in the order they are emitted. *)
Definition specDayEntries (o c : TimeInWeek) : list (Z * TimeRange) :=
  if Weekday o =? Weekday c then
    [(Weekday o,
      mkTimeRange (minutesSinceMidnightToTime (MinutesSinceMidnight o))
                  (minutesSinceMidnightToTime (MinutesSinceMidnight c)))]
  else
    [(Weekday o,
      mkTimeRange (minutesSinceMidnightToTime (MinutesSinceMidnight o)) "24:00")]
    ++ map (fun w => (w, mkTimeRange "00:00" "24:00"))
           (specWeekdaysBetween (Weekday o) (Weekday c))
    ++ [(Weekday c,
         mkTimeRange "00:00" (minutesSinceMidnightToTime (MinutesSinceMidnight c)))].

(** From the spec's words (4.3): the regular hours of an interval that opens
    at [o] and closes at [c], in the order they are emitted. *)
Definition specOcpiEntries (o c : TimeInWeek) : list OCPIRegularHours :=
  if Weekday o =? Weekday c then
    [mkOCPIRegularHours (Weekday o)
       (minutesSinceMidnightToTime (MinutesSinceMidnight o))
       (minutesSinceMidnightToTime (MinutesSinceMidnight c))]
  else
    [mkOCPIRegularHours (Weekday o)
       (minutesSinceMidnightToTime (MinutesSinceMidnight o)) "00:00"]
    ++ map (fun w => mkOCPIRegularHours w "00:00" "00:00")
           (specWeekdaysBetween (Weekday o) (Weekday c))
    ++ [mkOCPIRegularHours (Weekday c) "00:00"
          (minutesSinceMidnightToTime (MinutesSinceMidnight c))].

(* ===================================================================== *)
(** ** Further definitions: pointers of a sequence                        *)
(* ===================================================================== *)

(** The non-nil pointers held by a sequence of intervals, in order. *)
Definition ptrs (ohs : list OpeningHours) : list loc :=
  concat (map (fun oh => option_list (Open oh) ++ option_list (Close oh)) ohs).

(** Executable check that [minutesSinceMidnightToTime m] is two bytes, a
    colon and two bytes, and that [ParseMinutesSinceMidnight] reads [m] back
    from the two pairs. *)
Definition clockCheck (m : Z) : bool :=
  match minutesSinceMidnightToTime m with
  | String a (String b (String c (String d (String e EmptyString)))) =>
      Ascii.eqb c ":"
      && match ParseMinutesSinceMidnight (String a (String b EmptyString))
                 (String d (String e EmptyString)) with
         | (m', None) => m' =? m
         | _ => false
         end
  | _ => false
  end.

(** The byte of the decimal digit [d] (for [d] in 0..9). *)
Definition digitChar (d : Z) : ascii := ascii_of_nat (48 + Z.to_nat d).

(** The notation [W<d>T<a><b>:<c><e>:<s1><s2>] written with the seven
    decimal digits given. *)
Definition tokenOf (d a b c e s1 s2 : Z) : string :=
  String "W" (String (digitChar d) (String "T"
    (String (digitChar a) (String (digitChar b) (String ":"
      (String (digitChar c) (String (digitChar e) (String ":"
        (String (digitChar s1) (String (digitChar s2) EmptyString)))))))))).

(** A decimal digit. *)
Definition isDigitValue (d : Z) : Prop := 0 ≤ d ≤ 9.

(* ===================================================================== *)
(** ** The variant that expands a string directly                         *)
(* ===================================================================== *)

(** The second file of the package keeps an older [GetHumanReadableTimes]
    that takes the text itself, walks a local [weekInt] and touches no
    [TimeInWeek] cell. Its [getWeekDay], [addTimeToWeek] and [TimeRange] are
    those above. A result is [None] when the loop budget ends before the call
    returns. *)
Module TextVariant.

(** [func (w *weekInt) Next()]: the new value of [*w]. *)
Definition Next (w : Z) : Z := Z.rem w 7 + 1.

(** [func (w *weekInt) Previous()]: the new value of [*w]. *)
Definition Previous (w : Z) : Z :=
  let w' := wrap64 (w - 1) in
  if w' <? 1 then 7 else w'.

(** [GetWeekInt(v string) int]: full names only, 0 for anything else. *)
Definition GetWeekInt (unicodeLower : string → string) (v : string) : Z :=
  let s := ToLower unicodeLower v in
  if String.eqb s "monday" then 1
  else if String.eqb s "tuesday" then 2
  else if String.eqb s "wednesday" then 3
  else if String.eqb s "thursday" then 4
  else if String.eqb s "friday" then 5
  else if String.eqb s "saturday" then 6
  else if String.eqb s "sunday" then 7
  else 0.

(** [getHumanReadableTime(v string, endTime bool) (weekInt, string, string, error)].
    The error of [strconv.Atoi] is dropped ([weekIndex, _ :=]): 0 then. *)
Definition getHumanReadableTime (v : string) (endTime : bool)
  : Z * string * string * option string :=
  match matchTimeInWeek v with
  | None => (0, EmptyString, EmptyString, Some ("invalid value `" +:+ v +:+ "`"))
  | Some (g1, g2, g3) =>
      let weekIndex := default 0 (Atoi g1) in
      let midnight := String.eqb g2 "00" && String.eqb g3 "00" && endTime in
      let weekI := if midnight then Previous weekIndex else weekIndex in
      let hours := if midnight then "24"%string else g2 in
      let minutes := g3 in
      (weekI, getWeekDay weekI, hours +:+ ":" +:+ minutes, None)
  end.

(** [for currentWeekInt != closingWeekInt { addTimeToWeek(...); currentWeekInt.Next() }]. *)
Fixpoint daysLoop (fuel : nat) (currentWeekInt closingWeekInt : Z)
    (times : gmap string (list TimeRange)) : option (gmap string (list TimeRange)) :=
  match fuel with
  | O => None
  | S fuel' =>
      if currentWeekInt =? closingWeekInt then Some times
      else daysLoop fuel' (Next currentWeekInt) closingWeekInt
             (addTimeToWeek times (getWeekDay currentWeekInt) "00:00" "24:00")
  end.

(** The [for _, str := range strs] loop of [GetHumanReadableTimes]; an error
    returns the nil map ([None]) with it. *)
Fixpoint segments (fuel : nat) (strs : list string)
    (openingTimes : gmap string (list TimeRange))
  : option (option (gmap string (list TimeRange)) * option string) :=
  match strs with
  | [] => Some (Some openingTimes, None)
  | str :: rest =>
      match str with
      | EmptyString => segments fuel rest openingTimes
      | _ =>
          let failure :=
            Some (None, Some ("invalid opening hours string `" +:+ str +:+ "`")) in
          match Split str "/" with
          | [part0; part1] =>
              match getHumanReadableTime part0 false with
              | (_, _, _, Some _) => failure
              | (openingWeekInt, openingWeekday, openingTime, None) =>
                  match getHumanReadableTime part1 true with
                  | (_, _, _, Some _) => failure
                  | (closingWeekInt, closingWeekday, closingTime, None) =>
                      if openingWeekInt =? closingWeekInt then
                        segments fuel rest
                          (addTimeToWeek openingTimes openingWeekday
                             openingTime closingTime)
                      else
                        match daysLoop fuel (Next openingWeekInt) closingWeekInt
                                (addTimeToWeek openingTimes openingWeekday
                                   openingTime "24:00") with
                        | None => None
                        | Some times =>
                            segments fuel rest
                              (addTimeToWeek times closingWeekday "00:00" closingTime)
                        end
                  end
              end
          | _ => failure
          end
      end
  end.

(** [GetHumanReadableTimes(s string) (map[string][]TimeRange, error)]. *)
Definition GetHumanReadableTimes (fuel : nat) (s : string)
  : option (option (gmap string (list TimeRange)) * option string) :=
  segments fuel (Split s ",") ∅.

End TextVariant.

(* ===================================================================== *)
(** ** Further definitions: whole sequences                               *)
(* ===================================================================== *)

(** An endpoint that the expansions can use: nil, or a cell of the store
    whose weekday is in 1..7. *)
Definition usableEndpoint (h : heap) (p : option loc) : Prop :=
  match p with
  | None => True
  | Some l => ∃ t, h !! l = Some t ∧ inWeek (Weekday t)
  end.

Definition usable (h : heap) (oh : OpeningHours) : Prop :=
  usableEndpoint h (Open oh) ∧ usableEndpoint h (Close oh).

(** Neither endpoint of [oh] is nil. *)
Definition bothEndpoints (oh : OpeningHours) : Prop :=
  is_Some (Open oh) ∧ is_Some (Close oh).

(** The day ranges of [oh] as read in [h]: those of its open cell and of its
    close cell as [daysNormalize] leaves it. *)
Definition dayEntriesOf (h : heap) (oh : OpeningHours) : list (Z * TimeRange) :=
  match view h (Open oh), view h (Close oh) with
  | Some o, Some c => specDayEntries o (daysClose c)
  | _, _ => []
  end.

(** The regular hours of [oh] as read in [h]. *)
Definition ocpiEntriesOf (h : heap) (oh : OpeningHours) : list OCPIRegularHours :=
  match view h (Open oh), view h (Close oh) with
  | Some o, Some c => specOcpiEntries o (ocpiClose c)
  | _, _ => []
  end.

(* ===================================================================== *)
(** ** The variant that returns printed ranges                            *)
(* ===================================================================== *)

(** The file [openinghours.go] keeps the oldest [GetHumanReadableTimes]: as
    [TextVariant], with plain [int] weekdays, the steps of [Next] and
    [Previous] written out in place, and each range stored as a string. *)
Module StringVariant.

(** [addTimeToWeek]: appends [fmt.Sprintf("open: %s, close: %s", ...)]. *)
Definition addTimeToWeek (times : gmap string (list string))
    (weekday openingTime closingTime : string) : gmap string (list string) :=
  <[weekday := default [] (times !! weekday)
               ++ ["open: " +:+ openingTime +:+ ", close: " +:+ closingTime]]> times.

(** [getHumanReadableTime(v string, endTime bool) (int, string, string, error)]. *)
Definition getHumanReadableTime (v : string) (endTime : bool)
  : Z * string * string * option string :=
  match matchTimeInWeek v with
  | None => (0, EmptyString, EmptyString, Some ("invalid value `" +:+ v +:+ "`"))
  | Some (g1, g2, g3) =>
      let weekInt := default 0 (Atoi g1) in
      let midnight := String.eqb g2 "00" && String.eqb g3 "00" && endTime in
      let weekInt :=
        if midnight then
          let weekInt := wrap64 (weekInt - 1) in
          if weekInt <? 1 then 7 else weekInt
        else weekInt in
      let hours := if midnight then "24"%string else g2 in
      let minutes := g3 in
      (weekInt, getWeekDay weekInt, hours +:+ ":" +:+ minutes, None)
  end.

(** [for currentWeekInt != closingWeekInt { addTimeToWeek(...); currentWeekInt = currentWeekInt%7 + 1 }]. *)
Fixpoint daysLoop (fuel : nat) (currentWeekInt closingWeekInt : Z)
    (times : gmap string (list string)) : option (gmap string (list string)) :=
  match fuel with
  | O => None
  | S fuel' =>
      if currentWeekInt =? closingWeekInt then Some times
      else daysLoop fuel' (Z.rem currentWeekInt 7 + 1) closingWeekInt
             (addTimeToWeek times (getWeekDay currentWeekInt) "00:00" "24:00")
  end.

(** The [for _, str := range strs] loop of [GetHumanReadableTimes]. *)
Fixpoint segments (fuel : nat) (strs : list string)
    (openingTimes : gmap string (list string))
  : option (option (gmap string (list string)) * option string) :=
  match strs with
  | [] => Some (Some openingTimes, None)
  | str :: rest =>
      match str with
      | EmptyString => segments fuel rest openingTimes
      | _ =>
          let failure :=
            Some (None, Some ("invalid opening hours string `" +:+ str +:+ "`")) in
          match Split str "/" with
          | [part0; part1] =>
              match getHumanReadableTime part0 false with
              | (_, _, _, Some _) => failure
              | (openingWeekInt, openingWeekday, openingTime, None) =>
                  match getHumanReadableTime part1 true with
                  | (_, _, _, Some _) => failure
                  | (closingWeekInt, closingWeekday, closingTime, None) =>
                      if openingWeekInt =? closingWeekInt then
                        segments fuel rest
                          (addTimeToWeek openingTimes openingWeekday
                             openingTime closingTime)
                      else
                        match daysLoop fuel (Z.rem openingWeekInt 7 + 1) closingWeekInt
                                (addTimeToWeek openingTimes openingWeekday
                                   openingTime "24:00") with
                        | None => None
                        | Some times =>
                            segments fuel rest
                              (addTimeToWeek times closingWeekday "00:00" closingTime)
                        end
                  end
              end
          | _ => failure
          end
      end
  end.

(** [GetHumanReadableTimes(s string) (map[string][]string, error)]. *)
Definition GetHumanReadableTimes (fuel : nat) (s : string)
  : option (option (gmap string (list string)) * option string) :=
  segments fuel (Split s ",") ∅.

End StringVariant.

(** A range as [StringVariant.addTimeToWeek] prints it. *)
Definition rangeText (r : TimeRange) : string :=
  "open: " +:+ TimeRange_Open r +:+ ", close: " +:+ TimeRange_Close r.

(** A result of [TextVariant.GetHumanReadableTimes] with every range printed. *)
Definition printed
    (r : option (option (gmap string (list TimeRange)) * option string))
  : option (option (gmap string (list string)) * option string) :=
  match r with
  | None => None
  | Some (m, e) => Some (fmap (M := option) (fmap (M := gmap string) (map rangeText)) m, e)
  end.

(** A day range as an OCPI regular-hours entry: the same weekday and begin,
    and the end with 24:00 written 00:00. *)
Definition toRegularHours (e : Z * TimeRange) : OCPIRegularHours :=
  mkOCPIRegularHours e.1 (TimeRange_Open e.2)
    (if String.eqb (TimeRange_Close e.2) "24:00" then "00:00"%string
     else TimeRange_Close e.2).

(* ===================================================================== *)
(** * Properties                                                         *)
(* ===================================================================== *)

(* ===================================================================== *)
(** ** Clock values: [ParseMinutesSinceMidnight]                          *)
(* ===================================================================== *)

Lemma ParseMinutesSinceMidnight_ok (v1 v2 : string) (hours minutes : Z) :
  Atoi v1 = Some hours → 0 ≤ hours ≤ 24 →
  Atoi v2 = Some minutes → 0 ≤ minutes ≤ 59 →
  ¬ (hours = 24 ∧ minutes ≠ 0) →
  ParseMinutesSinceMidnight v1 v2 = (hours * 60 + minutes, None).
Proof.
  intros H1 Hh H2 Hm Hn. unfold ParseMinutesSinceMidnight. rewrite H1, H2.
  destruct (hours <? 0) eqn:E1; [lia|].
  destruct (hours >? 24) eqn:E2; [lia|]. simpl.
  destruct (minutes <? 0) eqn:E3; [lia|].
  destruct (minutes >? 59) eqn:E4; [lia|]. simpl.
  destruct (hours =? 24) eqn:E5; simpl; [|reflexivity].
  destruct (minutes =? 0) eqn:E6; simpl; [reflexivity|].
  exfalso. apply Hn. lia.
Qed.

Lemma ParseMinutesSinceMidnight_inv (v1 v2 : string) (n : Z) :
  ParseMinutesSinceMidnight v1 v2 = (n, None) →
  ∃ hours minutes,
    Atoi v1 = Some hours ∧ 0 ≤ hours ≤ 24 ∧
    Atoi v2 = Some minutes ∧ 0 ≤ minutes ≤ 59 ∧
    ¬ (hours = 24 ∧ minutes ≠ 0) ∧ n = hours * 60 + minutes.
Proof.
  unfold ParseMinutesSinceMidnight.
  destruct (Atoi v1) as [hours|]; [|discriminate].
  destruct (hours <? 0) eqn:E1; [discriminate|].
  destruct (hours >? 24) eqn:E2; [discriminate|]. simpl.
  destruct (Atoi v2) as [minutes|]; [|discriminate].
  destruct (minutes <? 0) eqn:E3; [discriminate|].
  destruct (minutes >? 59) eqn:E4; [discriminate|]. simpl.
  destruct (hours =? 24) eqn:E5; simpl.
  - destruct (minutes =? 0) eqn:E6; simpl; [|discriminate].
    intros [= <-]. exists hours, minutes. repeat split; try lia; reflexivity.
  - intros [= <-]. exists hours, minutes. repeat split; try lia; reflexivity.
Qed.

Lemma ParseMinutesSinceMidnight_bad_hours (v1 v2 : string) :
  (Atoi v1 = None ∨ ∃ hours, Atoi v1 = Some hours ∧ ¬ 0 ≤ hours ≤ 24) →
  ParseMinutesSinceMidnight v1 v2 = (0, Some "invalid hours value"%string).
Proof.
  unfold ParseMinutesSinceMidnight. intros [->|(hours & -> & Hh)]; [reflexivity|].
  destruct (hours <? 0) eqn:E1; [reflexivity|].
  destruct (hours >? 24) eqn:E2; [reflexivity|]. lia.
Qed.

Lemma ParseMinutesSinceMidnight_bad_minutes (v1 v2 : string) (hours : Z) :
  Atoi v1 = Some hours → 0 ≤ hours ≤ 24 →
  (Atoi v2 = None ∨ ∃ minutes, Atoi v2 = Some minutes ∧ ¬ 0 ≤ minutes ≤ 59) →
  ParseMinutesSinceMidnight v1 v2 = (0, Some "invalid minutes value"%string).
Proof.
  unfold ParseMinutesSinceMidnight. intros -> Hh.
  destruct (hours <? 0) eqn:E1; [lia|].
  destruct (hours >? 24) eqn:E2; [lia|]. simpl.
  intros [->|(minutes & -> & Hm)]; [reflexivity|].
  destruct (minutes <? 0) eqn:E3; [reflexivity|].
  destruct (minutes >? 59) eqn:E4; [reflexivity|]. lia.
Qed.

Lemma ParseMinutesSinceMidnight_24_nonzero (v1 v2 : string) (minutes : Z) :
  Atoi v1 = Some 24 → Atoi v2 = Some minutes → 0 ≤ minutes ≤ 59 → minutes ≠ 0 →
  ParseMinutesSinceMidnight v1 v2 = (0, Some "invalid value"%string).
Proof.
  unfold ParseMinutesSinceMidnight. intros -> -> Hm Hz. simpl.
  destruct (minutes <? 0) eqn:E3; [lia|].
  destruct (minutes >? 59) eqn:E4; [lia|]. simpl.
  destruct (minutes =? 0) eqn:E6; [lia|]. reflexivity.
Qed.

(** C7. [ParseMinutesSinceMidnight] returns [hours*60 + minutes] exactly when
    the hour text parses as an integer in [0,24], the minute text parses as
    an integer in [0,59] and it is not the case that hours is 24 with
    non-zero minutes. The checks run in this order: unparseable or
    out-of-range hours give the hours-value error; with valid hours,
    unparseable or out-of-range minutes give the minutes-value error; with
    both valid, hour 24 with a non-zero minute gives the generic
    invalid-value error. In particular ("25","00") and ("24","01") fail with
    the hours-value and the generic error and ("24","00") is 1440. *)
Theorem ParseMinutesSinceMidnight_spec (v1 v2 : string) :
  (∀ n, ParseMinutesSinceMidnight v1 v2 = (n, None) ↔
        ∃ hours minutes,
          Atoi v1 = Some hours ∧ 0 ≤ hours ≤ 24 ∧
          Atoi v2 = Some minutes ∧ 0 ≤ minutes ≤ 59 ∧
          ¬ (hours = 24 ∧ minutes ≠ 0) ∧ n = hours * 60 + minutes)
  ∧ ((Atoi v1 = None ∨ ∃ hours, Atoi v1 = Some hours ∧ ¬ 0 ≤ hours ≤ 24) →
     ParseMinutesSinceMidnight v1 v2 = (0, Some "invalid hours value"%string))
  ∧ (∀ hours, Atoi v1 = Some hours → 0 ≤ hours ≤ 24 →
       (Atoi v2 = None ∨ ∃ minutes, Atoi v2 = Some minutes ∧ ¬ 0 ≤ minutes ≤ 59) →
       ParseMinutesSinceMidnight v1 v2 = (0, Some "invalid minutes value"%string))
  ∧ (∀ minutes, Atoi v1 = Some 24 → Atoi v2 = Some minutes →
       0 ≤ minutes ≤ 59 → minutes ≠ 0 →
       ParseMinutesSinceMidnight v1 v2 = (0, Some "invalid value"%string))
  ∧ ParseMinutesSinceMidnight "25" "00" = (0, Some "invalid hours value"%string)
  ∧ ParseMinutesSinceMidnight "24" "01" = (0, Some "invalid value"%string)
  ∧ ParseMinutesSinceMidnight "24" "00" = (1440, None).
Proof.
  split; [|split; [|split; [|split; [|repeat split]]]].
  - intros n. split.
    + apply ParseMinutesSinceMidnight_inv.
    + intros (hours & minutes & H1 & Hh & H2 & Hm & Hn & ->).
      by apply ParseMinutesSinceMidnight_ok.
  - apply ParseMinutesSinceMidnight_bad_hours.
  - apply ParseMinutesSinceMidnight_bad_minutes.
  - apply ParseMinutesSinceMidnight_24_nonzero.
Qed.

Lemma ParseMinutesSinceMidnight_spec_witness :
  ParseMinutesSinceMidnight "08" "30" = (510, None).
Proof.
  apply (proj1 (ParseMinutesSinceMidnight_spec "08" "30")).
  exists 8, 30. repeat split; try reflexivity; try lia.
Defined.

(* ===================================================================== *)
(** ** Weekday names: [ParseStringWeekdayToTimeWeekday]                   *)
(* ===================================================================== *)

(** C9. [ParseStringWeekdayToTimeWeekday] compares the lower-cased input
    ([strings.ToLower], which on ASCII input moves ['A'..'Z'] to ['a'..'z'])
    with the seven full English weekday names and the seven three-letter
    abbreviations: each maps to its number 1 (Monday) to 7 (Sunday) with a
    nil error, and every other input fails with an error (and the value 0). *)
Theorem ParseStringWeekdayToTimeWeekday_spec
    (unicodeLower : string → string) (dayStr : string) :
  let s := ToLower unicodeLower dayStr in
  let r := ParseStringWeekdayToTimeWeekday unicodeLower dayStr in
  (isASCII dayStr = true → s = lowerBytes dayStr) ∧
  (s = "monday"%string ∨ s = "mon"%string → r = (1, None)) ∧
  (s = "tuesday"%string ∨ s = "tue"%string → r = (2, None)) ∧
  (s = "wednesday"%string ∨ s = "wed"%string → r = (3, None)) ∧
  (s = "thursday"%string ∨ s = "thu"%string → r = (4, None)) ∧
  (s = "friday"%string ∨ s = "fri"%string → r = (5, None)) ∧
  (s = "saturday"%string ∨ s = "sat"%string → r = (6, None)) ∧
  (s = "sunday"%string ∨ s = "sun"%string → r = (7, None)) ∧
  (s ∉ ["monday"; "mon"; "tuesday"; "tue"; "wednesday"; "wed"; "thursday";
        "thu"; "friday"; "fri"; "saturday"; "sat"; "sunday"; "sun"]%string →
   r = (0, Some ("invalid weekday: " +:+ dayStr))).
Proof.
  intros s r. subst r. unfold ParseStringWeekdayToTimeWeekday. fold s.
  split; [intros Ha; subst s; unfold ToLower; by rewrite Ha|].
  generalize s. clear s. intros s.
  repeat split.
  1-7: by intros [-> | ->].
  intros Hn.
  repeat match goal with
  | |- context [String.eqb s ?name] =>
      destruct (String.eqb s name) eqn:?E;
      [ apply String.eqb_eq in E; exfalso; apply Hn; subst s; set_solver | clear E ]
  end.
  reflexivity.
Qed.

Lemma ParseStringWeekdayToTimeWeekday_spec_witness :
  ParseStringWeekdayToTimeWeekday (fun s => s) "friDAY" = (5, None)
  ∧ ParseStringWeekdayToTimeWeekday (fun s => s) "funday"
    = (0, Some "invalid weekday: funday"%string).
Proof.
  split.
  - apply (ParseStringWeekdayToTimeWeekday_spec (fun s => s) "friDAY").
    left. reflexivity.
  - apply (ParseStringWeekdayToTimeWeekday_spec (fun s => s) "funday").
    vm_compute. intros H. repeat (apply elem_of_cons in H as [H|H]; [discriminate H|]).
    by apply elem_of_nil in H.
Defined.

Example weekday_names_examples :
  map (fun s => fst (ParseStringWeekdayToTimeWeekday (fun s => s) s))
      ["Monday"; "TUESDAY"; "wed"; "Thu"; "friDAY"; "SAT"; "sunday"; "sun"; "mon"]%string
  = [1; 2; 3; 4; 5; 6; 7; 7; 1].
Proof. reflexivity. Qed.

(* ===================================================================== *)
(** ** Running the store operations                                       *)
(* ===================================================================== *)

Lemma bind_Done {A B : Type} (m : M A) (k : A → M B) (h h' : heap) (a : A) :
  m h = Done a h' → bind m k h = k a h'.
Proof. unfold bind. by intros ->. Qed.

Lemma load_Some (h : heap) (l : loc) (t : TimeInWeek) :
  h !! l = Some t → load l h = Done t h.
Proof. unfold load. by intros ->. Qed.

Lemma loadWeekday_Some (h : heap) (l : loc) (t : TimeInWeek) :
  h !! l = Some t → loadWeekday l h = Done (Weekday t) h.
Proof. intros H. unfold loadWeekday. by rewrite (bind_Done _ _ _ _ _ (load_Some _ _ _ H)). Qed.

Lemma loadMinutes_Some (h : heap) (l : loc) (t : TimeInWeek) :
  h !! l = Some t → loadMinutes l h = Done (MinutesSinceMidnight t) h.
Proof. intros H. unfold loadMinutes. by rewrite (bind_Done _ _ _ _ _ (load_Some _ _ _ H)). Qed.

Lemma storeWeekday_Some (h : heap) (l : loc) (t : TimeInWeek) (w : Z) :
  h !! l = Some t →
  storeWeekday l w h = Done tt (<[l := mkTimeInWeek w (MinutesSinceMidnight t)]> h).
Proof. intros H. unfold storeWeekday. by rewrite (bind_Done _ _ _ _ _ (load_Some _ _ _ H)). Qed.

Lemma storeMinutes_Some (h : heap) (l : loc) (t : TimeInWeek) (m : Z) :
  h !! l = Some t →
  storeMinutes l m h = Done tt (<[l := mkTimeInWeek (Weekday t) m]> h).
Proof. intros H. unfold storeMinutes. by rewrite (bind_Done _ _ _ _ _ (load_Some _ _ _ H)). Qed.

Lemma setNextDay_Some (h : heap) (l : loc) (t : TimeInWeek) :
  h !! l = Some t →
  setNextDay l h
  = Done tt (<[l := mkTimeInWeek (nextDay (Weekday t)) (MinutesSinceMidnight t)]> h).
Proof.
  intros H. unfold setNextDay.
  rewrite (bind_Done _ _ _ _ _ (loadWeekday_Some _ _ _ H)).
  by apply storeWeekday_Some.
Qed.

Lemma setPreviousDay_Some (h : heap) (l : loc) (t : TimeInWeek) :
  h !! l = Some t →
  setPreviousDay l h
  = Done tt (<[l := mkTimeInWeek (previousDay (Weekday t)) (MinutesSinceMidnight t)]> h).
Proof.
  intros H. unfold setPreviousDay.
  rewrite (bind_Done _ _ _ _ _ (loadWeekday_Some _ _ _ H)).
  by apply storeWeekday_Some.
Qed.

Lemma lookup_store_eq (h : heap) (l : loc) (t t' : TimeInWeek) :
  h !! l = Some t → <[l := t']> h !! l = Some t'.
Proof. intros H. apply list_lookup_insert_eq. by eapply lookup_lt_Some. Qed.

(* ===================================================================== *)
(** ** The weekday cycle                                                  *)
(* ===================================================================== *)

Lemma nextDay_inWeek (w : Z) : inWeek w → inWeek (nextDay w).
Proof.
  unfold inWeek, nextDay. intros H.
  rewrite Z.rem_mod_nonneg by lia.
  pose proof (Z.mod_pos_bound w 7). lia.
Qed.

Lemma nextDay_cases (w : Z) :
  inWeek w → (w = 7 ∧ nextDay w = 1) ∨ (w < 7 ∧ nextDay w = w + 1).
Proof.
  unfold inWeek, nextDay. intros H. rewrite Z.rem_mod_nonneg by lia.
  destruct (decide (w = 7)) as [->|]; [left; by compute|right].
  rewrite Z.mod_small by lia. lia.
Qed.

Lemma wrap64_small (z : Z) :
  -9223372036854775808 ≤ z ≤ 9223372036854775807 → wrap64 z = z.
Proof.
  unfold wrap64.
  change (2 ^ 63) with 9223372036854775808.
  change (2 ^ 64) with 18446744073709551616.
  intros H. rewrite Z.mod_small by lia. lia.
Qed.

Lemma previousDay_cases (w : Z) :
  inWeek w → (w = 1 ∧ previousDay w = 7) ∨ (1 < w ∧ previousDay w = w - 1).
Proof.
  unfold inWeek, previousDay. intros H.
  rewrite wrap64_small by lia.
  destruct (decide (w = 1)) as [->|]; [left; by compute|right].
  destruct (w - 1 <? 1) eqn:E; lia.
Qed.

Lemma previousDay_inWeek (w : Z) : inWeek w → inWeek (previousDay w).
Proof. intros H. destruct (previousDay_cases w H) as [[? ->]|[? ->]]; unfold inWeek in *; lia. Qed.

Lemma steps_next (ow cw : Z) (n : nat) :
  inWeek ow → inWeek cw → ow ≠ cw →
  Z.of_nat n = (cw - ow) mod 7 →
  ∃ n', n = S n' ∧ Z.of_nat n' = (cw - nextDay ow) mod 7.
Proof.
  intros Ho Hc Hne Hn.
  destruct n as [|n'].
  { exfalso. unfold inWeek in *. Z.div_mod_to_equations. lia. }
  exists n'. split; [done|].
  destruct (nextDay_cases ow Ho) as [[-> ->]|[Hlt ->]];
    unfold inWeek in *; Z.div_mod_to_equations; lia.
Qed.

Lemma steps_zero (ow cw : Z) :
  inWeek ow → inWeek cw → 0 = (cw - ow) mod 7 → ow = cw.
Proof. unfold inWeek. intros Ho Hc Hz. Z.div_mod_to_equations. lia. Qed.

Lemma walkLoop_run {A : Type} (emit : A → Z → A) (po pc : loc) (c : TimeInWeek) (n : nat) :
  ∀ (fuel : nat) (acc : A) (h : heap) (o : TimeInWeek),
    po ≠ pc → h !! po = Some o → h !! pc = Some c →
    inWeek (Weekday o) → inWeek (Weekday c) →
    Z.of_nat n = (Weekday c - Weekday o) mod 7 →
    (n < fuel)%nat →
    walkLoop emit fuel po pc acc h
    = Done (foldl emit acc (cycleDays (Weekday o) n))
           (<[po := mkTimeInWeek (Weekday c) (MinutesSinceMidnight o)]> h).
Proof.
  induction n as [|n IH]; intros fuel acc h o Hne Hpo Hpc Ho Hc Hn Hf.
  - destruct fuel as [|fuel]; [lia|]. simpl.
    rewrite (bind_Done _ _ _ _ _ (loadWeekday_Some _ _ _ Hpo)).
    rewrite (bind_Done _ _ _ _ _ (loadWeekday_Some _ _ _ Hpc)).
    pose proof (steps_zero _ _ Ho Hc Hn) as E.
    rewrite E, Z.eqb_refl. unfold ret. f_equal.
    symmetry. apply list_insert_id. rewrite Hpo. f_equal.
    destruct o; simpl in *; by subst.
  - destruct fuel as [|fuel]; [lia|]. simpl.
    rewrite (bind_Done _ _ _ _ _ (loadWeekday_Some _ _ _ Hpo)).
    rewrite (bind_Done _ _ _ _ _ (loadWeekday_Some _ _ _ Hpc)).
    destruct (Weekday o =? Weekday c) eqn:E.
    { apply Z.eqb_eq in E. rewrite E, Z.sub_diag, Z.mod_0_l in Hn by lia. lia. }
    apply Z.eqb_neq in E.
    destruct (steps_next _ _ _ Ho Hc E Hn) as (n' & [= ->] & Hn').
    rewrite (bind_Done _ _ _ _ _ (setNextDay_Some _ _ _ Hpo)).
    rewrite (IH fuel _ _ (mkTimeInWeek (nextDay (Weekday o)) (MinutesSinceMidnight o)));
      simpl; try done.
    + by rewrite list_insert_insert_eq.
    + by eapply lookup_store_eq.
    + by rewrite list_lookup_insert_ne.
    + by apply nextDay_inWeek.
    + lia.
Qed.

(* ===================================================================== *)
(** ** One interval: normalization, loop and emitted entries              *)
(* ===================================================================== *)

(** Outside 1..7 the close weekday is never reached: the loop runs for as
    long as it is given. *)
Lemma walkLoop_unreachable {A : Type} (emit : A → Z → A) (po pc : loc)
    (c : TimeInWeek) (fuel : nat) :
  ∀ (acc : A) (h : heap) (o : TimeInWeek),
    po ≠ pc → h !! po = Some o → h !! pc = Some c →
    inWeek (Weekday o) → ¬ inWeek (Weekday c) →
    walkLoop emit fuel po pc acc h = Diverge.
Proof.
  induction fuel as [|fuel IH]; intros acc h o Hne Hpo Hpc Ho Hc; [done|].
  simpl.
  rewrite (bind_Done _ _ _ _ _ (loadWeekday_Some _ _ _ Hpo)).
  rewrite (bind_Done _ _ _ _ _ (loadWeekday_Some _ _ _ Hpc)).
  destruct (Weekday o =? Weekday c) eqn:E.
  { apply Z.eqb_eq in E. by rewrite E in Ho. }
  rewrite (bind_Done _ _ _ _ _ (setNextDay_Some _ _ _ Hpo)).
  apply (IH _ _ (mkTimeInWeek (nextDay (Weekday o)) (MinutesSinceMidnight o)));
    try done.
  - by eapply lookup_store_eq.
  - by rewrite list_lookup_insert_ne.
  - by apply nextDay_inWeek.
Qed.

Lemma daysLoop_walk (fuel : nat) (po pc : loc) :
  ∀ (times : gmap string (list TimeRange)) (h : heap),
    daysLoop fuel po pc times h
    = walkLoop (fun t w => addEntry t (w, mkTimeRange "00:00" "24:00"))
        fuel po pc times h.
Proof.
  induction fuel as [|fuel IH]; intros times h; [done|].
  simpl. unfold bind.
  destruct (loadWeekday po h) as [ow h1| |]; try done.
  destruct (loadWeekday pc h1) as [cw h2| |]; try done.
  destruct (ow =? cw); [done|].
  destruct (setNextDay po h2) as [[] h3| |]; [apply IH|done|done].
Qed.

Lemma ocpiLoop_walk (fuel : nat) (po pc : loc) :
  ∀ (regularHours : list OCPIRegularHours) (h : heap),
    ocpiLoop fuel po pc regularHours h
    = walkLoop (fun rh w => rh ++ [mkOCPIRegularHours w "00:00" "00:00"])
        fuel po pc regularHours h.
Proof.
  induction fuel as [|fuel IH]; intros rh h; [done|].
  simpl. unfold bind.
  destruct (loadWeekday po h) as [ow h1| |]; try done.
  destruct (loadWeekday pc h1) as [cw h2| |]; try done.
  destruct (ow =? cw); [done|].
  destruct (setNextDay po h2) as [[] h3| |]; [apply IH|done|done].
Qed.

Lemma inWeek_cases (w : Z) :
  inWeek w → w = 1 ∨ w = 2 ∨ w = 3 ∨ w = 4 ∨ w = 5 ∨ w = 6 ∨ w = 7.
Proof. unfold inWeek. lia. Qed.

Lemma cycleDays_between (ow cw : Z) :
  inWeek ow → inWeek cw → ow ≠ cw →
  cycleDays (nextDay ow) (Z.to_nat ((cw - nextDay ow) mod 7))
  = specWeekdaysBetween ow cw.
Proof.
  intros Ho Hc Hne.
  destruct (inWeek_cases ow Ho) as [->|[->|[->|[->|[->|[->| ->]]]]]];
    destruct (inWeek_cases cw Hc) as [->|[->|[->|[->|[->|[->| ->]]]]]];
    solve [done | by vm_compute].
Qed.

Lemma specWeekdaysBetween_length (ow cw : Z) :
  (length (specWeekdaysBetween ow cw) ≤ 5)%nat.
Proof.
  unfold specWeekdaysBetween. rewrite length_map, length_seq.
  pose proof (Z.mod_pos_bound (cw - ow) 7). lia.
Qed.

Lemma daysNormalize_run (h : heap) (pc : loc) (c : TimeInWeek) :
  h !! pc = Some c →
  daysNormalize pc h = Done tt (<[pc := daysClose c]> h).
Proof.
  intros Hpc. unfold daysNormalize, daysClose.
  rewrite (bind_Done _ _ _ _ _ (loadMinutes_Some _ _ _ Hpc)).
  destruct (MinutesSinceMidnight c =? 0).
  - rewrite (bind_Done _ _ _ _ _ (setPreviousDay_Some _ _ _ Hpc)).
    erewrite storeMinutes_Some by (by eapply lookup_store_eq).
    by rewrite list_insert_insert_eq.
  - unfold ret. by rewrite list_insert_id.
Qed.

Lemma ocpiNormalize_run (h : heap) (pc : loc) (c : TimeInWeek) :
  h !! pc = Some c →
  ocpiNormalize pc h = Done tt (<[pc := ocpiClose c]> h).
Proof.
  intros Hpc. unfold ocpiNormalize, ocpiClose.
  rewrite (bind_Done _ _ _ _ _ (loadMinutes_Some _ _ _ Hpc)).
  destruct (MinutesSinceMidnight c =? 0) eqn:E.
  - apply Z.eqb_eq in E. rewrite (setPreviousDay_Some _ _ _ Hpc). by rewrite E.
  - destruct (MinutesSinceMidnight c =? 1440).
    + by apply storeMinutes_Some.
    + unfold ret. by rewrite list_insert_id.
Qed.

Lemma foldl_map_entries {A B C : Type} (f : A → B → A) (g : C → B) (l : list C) :
  ∀ a, foldl f a (map g l) = foldl (fun a x => f a (g x)) a l.
Proof. induction l as [|x l IH]; intros a; simpl; [done|apply IH]. Qed.

Lemma daysEmit_run (fuel : nat) (po pc : loc) (times : gmap string (list TimeRange))
    (h : heap) (o c : TimeInWeek) :
  h !! po = Some o → h !! pc = Some c →
  inWeek (Weekday o) → inWeek (Weekday c) → (6 ≤ fuel)%nat →
  daysEmit fuel po pc times h
  = Done (foldl addEntry times (specDayEntries o c))
         (<[po := mkTimeInWeek (Weekday c) (MinutesSinceMidnight o)]> h).
Proof.
  intros Hpo Hpc Ho Hc Hf. unfold daysEmit, specDayEntries.
  rewrite (bind_Done _ _ _ _ _ (loadWeekday_Some _ _ _ Hpo)).
  rewrite (bind_Done _ _ _ _ _ (loadWeekday_Some _ _ _ Hpc)).
  destruct (Weekday o =? Weekday c) eqn:E.
  - apply Z.eqb_eq in E.
    rewrite (bind_Done _ _ _ _ _ (loadMinutes_Some _ _ _ Hpo)).
    rewrite (bind_Done _ _ _ _ _ (loadMinutes_Some _ _ _ Hpc)).
    unfold ret. simpl. f_equal.
    symmetry. apply list_insert_id. rewrite Hpo, <- E. by destruct o.
  - apply Z.eqb_neq in E.
    assert (Hne : po ≠ pc) by (intros ->; congruence).
    rewrite (bind_Done _ _ _ _ _ (loadMinutes_Some _ _ _ Hpo)).
    rewrite (bind_Done _ _ _ _ _ (setNextDay_Some _ _ _ Hpo)).
    set (h1 := <[po := _]> h).
    assert (Hpo1 : h1 !! po = Some (mkTimeInWeek (nextDay (Weekday o)) (MinutesSinceMidnight o)))
      by (by eapply lookup_store_eq).
    assert (Hpc1 : h1 !! pc = Some c) by (subst h1; by rewrite list_lookup_insert_ne).
    unfold bind at 1. rewrite daysLoop_walk.
    rewrite (walkLoop_run _ po pc c (Z.to_nat ((Weekday c - nextDay (Weekday o)) mod 7))
               fuel _ h1 _ Hne Hpo1 Hpc1); simpl.
    + subst h1. rewrite list_insert_insert_eq.
      set (h2 := <[po := _]> h).
      assert (Hpc2 : h2 !! pc = Some c) by (subst h2; by rewrite list_lookup_insert_ne).
      rewrite (bind_Done _ _ _ _ _ (loadWeekday_Some _ _ _ Hpc2)).
      rewrite (bind_Done _ _ _ _ _ (loadMinutes_Some _ _ _ Hpc2)).
      unfold ret. f_equal.
      rewrite cycleDays_between by done.
      rewrite foldl_app. simpl. rewrite foldl_map_entries. done.
    + by apply nextDay_inWeek.
    + done.
    + pose proof (Z.mod_pos_bound (Weekday c - nextDay (Weekday o)) 7). lia.
    + destruct (nextDay_cases _ Ho) as [[? ->]|[? ->]]; unfold inWeek in *;
        Z.div_mod_to_equations; lia.
Qed.

Lemma foldl_snoc_map {B C : Type} (g : C → B) (l : list C) :
  ∀ acc : list B, foldl (fun a x => a ++ [g x]) acc l = acc ++ map g l.
Proof.
  induction l as [|x l IH]; intros acc; simpl; [by rewrite app_nil_r|].
  rewrite IH. by rewrite <- app_assoc.
Qed.

Lemma ocpiEmit_run (fuel : nat) (po pc : loc) (regularHours : list OCPIRegularHours)
    (h : heap) (o c : TimeInWeek) :
  h !! po = Some o → h !! pc = Some c →
  inWeek (Weekday o) → inWeek (Weekday c) → (6 ≤ fuel)%nat →
  ocpiEmit fuel po pc regularHours h
  = Done (regularHours ++ specOcpiEntries o c)
         (<[po := mkTimeInWeek (Weekday c) (MinutesSinceMidnight o)]> h).
Proof.
  intros Hpo Hpc Ho Hc Hf. unfold ocpiEmit, specOcpiEntries.
  rewrite (bind_Done _ _ _ _ _ (loadWeekday_Some _ _ _ Hpo)).
  rewrite (bind_Done _ _ _ _ _ (loadWeekday_Some _ _ _ Hpc)).
  destruct (Weekday o =? Weekday c) eqn:E.
  - apply Z.eqb_eq in E.
    rewrite (bind_Done _ _ _ _ _ (loadMinutes_Some _ _ _ Hpo)).
    rewrite (bind_Done _ _ _ _ _ (loadMinutes_Some _ _ _ Hpc)).
    unfold ret. simpl. f_equal.
    symmetry. apply list_insert_id. rewrite Hpo, <- E. by destruct o.
  - apply Z.eqb_neq in E.
    assert (Hne : po ≠ pc) by (intros ->; congruence).
    rewrite (bind_Done _ _ _ _ _ (loadMinutes_Some _ _ _ Hpo)).
    rewrite (bind_Done _ _ _ _ _ (setNextDay_Some _ _ _ Hpo)).
    set (h1 := <[po := _]> h).
    assert (Hpo1 : h1 !! po = Some (mkTimeInWeek (nextDay (Weekday o)) (MinutesSinceMidnight o)))
      by (by eapply lookup_store_eq).
    assert (Hpc1 : h1 !! pc = Some c) by (subst h1; by rewrite list_lookup_insert_ne).
    unfold bind at 1. rewrite ocpiLoop_walk.
    rewrite (walkLoop_run _ po pc c (Z.to_nat ((Weekday c - nextDay (Weekday o)) mod 7))
               fuel _ h1 _ Hne Hpo1 Hpc1); simpl.
    + subst h1. rewrite list_insert_insert_eq.
      set (h2 := <[po := _]> h).
      assert (Hpc2 : h2 !! pc = Some c) by (subst h2; by rewrite list_lookup_insert_ne).
      rewrite (bind_Done _ _ _ _ _ (loadWeekday_Some _ _ _ Hpc2)).
      rewrite (bind_Done _ _ _ _ _ (loadMinutes_Some _ _ _ Hpc2)).
      unfold ret. f_equal.
      rewrite cycleDays_between by done.
      rewrite foldl_snoc_map. rewrite <- !app_assoc. done.
    + by apply nextDay_inWeek.
    + done.
    + pose proof (Z.mod_pos_bound (Weekday c - nextDay (Weekday o)) 7). lia.
    + destruct (nextDay_cases _ Ho) as [[? ->]|[? ->]]; unfold inWeek in *;
        Z.div_mod_to_equations; lia.
Qed.

Lemma daysBody_run (fuel : nat) (oh : OpeningHours) (po pc : loc)
    (times : gmap string (list TimeRange)) (h : heap) (o c : TimeInWeek) :
  Open oh = Some po → Close oh = Some pc →
  h !! pc = Some c → <[pc := daysClose c]> h !! po = Some o →
  inWeek (Weekday o) → inWeek (Weekday (daysClose c)) → (6 ≤ fuel)%nat →
  daysBody fuel oh times h
  = Done (foldl addEntry times (specDayEntries o (daysClose c)))
         (<[po := mkTimeInWeek (Weekday (daysClose c)) (MinutesSinceMidnight o)]>
            (<[pc := daysClose c]> h)).
Proof.
  intros HO HC Hpc Hpo Ho Hc Hf. unfold daysBody. rewrite HO, HC.
  unfold deref. unfold bind at 1. unfold bind at 1.
  rewrite (daysNormalize_run _ _ _ Hpc). unfold bind at 1.
  apply daysEmit_run; try done. by eapply lookup_store_eq.
Qed.

Lemma ocpiBody_run (fuel : nat) (oh : OpeningHours) (po pc : loc)
    (regularHours : list OCPIRegularHours) (h : heap) (o c : TimeInWeek) :
  Open oh = Some po → Close oh = Some pc →
  h !! pc = Some c → <[pc := ocpiClose c]> h !! po = Some o →
  inWeek (Weekday o) → inWeek (Weekday (ocpiClose c)) → (6 ≤ fuel)%nat →
  ocpiBody fuel oh regularHours h
  = Done (regularHours ++ specOcpiEntries o (ocpiClose c))
         (<[po := mkTimeInWeek (Weekday (ocpiClose c)) (MinutesSinceMidnight o)]>
            (<[pc := ocpiClose c]> h)).
Proof.
  intros HO HC Hpc Hpo Ho Hc Hf. unfold ocpiBody. rewrite HO, HC.
  unfold deref. unfold bind at 1. unfold bind at 1.
  rewrite (ocpiNormalize_run _ _ _ Hpc). unfold bind at 1.
  apply ocpiEmit_run; try done. by eapply lookup_store_eq.
Qed.

Lemma specDayEntries_length (o c : TimeInWeek) :
  (1 ≤ length (specDayEntries o c) ≤ 7)%nat.
Proof.
  unfold specDayEntries. destruct (Weekday o =? Weekday c); simpl; [lia|].
  rewrite length_app, length_map. simpl.
  pose proof (specWeekdaysBetween_length (Weekday o) (Weekday c)). lia.
Qed.

Lemma specOcpiEntries_length (o c : TimeInWeek) :
  (1 ≤ length (specOcpiEntries o c) ≤ 7)%nat.
Proof.
  unfold specOcpiEntries. destruct (Weekday o =? Weekday c); simpl; [lia|].
  rewrite length_app, length_map. simpl.
  pose proof (specWeekdaysBetween_length (Weekday o) (Weekday c)). lia.
Qed.

Lemma GetHumanReadableTimes_single (fuel : nat) (oh : OpeningHours) (h : heap) :
  GetHumanReadableTimes fuel [oh] h
  = (times <- daysBody fuel oh ∅ ;; ret (Some times)) h.
Proof.
  unfold GetHumanReadableTimes, daysRange, bind.
  by destruct (daysBody fuel oh ∅ h).
Qed.

Lemma specWeekdaysBetween_elem (ow cw w : Z) :
  inWeek ow → inWeek cw → ow ≠ cw →
  w ∈ specWeekdaysBetween ow cw
  ↔ inWeek w ∧ 0 < (w - ow) mod 7 < (cw - ow) mod 7.
Proof.
  intros Ho Hc Hne.
  destruct (inWeek_cases ow Ho) as [->|[->|[->|[->|[->|[->| ->]]]]]];
    destruct (inWeek_cases cw Hc) as [->|[->|[->|[->|[->|[->| ->]]]]]];
    try done;
    match goal with
    | |- context [specWeekdaysBetween ?a ?b] =>
        let l := eval vm_compute in (specWeekdaysBetween a b) in
        change (specWeekdaysBetween a b) with l
    end;
    rewrite ?elem_of_cons, elem_of_nil; unfold inWeek;
    Z.div_mod_to_equations; lia.
Qed.

Example specWeekdaysBetween_examples :
  specWeekdaysBetween 1 2 = []
  ∧ specWeekdaysBetween 6 2 = [7; 1]
  ∧ specWeekdaysBetween 1 7 = [2; 3; 4; 5; 6]
  ∧ specWeekdaysBetween 7 1 = [].
Proof. by vm_compute. Qed.

(** C2. Day expansion of one interval with both endpoints present, weekdays
    in 1..7, whose open weekday differs from its close weekday once the close
    has been normalized (the cells being read in the store the normalization
    leaves): the body of [GetHumanReadableTimes] makes exactly these calls of
    [addTimeToWeek], in this order: (open time, "24:00") on the open weekday;
    ("00:00", "24:00") on each weekday strictly between the two, walking
    forward with 7 followed by 1; ("00:00", close time) on the close weekday.
    In particular open=(1,480), close=(2,960) expands to monday
    [("08:00","24:00")], tuesday [("00:00","16:00")] and nothing else. *)
Theorem daysBody_multi_day (fuel : nat) (oh : OpeningHours) (po pc : loc)
    (times : gmap string (list TimeRange)) (h : heap) (o c : TimeInWeek) :
  Open oh = Some po → Close oh = Some pc →
  h !! pc = Some c → <[pc := daysClose c]> h !! po = Some o →
  inWeek (Weekday o) → inWeek (Weekday (daysClose c)) →
  Weekday o ≠ Weekday (daysClose c) →
  (6 ≤ fuel)%nat →
  (∃ h' : heap,
     daysBody fuel oh times h
     = Done (foldl addEntry times
               ([(Weekday o,
                  mkTimeRange (minutesSinceMidnightToTime (MinutesSinceMidnight o)) "24:00")]
                ++ map (fun w => (w, mkTimeRange "00:00" "24:00"))
                       (specWeekdaysBetween (Weekday o) (Weekday (daysClose c)))
                ++ [(Weekday (daysClose c),
                     mkTimeRange "00:00"
                       (minutesSinceMidnightToTime (MinutesSinceMidnight (daysClose c))))]))
            h')
  ∧ (∃ h' : heap,
       GetHumanReadableTimes fuel [oh] h
       = Done (Some (foldl addEntry ∅
               ([(Weekday o,
                  mkTimeRange (minutesSinceMidnightToTime (MinutesSinceMidnight o)) "24:00")]
                ++ map (fun w => (w, mkTimeRange "00:00" "24:00"))
                       (specWeekdaysBetween (Weekday o) (Weekday (daysClose c)))
                ++ [(Weekday (daysClose c),
                     mkTimeRange "00:00"
                       (minutesSinceMidnightToTime (MinutesSinceMidnight (daysClose c))))])))
            h')
  ∧ (∃ h' : heap,
       GetHumanReadableTimes fuel [mkOpeningHours (Some 0%nat) (Some 1%nat)]
         [mkTimeInWeek 1 480; mkTimeInWeek 2 960]
       = Done (Some {[ "monday"%string := [mkTimeRange "08:00" "24:00"];
                       "tuesday"%string := [mkTimeRange "00:00" "16:00"] ]})
              h').
Proof.
  intros HO HC Hpc Hpo Ho Hc Hne Hf.
  assert (E : specDayEntries o (daysClose c)
              = [(Weekday o,
                  mkTimeRange (minutesSinceMidnightToTime (MinutesSinceMidnight o)) "24:00")]
                ++ map (fun w => (w, mkTimeRange "00:00" "24:00"))
                       (specWeekdaysBetween (Weekday o) (Weekday (daysClose c)))
                ++ [(Weekday (daysClose c),
                     mkTimeRange "00:00"
                       (minutesSinceMidnightToTime (MinutesSinceMidnight (daysClose c))))]).
  { unfold specDayEntries.
    destruct (Weekday o =? Weekday (daysClose c)) eqn:E; [apply Z.eqb_eq in E; done|].
    reflexivity. }
  split; [|split].
  - eexists. rewrite (daysBody_run fuel oh po pc times h o c) by done.
    by rewrite E.
  - eexists. rewrite GetHumanReadableTimes_single. unfold bind.
    rewrite (daysBody_run fuel oh po pc ∅ h o c) by done.
    unfold ret. by rewrite E.
  - eexists. rewrite GetHumanReadableTimes_single.
    unfold bind.
    rewrite (daysBody_run fuel _ 0%nat 1%nat ∅ _ (mkTimeInWeek 1 480) (mkTimeInWeek 2 960));
      try done; by vm_compute.
Qed.

Lemma daysBody_multi_day_witness :
  ∃ h' : heap,
    daysBody 6 (mkOpeningHours (Some 0%nat) (Some 1%nat)) ∅
      [mkTimeInWeek 6 600; mkTimeInWeek 2 0]
    = Done (foldl addEntry ∅
              [(6, mkTimeRange "10:00" "24:00");
               (7, mkTimeRange "00:00" "24:00");
               (1, mkTimeRange "00:00" "24:00")])
           h'.
Proof.
  apply (proj1 (daysBody_multi_day 6 (mkOpeningHours (Some 0%nat) (Some 1%nat))
                  0%nat 1%nat ∅ [mkTimeInWeek 6 600; mkTimeInWeek 2 0]
                  (mkTimeInWeek 6 600) (mkTimeInWeek 2 0)
                  eq_refl eq_refl eq_refl eq_refl
                  ltac:(vm_compute; split; discriminate)
                  ltac:(vm_compute; split; discriminate)
                  ltac:(vm_compute; discriminate)
                  ltac:(lia))).
Defined.

Lemma previousDay_week (w : Z) :
  inWeek w → previousDay w = if w =? 1 then 7 else w - 1.
Proof.
  intros H. destruct (previousDay_cases w H) as [[-> ->]|[Hw ->]]; [done|].
  destruct (w =? 1) eqn:E; [lia|done].
Qed.

(** C6. In day expansion an interval whose close is at minute 0 (weekday
    in 1..7) is first normalized: the close cell becomes weekday minus one
    (1 wrapping to 7) at minute 1440, and the interval is then expanded from
    that store, its last range closing at "24:00" on that previous weekday.
    In particular open=(7,0), close=(1,0) expands to sunday
    [("00:00","24:00")] only. *)
Theorem daysBody_close_at_midnight (fuel : nat) (oh : OpeningHours) (po pc : loc)
    (times : gmap string (list TimeRange)) (h : heap) (o c : TimeInWeek) :
  let c' := mkTimeInWeek (if Weekday c =? 1 then 7 else Weekday c - 1) 1440 in
  Open oh = Some po → Close oh = Some pc → h !! pc = Some c →
  MinutesSinceMidnight c = 0 → inWeek (Weekday c) →
  <[pc := c']> h !! po = Some o → inWeek (Weekday o) → (6 ≤ fuel)%nat →
  daysNormalize pc h = Done tt (<[pc := c']> h)
  ∧ (∃ h' : heap,
       daysBody fuel oh times h
       = Done (foldl addEntry times (specDayEntries o c')) h')
  ∧ (∃ s : string,
       last (specDayEntries o c') = Some (Weekday c', mkTimeRange s "24:00"))
  ∧ (∃ h' : heap,
       GetHumanReadableTimes fuel [mkOpeningHours (Some 0%nat) (Some 1%nat)]
         [mkTimeInWeek 7 0; mkTimeInWeek 1 0]
       = Done (Some {[ "sunday"%string := [mkTimeRange "00:00" "24:00"] ]}) h').
Proof.
  intros c' HO HC Hpc Hm Hc Hpo Ho Hf.
  assert (Ec : daysClose c = c').
  { unfold daysClose, c'. rewrite Hm. simpl. by rewrite previousDay_week. }
  assert (Hc' : inWeek (Weekday c')).
  { rewrite <- Ec. unfold daysClose. rewrite Hm. simpl. by apply previousDay_inWeek. }
  split; [|split; [|split]].
  - rewrite (daysNormalize_run _ _ _ Hpc). by rewrite Ec.
  - pose proof (daysBody_run fuel oh po pc times h o c HO HC Hpc) as R.
    rewrite Ec in R. eexists. by apply R.
  - unfold specDayEntries. destruct (Weekday o =? Weekday c') eqn:E.
    + apply Z.eqb_eq in E. rewrite E. by eexists.
    + eexists. rewrite app_assoc, last_snoc. done.
  - eexists. rewrite GetHumanReadableTimes_single. unfold bind.
    rewrite (daysBody_run fuel _ 0%nat 1%nat ∅ _ (mkTimeInWeek 7 0) (mkTimeInWeek 1 0));
      try done; by vm_compute.
Qed.

Lemma daysBody_close_at_midnight_witness :
  daysNormalize 1%nat [mkTimeInWeek 3 600; mkTimeInWeek 4 0]
  = Done tt [mkTimeInWeek 3 600; mkTimeInWeek 3 1440].
Proof.
  apply (proj1 (daysBody_close_at_midnight 6 (mkOpeningHours (Some 0%nat) (Some 1%nat))
                  0%nat 1%nat ∅ [mkTimeInWeek 3 600; mkTimeInWeek 4 0]
                  (mkTimeInWeek 3 600) (mkTimeInWeek 4 0)
                  eq_refl eq_refl eq_refl eq_refl
                  ltac:(vm_compute; split; discriminate)
                  eq_refl
                  ltac:(vm_compute; split; discriminate)
                  ltac:(lia))).
Defined.

Lemma GetOCPIOpeningTimes_single (fuel : nat) (oh : OpeningHours) (h h' : heap)
    (regularHours : list OCPIRegularHours) :
  isTwentyFourSeven [oh] h = Done false h →
  ocpiBody fuel oh [] h = Done regularHours h' →
  regularHours ≠ [] →
  GetOCPIOpeningTimes fuel [oh] h
  = Done (mkOCPIOpeningTimes false (Some regularHours)) h'.
Proof.
  intros H247 Hbody Hne. unfold GetOCPIOpeningTimes.
  rewrite (bind_Done _ _ _ _ _ H247). unfold ocpiRange, bind.
  rewrite Hbody. unfold ret. by destruct regularHours.
Qed.

Lemma ocpiBody_lookup_close (po pc : loc) (h : heap) (o c c' : TimeInWeek) :
  h !! pc = Some c → <[pc := c']> h !! po = Some o →
  <[po := mkTimeInWeek (Weekday c') (MinutesSinceMidnight o)]> (<[pc := c']> h) !! pc
  = Some c'.
Proof.
  intros Hpc Hpo. destruct (decide (po = pc)) as [->|Hne].
  - rewrite (lookup_store_eq _ _ _ _ Hpc) in Hpo. injection Hpo as <-.
    rewrite list_insert_insert_eq. erewrite lookup_store_eq by done. by destruct c'.
  - rewrite list_lookup_insert_ne by done. by eapply lookup_store_eq.
Qed.

(** C5. In the loop of the OCPI projection (reached when the 24/7 test is
    false), for an interval whose close is at minute 1440 the close weekday is
    kept and the last regular-hours entry of the interval is on that weekday
    with [PeriodEnd = "00:00"]; for an interval whose close is at minute 0
    the close weekday is first decremented (1 wrapping to 7) and the entries
    are emitted from that store. *)
Theorem ocpiBody_midnight_close (fuel : nat) (oh : OpeningHours) (po pc : loc)
    (regularHours : list OCPIRegularHours) (h : heap) (o c : TimeInWeek) :
  Open oh = Some po → Close oh = Some pc → h !! pc = Some c →
  inWeek (Weekday c) → (6 ≤ fuel)%nat →
  (MinutesSinceMidnight c = 1440 →
   let c' := mkTimeInWeek (Weekday c) 0 in
   <[pc := c']> h !! po = Some o → inWeek (Weekday o) →
   ∃ h' : heap,
     ocpiBody fuel oh regularHours h = Done (regularHours ++ specOcpiEntries o c') h'
     ∧ h' !! pc = Some c'
     ∧ ∃ b : string,
         last (specOcpiEntries o c') = Some (mkOCPIRegularHours (Weekday c) b "00:00"))
  ∧ (MinutesSinceMidnight c = 0 →
     let c' := mkTimeInWeek (if Weekday c =? 1 then 7 else Weekday c - 1) 0 in
     <[pc := c']> h !! po = Some o → inWeek (Weekday o) →
     ocpiNormalize pc h = Done tt (<[pc := c']> h)
     ∧ ∃ h' : heap,
         ocpiBody fuel oh regularHours h = Done (regularHours ++ specOcpiEntries o c') h'
         ∧ ∃ b : string,
             last (specOcpiEntries o c')
             = Some (mkOCPIRegularHours (Weekday c') b "00:00"))
  ∧ (∃ h' : heap,
       GetOCPIOpeningTimes fuel [mkOpeningHours (Some 0%nat) (Some 1%nat)]
         [mkTimeInWeek 1 480; mkTimeInWeek 1 1440]
       = Done (mkOCPIOpeningTimes false
                 (Some [mkOCPIRegularHours 1 "08:00" "00:00"])) h')
  ∧ (∃ h' : heap,
       GetOCPIOpeningTimes fuel [mkOpeningHours (Some 0%nat) (Some 1%nat)]
         [mkTimeInWeek 7 0; mkTimeInWeek 1 0]
       = Done (mkOCPIOpeningTimes false
                 (Some [mkOCPIRegularHours 7 "00:00" "00:00"])) h').
Proof.
  intros HO HC Hpc Hc Hf.
  assert (Hlast : ∀ c' : TimeInWeek, MinutesSinceMidnight c' = 0 →
            ∃ b, last (specOcpiEntries o c') = Some (mkOCPIRegularHours (Weekday c') b "00:00")).
  { intros c' Hm. unfold specOcpiEntries. rewrite Hm.
    destruct (Weekday o =? Weekday c') eqn:E.
    - apply Z.eqb_eq in E. rewrite E. by eexists.
    - eexists. rewrite app_assoc, last_snoc. done. }
  split; [|split; [|split]].
  - intros Hm c' Hpo Ho.
    assert (Ec : ocpiClose c = c').
    { unfold ocpiClose, c'. by rewrite Hm. }
    pose proof (ocpiBody_run fuel oh po pc regularHours h o c HO HC Hpc) as R.
    rewrite Ec in R. eexists. split; [|split].
    + by apply R.
    + by eapply ocpiBody_lookup_close.
    + by apply (Hlast c').
  - intros Hm c' Hpo Ho.
    assert (Ec : ocpiClose c = c').
    { unfold ocpiClose, c'. rewrite Hm. simpl. by rewrite previousDay_week. }
    assert (Hc' : inWeek (Weekday (ocpiClose c))).
    { unfold ocpiClose. rewrite Hm. simpl. by apply previousDay_inWeek. }
    pose proof (ocpiBody_run fuel oh po pc regularHours h o c HO HC Hpc) as R.
    rewrite Ec in R, Hc'. split.
    + rewrite (ocpiNormalize_run _ _ _ Hpc). by rewrite Ec.
    + eexists. split.
      * by apply R.
      * by apply (Hlast c').
  - eexists. eapply GetOCPIOpeningTimes_single; [done| |done].
    rewrite (ocpiBody_run fuel _ 0%nat 1%nat [] _ (mkTimeInWeek 1 480) (mkTimeInWeek 1 1440));
      try done; by vm_compute.
  - eexists. eapply GetOCPIOpeningTimes_single; [done| |done].
    rewrite (ocpiBody_run fuel _ 0%nat 1%nat [] _ (mkTimeInWeek 7 0) (mkTimeInWeek 1 0));
      try done; by vm_compute.
Qed.

Lemma ocpiBody_midnight_close_witness :
  ∃ h' : heap,
    ocpiBody 6 (mkOpeningHours (Some 0%nat) (Some 1%nat)) []
      [mkTimeInWeek 5 1320; mkTimeInWeek 6 1440]
    = Done [mkOCPIRegularHours 5 "22:00" "00:00";
            mkOCPIRegularHours 6 "00:00" "00:00"] h'
    ∧ h' !! 1%nat = Some (mkTimeInWeek 6 0)
    ∧ ∃ b : string,
        last [mkOCPIRegularHours 5 "22:00" "00:00";
              mkOCPIRegularHours 6 "00:00" "00:00"]
        = Some (mkOCPIRegularHours 6 b "00:00").
Proof.
  apply (proj1 (ocpiBody_midnight_close 6 (mkOpeningHours (Some 0%nat) (Some 1%nat))
                  0%nat 1%nat [] [mkTimeInWeek 5 1320; mkTimeInWeek 6 1440]
                  (mkTimeInWeek 5 1320) (mkTimeInWeek 6 1440)
                  eq_refl eq_refl eq_refl
                  ltac:(vm_compute; split; discriminate)
                  ltac:(lia))
               eq_refl eq_refl ltac:(vm_compute; split; discriminate)).
Defined.

(** C10. For an interval with both endpoints present whose weekdays, after
    the normalization of the close, are in 1..7, the body of the day expansion
    and the body of the OCPI projection return (six tests of the inner loop's
    condition suffice) and emit at most 7 entries; on 1..7 the successor
    [nextDay w] is [w mod 7 + 1], stays in 1..7, and reaches any weekday of
    1..7 from any other in at most 6 steps. *)
Theorem interval_walk_terminates (fuel : nat) (oh : OpeningHours) (po pc : loc)
    (h : heap) (c : TimeInWeek) :
  Open oh = Some po → Close oh = Some pc → h !! pc = Some c → (6 ≤ fuel)%nat →
  (∀ (o : TimeInWeek) (times : gmap string (list TimeRange)),
     <[pc := daysClose c]> h !! po = Some o →
     inWeek (Weekday o) → inWeek (Weekday (daysClose c)) →
     ∃ h' : heap,
       daysBody fuel oh times h
       = Done (foldl addEntry times (specDayEntries o (daysClose c))) h'
       ∧ (length (specDayEntries o (daysClose c)) ≤ 7)%nat)
  ∧ (∀ (o : TimeInWeek) (regularHours : list OCPIRegularHours),
       <[pc := ocpiClose c]> h !! po = Some o →
       inWeek (Weekday o) → inWeek (Weekday (ocpiClose c)) →
       ∃ h' : heap,
         ocpiBody fuel oh regularHours h
         = Done (regularHours ++ specOcpiEntries o (ocpiClose c)) h'
         ∧ (length (specOcpiEntries o (ocpiClose c)) ≤ 7)%nat)
  ∧ (∀ w : Z, inWeek w → nextDay w = w mod 7 + 1 ∧ inWeek (nextDay w))
  ∧ (∀ w cw : Z, inWeek w → inWeek cw →
       ∃ k : nat, (k ≤ 6)%nat ∧ Nat.iter k nextDay w = cw).
Proof.
  intros HO HC Hpc Hf. split; [|split; [|split]].
  - intros o times Hpo Ho Hc. eexists. split.
    + by apply (daysBody_run fuel oh po pc times h o c).
    + apply specDayEntries_length.
  - intros o rh Hpo Ho Hc. eexists. split.
    + by apply (ocpiBody_run fuel oh po pc rh h o c).
    + apply specOcpiEntries_length.
  - intros w Hw. split; [|by apply nextDay_inWeek].
    unfold nextDay. unfold inWeek in Hw. by rewrite Z.rem_mod_nonneg by lia.
  - intros w cw Hw Hcw. exists (Z.to_nat ((cw - w) mod 7)).
    destruct (inWeek_cases w Hw) as [->|[->|[->|[->|[->|[->| ->]]]]]];
      destruct (inWeek_cases cw Hcw) as [->|[->|[->|[->|[->|[->| ->]]]]]];
      (split; [vm_compute; lia | reflexivity]).
Qed.

Lemma interval_walk_terminates_witness :
  ∃ h' : heap,
    daysBody 6 (mkOpeningHours (Some 0%nat) (Some 1%nat)) ∅
      [mkTimeInWeek 1 0; mkTimeInWeek 7 1440]
    = Done (foldl addEntry ∅
              (specDayEntries (mkTimeInWeek 1 0) (mkTimeInWeek 7 1440))) h'
    ∧ (length (specDayEntries (mkTimeInWeek 1 0) (mkTimeInWeek 7 1440)) ≤ 7)%nat.
Proof.
  apply (proj1 (interval_walk_terminates 6 (mkOpeningHours (Some 0%nat) (Some 1%nat))
                  0%nat 1%nat [mkTimeInWeek 1 0; mkTimeInWeek 7 1440]
                  (mkTimeInWeek 7 1440) eq_refl eq_refl eq_refl ltac:(lia))
               (mkTimeInWeek 1 0) ∅ eq_refl
               ltac:(vm_compute; split; discriminate)
               ltac:(vm_compute; split; discriminate)).
Defined.

(* ===================================================================== *)
(** ** Whole sequences: aliasing, the 24/7 test                           *)
(* ===================================================================== *)

Lemma keeps_refl (h : heap) : keeps h h.
Proof. intros l t H. by exists t. Qed.

Lemma keeps_trans (h1 h2 h3 : heap) : keeps h1 h2 → keeps h2 h3 → keeps h1 h3.
Proof.
  intros H12 H23 l t H. destruct (H12 l t H) as (t2 & H2 & I2).
  destruct (H23 l t2 H2) as (t3 & H3 & I3). exists t3. split; [done|]. intros X. by apply I3, I2.
Qed.

Lemma keeps_insert (h : heap) (l : loc) (t t' : TimeInWeek) :
  h !! l = Some t → inWeek (Weekday t') → keeps h (<[l := t']> h).
Proof.
  intros H Hin l0 t0 H0. destruct (decide (l = l0)) as [<-|Hne].
  - exists t'. split; [by eapply lookup_store_eq|done].
  - exists t0. split; [by rewrite list_lookup_insert_ne|done].
Qed.

Lemma present_keeps (h h' : heap) (oh : OpeningHours) :
  keeps h h' → present h oh → present h' oh.
Proof.
  intros K (po & pc & o & c & HO & HC & Hpo & Hpc & Ho & Hc).
  destruct (K po o Hpo) as (o' & Hpo' & Io). destruct (K pc c Hpc) as (c' & Hpc' & Ic).
  exists po, pc, o', c'. split_and!; [done..| by apply Io | by apply Ic].
Qed.

Lemma ocpiClose_inWeek (c : TimeInWeek) :
  inWeek (Weekday c) → inWeek (Weekday (ocpiClose c)).
Proof.
  intros H. unfold ocpiClose.
  destruct (MinutesSinceMidnight c =? 0); simpl; [by apply previousDay_inWeek|].
  by destruct (MinutesSinceMidnight c =? 1440).
Qed.

Lemma daysClose_inWeek (c : TimeInWeek) :
  inWeek (Weekday c) → inWeek (Weekday (daysClose c)).
Proof.
  intros H. unfold daysClose.
  destruct (MinutesSinceMidnight c =? 0); simpl; [by apply previousDay_inWeek|done].
Qed.

Lemma ocpiBody_total (fuel : nat) (oh : OpeningHours)
    (regularHours : list OCPIRegularHours) (h : heap) :
  present h oh → (6 ≤ fuel)%nat →
  ∃ (entries : list OCPIRegularHours) (h' : heap),
    ocpiBody fuel oh regularHours h = Done (regularHours ++ entries) h'
    ∧ keeps h h' ∧ (1 ≤ length entries ≤ 7)%nat.
Proof.
  intros (po & pc & o & c & HO & HC & Hpo & Hpc & Ho & Hc) Hf.
  pose proof (ocpiClose_inWeek c Hc) as Hc1.
  assert (∃ o1, <[pc := ocpiClose c]> h !! po = Some o1 ∧ inWeek (Weekday o1))
    as (o1 & Hpo1 & Ho1).
  { destruct (decide (po = pc)) as [->|Hne].
    - exists (ocpiClose c). split; [by eapply lookup_store_eq|done].
    - exists o. split; [by rewrite list_lookup_insert_ne|done]. }
  exists (specOcpiEntries o1 (ocpiClose c)). eexists. split; [|split].
  - by apply (ocpiBody_run fuel oh po pc regularHours h o1 c).
  - eapply keeps_trans; [exact (keeps_insert h pc c _ Hpc Hc1)|].
    apply (keeps_insert _ po o1 _ Hpo1). exact Hc1.
  - apply specOcpiEntries_length.
Qed.

Lemma ocpiRange_total (fuel : nat) (ohs : list OpeningHours) :
  ∀ (regularHours : list OCPIRegularHours) (h : heap),
    Forall (present h) ohs → (6 ≤ fuel)%nat →
    ∃ (entries : list OCPIRegularHours) (h' : heap),
      ocpiRange fuel ohs regularHours h = Done (regularHours ++ entries) h'
      ∧ keeps h h' ∧ (length ohs ≤ length entries ≤ 7 * length ohs)%nat.
Proof.
  induction ohs as [|oh ohs IH]; intros rh h Hall Hf.
  - exists [], h. rewrite app_nil_r. split; [done|]. split; [apply keeps_refl|simpl; lia].
  - apply Forall_cons in Hall as [Hoh Hall].
    destruct (ocpiBody_total fuel oh rh h Hoh Hf) as (e1 & h1 & R1 & K1 & L1).
    destruct (IH (rh ++ e1) h1) as (e2 & h2 & R2 & K2 & L2); [|done|].
    { eapply Forall_impl; [exact Hall|]. intros x. by apply present_keeps. }
    exists (e1 ++ e2), h2. split; [|split].
    + simpl. rewrite (bind_Done _ _ _ _ _ R1). by rewrite R2, app_assoc.
    + by eapply keeps_trans.
    + rewrite length_app. simpl. lia.
Qed.

Lemma isTwentyFourSevenRange_true (h : heap) (ohs : list OpeningHours) :
  Forall (fullWeek h) ohs → isTwentyFourSevenRange ohs h = Done true h.
Proof.
  induction 1 as [|oh ohs [HO HC] _ IH]; [done|]. simpl.
  destruct (Open oh) as [po|]; [|done]. destruct (Close oh) as [pc|]; [|done].
  simpl in HO, HC.
  rewrite (bind_Done _ _ _ _ _ (load_Some _ _ _ HO)).
  by rewrite (bind_Done _ _ _ _ _ (load_Some _ _ _ HC)).
Qed.

Lemma isTwentyFourSevenRange_false (h : heap) (ohs : list OpeningHours) :
  Forall (wellFormed h) ohs → Exists (fun oh => ¬ fullWeek h oh) ohs →
  isTwentyFourSevenRange ohs h = Done false h.
Proof.
  induction ohs as [|oh ohs IH]; intros Hwf Hex; [by apply Exists_nil in Hex|].
  apply Forall_cons in Hwf as [[WO WC] Hwf]. simpl.
  destruct (Open oh) as [po|] eqn:HO; [|done].
  destruct (Close oh) as [pc|] eqn:HC; [|done].
  destruct (WO po eq_refl) as [o Hpo]. destruct (WC pc eq_refl) as [c Hpc].
  rewrite (bind_Done _ _ _ _ _ (load_Some _ _ _ Hpo)).
  rewrite (bind_Done _ _ _ _ _ (load_Some _ _ _ Hpc)).
  destruct (Weekday o =? 1) eqn:E1; [|done].
  destruct (Weekday c =? 7) eqn:E2; [|done].
  destruct (MinutesSinceMidnight o =? 0) eqn:E3; [|done].
  destruct (MinutesSinceMidnight c =? 1440) eqn:E4; [|done]. simpl.
  apply Exists_cons in Hex as [Hn|Hex]; [|by apply IH].
  exfalso. apply Hn. unfold fullWeek. rewrite HO, HC. simpl. rewrite Hpo, Hpc.
  apply Z.eqb_eq in E1, E2, E3, E4. destruct o, c; simpl in *; by subst.
Qed.

Lemma present_wellFormed (h : heap) (oh : OpeningHours) :
  present h oh → wellFormed h oh.
Proof.
  intros (po & pc & o & c & HO & HC & Hpo & Hpc & _). split; intros p Hp.
  - rewrite HO in Hp. injection Hp as <-. by exists o.
  - rewrite HC in Hp. injection Hp as <-. by exists c.
Qed.

(** C4, as amended. A non-empty sequence whose intervals are all exactly
    open=(1,0), close=(7,1440) projects to [TwentyFourSeven = true] with no
    regular-hours list and an unchanged store. A sequence whose intervals all
    have both endpoints present (weekdays in 1..7) and one of which is not of
    that shape projects to [TwentyFourSeven = false] with a regular-hours
    list; the empty sequence projects to [false] with no list. The 24/7 test
    itself, [isTwentyFourSeven], is false for every sequence that contains an
    interval not of that shape, an absent endpoint included. *)
Theorem GetOCPIOpeningTimes_twentyFourSeven (fuel : nat) (ohs : list OpeningHours)
    (h : heap) :
  (ohs ≠ [] → Forall (fullWeek h) ohs →
   GetOCPIOpeningTimes fuel ohs h = Done (mkOCPIOpeningTimes true None) h)
  ∧ ((6 ≤ fuel)%nat → Forall (present h) ohs →
     Exists (fun oh => ¬ fullWeek h oh) ohs →
     ∃ (regularHours : list OCPIRegularHours) (h' : heap),
       GetOCPIOpeningTimes fuel ohs h
       = Done (mkOCPIOpeningTimes false (Some regularHours)) h')
  ∧ GetOCPIOpeningTimes fuel [] h = Done (mkOCPIOpeningTimes false None) h
  ∧ (Forall (wellFormed h) ohs → Exists (fun oh => ¬ fullWeek h oh) ohs →
     isTwentyFourSeven ohs h = Done false h).
Proof.
  split; [|split; [|split]].
  - intros Hne Hall. unfold GetOCPIOpeningTimes, isTwentyFourSeven.
    destruct ohs as [|oh ohs]; [done|].
    by rewrite (bind_Done _ _ _ _ _ (isTwentyFourSevenRange_true _ _ Hall)).
  - intros Hf Hall Hex. unfold GetOCPIOpeningTimes, isTwentyFourSeven.
    destruct ohs as [|oh ohs]; [by apply Exists_nil in Hex|].
    assert (Hwf : Forall (wellFormed h) (oh :: ohs)).
    { eapply Forall_impl; [exact Hall|]. intros x. apply present_wellFormed. }
    rewrite (bind_Done _ _ _ _ _ (isTwentyFourSevenRange_false _ _ Hwf Hex)).
    destruct (ocpiRange_total fuel (oh :: ohs) [] h Hall Hf) as (e & h' & R & _ & L).
    rewrite (bind_Done _ _ _ _ _ R). simpl in *.
    destruct e as [|e0 e]; [simpl in L; lia|]. by exists (e0 :: e), h'.
  - done.
  - intros Hwf Hex. unfold isTwentyFourSeven.
    destruct ohs as [|oh ohs]; [done|]. by apply isTwentyFourSevenRange_false.
Qed.

Lemma GetOCPIOpeningTimes_twentyFourSeven_witness :
  GetOCPIOpeningTimes 6
    [mkOpeningHours (Some 0%nat) (Some 1%nat); mkOpeningHours (Some 0%nat) (Some 1%nat)]
    [mkTimeInWeek 1 0; mkTimeInWeek 7 1440]
  = Done (mkOCPIOpeningTimes true None) [mkTimeInWeek 1 0; mkTimeInWeek 7 1440].
Proof.
  apply (proj1 (GetOCPIOpeningTimes_twentyFourSeven 6 _ _)).
  - discriminate.
  - repeat constructor.
Defined.

(** C4, counterexample. An interval with an absent endpoint (what
    [ParseOpeningHours] returns for ["/W1T16:00:00"]) makes the projection
    panic on the nil pointer: it does not return [TwentyFourSeven = false]. *)
Lemma GetOCPIOpeningTimes_absent_endpoint :
  (∀ fuel : nat,
     GetOCPIOpeningTimes fuel [mkOpeningHours None (Some 0%nat)] [mkTimeInWeek 1 960]
     = Panic [mkTimeInWeek 1 960])
  ∧ ¬ (∃ (fuel : nat) (r : OCPIOpeningTimes) (h' : heap),
         GetOCPIOpeningTimes fuel [mkOpeningHours None (Some 0%nat)] [mkTimeInWeek 1 960]
         = Done r h' ∧ TwentyFourSeven r = false).
Proof.
  assert (H : ∀ fuel : nat,
     GetOCPIOpeningTimes fuel [mkOpeningHours None (Some 0%nat)] [mkTimeInWeek 1 960]
     = Panic [mkTimeInWeek 1 960]) by (intros fuel; reflexivity).
  split; [exact H|]. intros (fuel & r & h' & E & _). by rewrite H in E.
Qed.

(** C3 (not met by the code). [range] copies each [OpeningHours], but the
    copy holds the same two pointers, so the writes of the normalization and
    of [setNextDay] land in the caller's [TimeInWeek] cells. For the caller's
    sequence [open=(1,480), close=(2,960)]: after [GetHumanReadableTimes] (and
    equally after [GetOCPIOpeningTimes]) the entry reads open=(2,480); a
    second expansion of the same sequence then yields only tuesday
    08:00-16:00; and the projection of [open=(1,480), close=(1,1440)] leaves
    the caller's close at minute 0. *)
Theorem expansion_mutates_caller_input (n : nat) :
  let fuel := (6 + n)%nat in
  let ohs := [mkOpeningHours (Some 0%nat) (Some 1%nat)] in
  let h := [mkTimeInWeek 1 480; mkTimeInWeek 2 960] in
  let h' := [mkTimeInWeek 2 480; mkTimeInWeek 2 960] in
  snapshot h ohs = [(Some (mkTimeInWeek 1 480), Some (mkTimeInWeek 2 960))]
  ∧ snapshot h' ohs = [(Some (mkTimeInWeek 2 480), Some (mkTimeInWeek 2 960))]
  ∧ GetHumanReadableTimes fuel ohs h
    = Done (Some {[ "monday"%string := [mkTimeRange "08:00" "24:00"];
                    "tuesday"%string := [mkTimeRange "00:00" "16:00"] ]}) h'
  ∧ GetHumanReadableTimes fuel ohs h'
    = Done (Some {[ "tuesday"%string := [mkTimeRange "08:00" "16:00"] ]}) h'
  ∧ GetOCPIOpeningTimes fuel ohs h
    = Done (mkOCPIOpeningTimes false
              (Some [mkOCPIRegularHours 1 "08:00" "00:00";
                     mkOCPIRegularHours 2 "00:00" "16:00"])) h'
  ∧ GetOCPIOpeningTimes fuel ohs [mkTimeInWeek 1 480; mkTimeInWeek 1 1440]
    = Done (mkOCPIOpeningTimes false (Some [mkOCPIRegularHours 1 "08:00" "00:00"]))
           [mkTimeInWeek 1 480; mkTimeInWeek 1 0].
Proof.
  intros fuel ohs h h'.
  assert (Hf : (6 ≤ fuel)%nat) by (unfold fuel; lia).
  split; [done|]. split; [done|]. split; [|split; [|split]].
  - unfold ohs. rewrite GetHumanReadableTimes_single. unfold bind.
    rewrite (daysBody_run fuel _ 0%nat 1%nat ∅ h (mkTimeInWeek 1 480) (mkTimeInWeek 2 960));
      try done; by vm_compute.
  - unfold ohs. rewrite GetHumanReadableTimes_single. unfold bind.
    rewrite (daysBody_run fuel _ 0%nat 1%nat ∅ h' (mkTimeInWeek 2 480) (mkTimeInWeek 2 960));
      try done; by vm_compute.
  - eapply GetOCPIOpeningTimes_single; [done| |done].
    rewrite (ocpiBody_run fuel _ 0%nat 1%nat [] h (mkTimeInWeek 1 480) (mkTimeInWeek 2 960));
      try done; by vm_compute.
  - eapply GetOCPIOpeningTimes_single; [done| |done].
    rewrite (ocpiBody_run fuel _ 0%nat 1%nat [] _ (mkTimeInWeek 1 480) (mkTimeInWeek 1 1440));
      try done; by vm_compute.
Qed.

(* ===================================================================== *)
(** ** Strings: [Split], [Join] and the printed form of a cell            *)
(* ===================================================================== *)

Lemma Split_noByte (c : ascii) (s : string) :
  noByte c s = true → Split s c = [s].
Proof.
  induction s as [|x s IH]; simpl; [done|].
  intros H. apply andb_true_iff in H as [Hx Hs].
  apply negb_true_iff in Hx. rewrite Hx, (IH Hs). done.
Qed.

Lemma Split_app (c : ascii) (s1 s2 : string) :
  noByte c s1 = true → Split (s1 +:+ String c s2) c = s1 :: Split s2 c.
Proof.
  induction s1 as [|x s1 IH]; simpl.
  - intros _. by rewrite Ascii.eqb_refl.
  - intros H. apply andb_true_iff in H as [Hx Hs].
    apply negb_true_iff in Hx. rewrite Hx, (IH Hs). done.
Qed.

Lemma noByte_app (c : ascii) (s1 s2 : string) :
  noByte c (s1 +:+ s2) = noByte c s1 && noByte c s2.
Proof.
  induction s1 as [|x s1 IH]; simpl; [done|]. rewrite IH. by rewrite andb_assoc.
Qed.

Lemma Split_Join (c : ascii) (segs : list string) :
  segs ≠ [] → Forall (fun s => noByte c s = true) segs →
  Split (Join segs (String c EmptyString)) c = segs.
Proof.
  unfold Join. induction segs as [|s segs IH]; [done|]. intros _ Hall.
  apply Forall_cons in Hall as [Hs Hall].
  destruct segs as [|s' segs]; simpl.
  - by apply Split_noByte.
  - change (Split (s +:+ String c (String.concat (String c EmptyString) (s' :: segs))) c
            = s :: s' :: segs).
    rewrite Split_app by done. f_equal. by apply IH.
Qed.

Lemma tokenCheck_all :
  forallb (fun w => forallb (fun m => tokenCheck (Z.of_nat w) (Z.of_nat m)) (seq 0 1441))
          (seq 1 7) = true.
Proof. by vm_compute. Qed.

Lemma tokenCheck_legal (t : TimeInWeek) :
  legalTime t → tokenCheck (Weekday t) (MinutesSinceMidnight t) = true.
Proof.
  intros [Hw Hm]. unfold inWeek in Hw.
  pose proof tokenCheck_all as H.
  rewrite forallb_forall in H.
  specialize (H (Z.to_nat (Weekday t))).
  rewrite forallb_forall in H.
  specialize (H ltac:(apply in_seq; lia) (Z.to_nat (MinutesSinceMidnight t))
                ltac:(apply in_seq; lia)).
  by rewrite !Z2Nat.id in H by lia.
Qed.

Lemma formatTimeInWeek_facts (t : TimeInWeek) :
  legalTime t →
  noByte "," (formatTimeInWeek t) = true
  ∧ noByte "/" (formatTimeInWeek t) = true
  ∧ ∀ hc : heap,
      parseTimeInWeek (formatTimeInWeek t) hc
      = Done (Some (length hc), None) (hc ++ [t]).
Proof.
  intros Hl. pose proof (tokenCheck_legal t Hl) as H.
  unfold tokenCheck in H. destruct t as [w m].
  cbn [Weekday MinutesSinceMidnight] in H.
  set (v := formatTimeInWeek (mkTimeInWeek w m)) in *.
  apply andb_true_iff in H as [H H4]. apply andb_true_iff in H as [H H3].
  apply andb_true_iff in H as [H1 H2].
  split; [done|]. split; [done|]. intros hc.
  unfold parseTimeInWeek.
  destruct v as [|a v']; [done|].
  destruct (matchTimeInWeek (String a v')) as [[[g1 g2] g3]|]; [|done].
  apply andb_true_iff in H4 as [H4 H6]. apply andb_true_iff in H4 as [H4 H5].
  apply Z.eqb_eq in H4. rewrite H4.
  apply negb_true_iff in H5. rewrite H5.
  destruct (ParseMinutesSinceMidnight g2 g3) as [m' [e|]]; [done|].
  apply Z.eqb_eq in H6. subst m'. done.
Qed.

Lemma parseTimeInWeek_formatEndpoint (v : option TimeInWeek) (hc : heap) :
  (∀ t, v = Some t → legalTime t) →
  ∃ (p : option loc) (ext : heap),
    parseTimeInWeek (formatEndpoint v) hc = Done (p, None) (hc ++ ext)
    ∧ ∀ e : heap, view ((hc ++ ext) ++ e) p = v.
Proof.
  intros Hl. destruct v as [t|]; simpl.
  - destruct (formatTimeInWeek_facts t (Hl t eq_refl)) as (_ & _ & Hp).
    exists (Some (length hc)), [t]. split; [apply Hp|].
    intros e. unfold view. rewrite <- app_assoc. simpl. by apply list_lookup_middle.
  - exists None, []. split; [by rewrite app_nil_r|done].
Qed.

Lemma legalEndpoint_view (h : heap) (p : option loc) :
  legalEndpoint h p → ∀ t, view h p = Some t → legalTime t.
Proof.
  destruct p as [l|]; simpl; [|done].
  intros (t & Hl & Ht) t' E. rewrite Hl in E. by injection E as <-.
Qed.

Lemma formatEndpoint_noByte (h : heap) (p : option loc) :
  legalEndpoint h p →
  noByte "," (formatEndpoint (view h p)) = true
  ∧ noByte "/" (formatEndpoint (view h p)) = true.
Proof.
  destruct p as [l|]; simpl; [|done].
  intros (t & -> & Ht). simpl.
  destruct (formatTimeInWeek_facts t Ht) as (H1 & H2 & _). done.
Qed.

Lemma OpeningHours_String_facts (h : heap) (oh : OpeningHours) :
  legal h oh →
  OpeningHours_String h oh ≠ EmptyString
  ∧ noByte "," (OpeningHours_String h oh) = true
  ∧ Split (OpeningHours_String h oh) "/"
    = [formatEndpoint (view h (Open oh)); formatEndpoint (view h (Close oh))].
Proof.
  intros [HO HC]. unfold OpeningHours_String.
  destruct (formatEndpoint_noByte h _ HO) as [O1 O2].
  destruct (formatEndpoint_noByte h _ HC) as [C1 C2].
  split; [|split].
  - by destruct (formatEndpoint (view h (Open oh))).
  - rewrite !noByte_app. by rewrite O1, C1.
  - change ("/" +:+ formatEndpoint (view h (Close oh)))
      with (String "/" (formatEndpoint (view h (Close oh)))).
    rewrite Split_app by done. by rewrite Split_noByte.
Qed.

Lemma parseSegments_cons (str : string) (rest : list string) (ohs : list OpeningHours) :
  str ≠ EmptyString →
  parseSegments (str :: rest) ohs
  = match Split str "/" with
    | [part0; part1] =>
        r0 <- parseTimeInWeek part0 ;;
        match r0 with
        | (_, Some err) => ret ([], Some ("invalid opening hours: " +:+ err))
        | (openingHours, None) =>
            r1 <- parseTimeInWeek part1 ;;
            match r1 with
            | (_, Some err) => ret ([], Some ("invalid closing hours: " +:+ err))
            | (closingHours, None) =>
                parseSegments rest (ohs ++ [mkOpeningHours openingHours closingHours])
            end
        end
    | _ => ret ([], Some ("invalid opening hours string `" +:+ str +:+ "`"))
    end.
Proof. intros H. by destruct str. Qed.

Lemma parseSegments_format (h : heap) (ohs : list OpeningHours) :
  Forall (legal h) ohs →
  ∀ (acc : list OpeningHours) (hc : heap),
    ∃ (new : list OpeningHours) (ext : heap),
      parseSegments (map (OpeningHours_String h) ohs) acc hc
      = Done (acc ++ new, None) (hc ++ ext)
      ∧ ∀ e : heap, snapshot ((hc ++ ext) ++ e) new = snapshot h ohs.
Proof.
  induction 1 as [|oh ohs Hoh _ IH]; intros acc hc.
  - exists [], []. by rewrite !app_nil_r.
  - destruct (OpeningHours_String_facts h oh Hoh) as (Hne & _ & Hsplit).
    destruct Hoh as [HO HC].
    destruct (parseTimeInWeek_formatEndpoint (view h (Open oh)) hc
                (legalEndpoint_view h _ HO)) as (po & e1 & P1 & V1).
    destruct (parseTimeInWeek_formatEndpoint (view h (Close oh)) (hc ++ e1)
                (legalEndpoint_view h _ HC)) as (pc & e2 & P2 & V2).
    destruct (IH (acc ++ [mkOpeningHours po pc]) ((hc ++ e1) ++ e2))
      as (new & e3 & P3 & V3).
    exists (mkOpeningHours po pc :: new), (e1 ++ e2 ++ e3). split.
    + simpl map. rewrite parseSegments_cons by done. rewrite Hsplit.
      rewrite (bind_Done _ _ _ _ _ P1). rewrite (bind_Done _ _ _ _ _ P2).
      rewrite P3. by rewrite <- !app_assoc.
    + intros e. simpl. f_equal; [f_equal|].
      * specialize (V1 (e2 ++ e3 ++ e)). by rewrite <- !app_assoc in *.
      * specialize (V2 (e3 ++ e)). by rewrite <- !app_assoc in *.
      * specialize (V3 e). by rewrite <- !app_assoc in *.
Qed.

Lemma OpeningHours_String_snapshot (h1 h2 : heap) (l1 : list OpeningHours) :
  ∀ l2 : list OpeningHours,
    snapshot h1 l1 = snapshot h2 l2 →
    map (OpeningHours_String h1) l1 = map (OpeningHours_String h2) l2.
Proof.
  induction l1 as [|oh1 l1 IH]; intros [|oh2 l2]; simpl; try done.
  intros [= EO EC E]. unfold OpeningHours_String at 1 3. rewrite EO, EC.
  f_equal. by apply IH.
Qed.

(* ===================================================================== *)
(** ** Round trip                                                         *)
(* ===================================================================== *)

(** C1. For every sequence of intervals that satisfies the data-model
    invariants (each endpoint absent, or a cell with weekday in 1..7 and
    minutes in 0..1440), parsing the text that [OpeningHoursSliceToString]
    prints for it returns no error and a sequence with the same weekday and
    minute fields, entry by entry (held in fresh cells, the caller's store
    being kept); and printing that result gives the same text again. *)
Theorem Parse_Format_roundtrip (h : heap) (ohs : list OpeningHours) :
  Forall (legal h) ohs →
  ∃ (ohs' : list OpeningHours) (ext : heap),
    ParseOpeningHours (OpeningHoursSliceToString h ohs) h
    = Done (ohs', None) (h ++ ext)
    ∧ snapshot (h ++ ext) ohs' = snapshot h ohs
    ∧ OpeningHoursSliceToString (h ++ ext) ohs' = OpeningHoursSliceToString h ohs.
Proof.
  intros Hall.
  assert (∃ ohs' ext,
            ParseOpeningHours (OpeningHoursSliceToString h ohs) h
            = Done (ohs', None) (h ++ ext)
            ∧ snapshot (h ++ ext) ohs' = snapshot h ohs) as (ohs' & ext & P & S).
  { unfold ParseOpeningHours, OpeningHoursSliceToString.
    destruct ohs as [|oh ohs].
    - exists [], []. by rewrite app_nil_r.
    - rewrite Split_Join.
      + destruct (parseSegments_format h (oh :: ohs) Hall [] h) as (new & ext & P & V).
        exists new, ext. split; [done|]. specialize (V []). by rewrite app_nil_r in V.
      + done.
      + apply Forall_map. eapply Forall_impl; [exact Hall|].
        intros x Hx. by destruct (OpeningHours_String_facts h x Hx) as (_ & ? & _). }
  exists ohs', ext. split; [done|]. split; [done|].
  unfold OpeningHoursSliceToString. f_equal. by apply OpeningHours_String_snapshot.
Qed.

Lemma Parse_Format_roundtrip_witness :
  ∃ (ohs' : list OpeningHours) (ext : heap),
    let h := [mkTimeInWeek 2 1200; mkTimeInWeek 3 240; mkTimeInWeek 7 1440] in
    let ohs := [mkOpeningHours (Some 0%nat) (Some 1%nat);
                mkOpeningHours None (Some 2%nat);
                mkOpeningHours None None] in
    ParseOpeningHours (OpeningHoursSliceToString h ohs) h
    = Done (ohs', None) (h ++ ext)
    ∧ snapshot (h ++ ext) ohs' = snapshot h ohs
    ∧ OpeningHoursSliceToString (h ++ ext) ohs' = OpeningHoursSliceToString h ohs.
Proof.
  apply (Parse_Format_roundtrip
           [mkTimeInWeek 2 1200; mkTimeInWeek 3 240; mkTimeInWeek 7 1440]
           [mkOpeningHours (Some 0%nat) (Some 1%nat);
            mkOpeningHours None (Some 2%nat);
            mkOpeningHours None None]).
  repeat apply Forall_cons_2; try apply Forall_nil_2; split; simpl;
    try exact I; eexists; (split; [reflexivity|]); split; unfold inWeek; simpl; lia.
Defined.

Example Parse_Format_example :
  OpeningHoursSliceToString
    [mkTimeInWeek 1 480; mkTimeInWeek 1 960; mkTimeInWeek 2 360; mkTimeInWeek 2 1200]
    [mkOpeningHours (Some 0%nat) (Some 1%nat); mkOpeningHours (Some 2%nat) (Some 3%nat)]
  = "W1T08:00:00/W1T16:00:00,W2T06:00:00/W2T20:00:00"%string
  ∧ ParseOpeningHours "W1T08:00:00/W1T16:00:00,W2T06:00:00/W2T20:00:00" []
    = Done ([mkOpeningHours (Some 0%nat) (Some 1%nat);
             mkOpeningHours (Some 2%nat) (Some 3%nat)], None)
        [mkTimeInWeek 1 480; mkTimeInWeek 1 960; mkTimeInWeek 2 360; mkTimeInWeek 2 1200].
Proof. split; reflexivity. Qed.

(* ===================================================================== *)
(** ** Segments of [ParseOpeningHours]                                    *)
(* ===================================================================== *)

Lemma parseTimeInWeek_Done (v : string) (h : heap) :
  ∃ (r : option loc * option string) (h' : heap), parseTimeInWeek v h = Done r h'.
Proof.
  unfold parseTimeInWeek. destruct v as [|a v]; [by eexists _, _|].
  destruct (matchTimeInWeek (String a v)) as [[[g1 g2] g3]|]; [|by eexists _, _].
  destruct (parseWeekDay g1 =? 0); [by eexists _, _|].
  destruct (ParseMinutesSinceMidnight g2 g3) as [m [e|]]; by eexists _, _.
Qed.

Lemma parseSegments_Done (strs : list string) :
  ∀ (ohs : list OpeningHours) (h : heap),
    ∃ (r : list OpeningHours) (e : option string) (h' : heap),
      parseSegments strs ohs h = Done (r, e) h' ∧ (e ≠ None → r = []).
Proof.
  induction strs as [|str strs IH]; intros ohs h.
  - by exists ohs, None, h.
  - destruct (decide (str = EmptyString)) as [->|Hne]; [apply IH|].
    rewrite parseSegments_cons by done.
    destruct (Split str "/") as [|p0 [|p1 [|p2 ps]]]; try (by eexists _, _, _).
    destruct (parseTimeInWeek_Done p0 h) as ([o [e|]] & h1 & P0);
      rewrite (bind_Done _ _ _ _ _ P0); [by eexists _, _, _|].
    destruct (parseTimeInWeek_Done p1 h1) as ([c [e|]] & h2 & P1);
      rewrite (bind_Done _ _ _ _ _ P1); [by eexists _, _, _|].
    apply IH.
Qed.

Lemma parseSegments_app (pre rest : list string) :
  ∀ (ohs ohs1 : list OpeningHours) (h h1 : heap),
    parseSegments pre ohs h = Done (ohs1, None) h1 →
    parseSegments (pre ++ rest) ohs h = parseSegments rest ohs1 h1.
Proof.
  induction pre as [|str pre IH]; intros ohs ohs1 h h1 H.
  - by injection H as -> ->.
  - destruct (decide (str = EmptyString)) as [->|Hne]; [by apply IH|].
    change ((str :: pre) ++ rest) with (str :: (pre ++ rest)).
    rewrite parseSegments_cons in H |- * by done.
    destruct (Split str "/") as [|p0 [|p1 [|p2 ps]]]; try discriminate H.
    destruct (parseTimeInWeek_Done p0 h) as ([o [e|]] & h2 & P0);
      rewrite (bind_Done _ _ _ _ _ P0) in H; rewrite (bind_Done _ _ _ _ _ P0);
      [discriminate H|].
    destruct (parseTimeInWeek_Done p1 h2) as ([c [e|]] & h3 & P1);
      rewrite (bind_Done _ _ _ _ _ P1) in H; rewrite (bind_Done _ _ _ _ _ P1);
      [discriminate H|].
    by apply IH.
Qed.

Lemma parseSegments_app_err (pre rest : list string) :
  ∀ (ohs r : list OpeningHours) (e : string) (h h1 : heap),
    parseSegments pre ohs h = Done (r, Some e) h1 →
    parseSegments (pre ++ rest) ohs h = Done (r, Some e) h1.
Proof.
  induction pre as [|str pre IH]; intros ohs r e h h1 H; [discriminate H|].
  destruct (decide (str = EmptyString)) as [->|Hne]; [by apply IH|].
  change ((str :: pre) ++ rest) with (str :: (pre ++ rest)).
  rewrite parseSegments_cons in H |- * by done.
  destruct (Split str "/") as [|p0 [|p1 [|p2 ps]]]; try exact H.
  destruct (parseTimeInWeek_Done p0 h) as ([o [e0|]] & h2 & P0);
    rewrite (bind_Done _ _ _ _ _ P0) in H; rewrite (bind_Done _ _ _ _ _ P0);
    [exact H|].
  destruct (parseTimeInWeek_Done p1 h2) as ([c [e1|]] & h3 & P1);
    rewrite (bind_Done _ _ _ _ _ P1) in H; rewrite (bind_Done _ _ _ _ _ P1);
    [exact H|].
  by apply IH.
Qed.

Lemma parseSegments_skip (pre post : list string) :
  ∀ (ohs : list OpeningHours) (h : heap),
    parseSegments (pre ++ EmptyString :: post) ohs h
    = parseSegments (pre ++ post) ohs h.
Proof.
  induction pre as [|str pre IH]; intros ohs h; [done|].
  destruct (decide (str = EmptyString)) as [->|Hne]; [by apply IH|].
  change ((str :: pre) ++ ?l) with (str :: (pre ++ l)).
  rewrite !parseSegments_cons by done.
  destruct (Split str "/") as [|p0 [|p1 [|p2 ps]]]; try done.
  unfold bind.
  destruct (parseTimeInWeek p0 h) as [[o [e|]] h2| |]; try done.
  destruct (parseTimeInWeek p1 h2) as [[c [e|]] h3| |]; [done|apply IH|done|done].
Qed.

(** C8, as amended (the message quotes the segment between backquotes).
    [ParseOpeningHours] runs over the pieces of its input between commas, in
    order. An empty piece is skipped: the result is that of the other pieces,
    and the empty input gives the empty sequence and no error. The piece
    ["/"] adds one entry with both endpoints absent. A non-empty piece that
    does not split on ["/"] into exactly two parts makes the call fail; when
    the loop reaches it (no earlier piece having failed) the message is
    exactly [invalid opening hours string `<piece>`]. Every call returns, and
    whenever the error is not nil the returned sequence is nil. *)
Theorem ParseOpeningHours_segments (v : string) (h : heap) :
  ParseOpeningHours v h = parseSegments (Split v ",") [] h
  ∧ (∀ pre post : list string,
       Split v "," = pre ++ EmptyString :: post →
       ParseOpeningHours v h = parseSegments (pre ++ post) [] h)
  ∧ ParseOpeningHours EmptyString h = Done ([], None) h
  ∧ (∀ (pre post : list string) (ohs1 : list OpeningHours) (h1 : heap),
       Split v "," = pre ++ "/"%string :: post →
       parseSegments pre [] h = Done (ohs1, None) h1 →
       ParseOpeningHours v h
       = parseSegments post (ohs1 ++ [mkOpeningHours None None]) h1)
  ∧ ParseOpeningHours "/" h = Done ([mkOpeningHours None None], None) h
  ∧ (∀ (pre post : list string) (str : string) (ohs1 : list OpeningHours) (h1 : heap),
       Split v "," = pre ++ str :: post →
       parseSegments pre [] h = Done (ohs1, None) h1 →
       str ≠ EmptyString → length (Split str "/") ≠ 2%nat →
       ParseOpeningHours v h
       = Done ([], Some ("invalid opening hours string `" +:+ str +:+ "`")) h1)
  ∧ (∀ str : string,
       str ∈ Split v "," → str ≠ EmptyString → length (Split str "/") ≠ 2%nat →
       ∃ (e : string) (h' : heap), ParseOpeningHours v h = Done ([], Some e) h')
  ∧ (∃ (r : list OpeningHours) (e : option string) (h' : heap),
       ParseOpeningHours v h = Done (r, e) h' ∧ (e ≠ None → r = [])).
Proof.
  unfold ParseOpeningHours.
  assert (Hbad : ∀ (pre post : list string) (str : string)
                   (ohs1 : list OpeningHours) (h1 : heap),
            Split v "," = pre ++ str :: post →
            parseSegments pre [] h = Done (ohs1, None) h1 →
            str ≠ EmptyString → length (Split str "/") ≠ 2%nat →
            parseSegments (Split v ",") [] h
            = Done ([], Some ("invalid opening hours string `" +:+ str +:+ "`")) h1).
  { intros pre post str ohs1 h1 E P Hne Hlen. rewrite E.
    rewrite (parseSegments_app _ _ _ _ _ _ P).
    rewrite parseSegments_cons by done.
    by destruct (Split str "/") as [|p0 [|p1 [|p2 ps]]]. }
  split; [done|]. split; [|split; [done|]]; [|split; [|split; [done|]]];
    [| |split; [exact Hbad|split]].
  - intros pre post E. rewrite E. apply parseSegments_skip.
  - intros pre post ohs1 h1 E P. rewrite E.
    by rewrite (parseSegments_app _ _ _ _ _ _ P).
  - intros str Hin Hne Hlen.
    apply list_elem_of_split in Hin as (pre & post & E).
    destruct (parseSegments_Done pre [] h) as (r & [e|] & h1 & P & Hnil).
    + rewrite (Hnil ltac:(done)) in P. exists e, h1. rewrite E.
      by apply parseSegments_app_err.
    + eexists _, _. by eapply Hbad.
  - apply parseSegments_Done.
Qed.

Lemma ParseOpeningHours_segments_witness :
  ParseOpeningHours "/,W1T08:00:00/,invalid,/" []
  = Done ([], Some "invalid opening hours string `invalid`"%string)
         [mkTimeInWeek 1 480].
Proof.
  pose proof (ParseOpeningHours_segments "/,W1T08:00:00/,invalid,/" [])
    as (_ & _ & _ & _ & _ & H & _ & _).
  apply (H ["/"; "W1T08:00:00/"]%string ["/"%string] "invalid"%string
           [mkOpeningHours None None; mkOpeningHours (Some 0%nat) None]).
  - reflexivity.
  - reflexivity.
  - discriminate.
  - vm_compute. discriminate.
Defined.

(** C8, counterexample. For the input ["invalid"] the message is
    [invalid opening hours string `invalid`], with backquotes: it is not the
    message with single quotes that the claim gives as exact. *)
Lemma ParseOpeningHours_message_quotes :
  ParseOpeningHours "invalid" []
  = Done ([], Some "invalid opening hours string `invalid`"%string) []
  ∧ ¬ (∃ (r : list OpeningHours) (h' : heap),
         ParseOpeningHours "invalid" []
         = Done (r, Some "invalid opening hours string 'invalid'"%string) h').
Proof.
  split; [reflexivity|]. intros (r & h' & E). vm_compute in E. discriminate E.
Qed.

(* ===================================================================== *)
(** * Further properties of the package                                   *)
(* ===================================================================== *)

(* ===================================================================== *)
(** ** What [ParseOpeningHours] returns                                   *)
(* ===================================================================== *)

Lemma parseWeekDay_range (v : string) :
  parseWeekDay v = 0 ∨ inWeek (parseWeekDay v).
Proof.
  unfold parseWeekDay, inWeek. destruct (Atoi v) as [i|]; [|by left].
  destruct (i <? 1) eqn:E1; [by left|]. destruct (i >? 7) eqn:E2; [by left|].
  right. simpl. lia.
Qed.

Lemma parseTimeInWeek_inv (v : string) (h h' : heap) (p : option loc)
    (e : option string) :
  parseTimeInWeek v h = Done (p, e) h' →
  (p = None ∧ h' = h ∧ (e = None → v = EmptyString))
  ∨ (∃ t : TimeInWeek,
       e = None ∧ p = Some (length h) ∧ h' = h ++ [t] ∧ legalTime t).
Proof.
  unfold parseTimeInWeek. destruct v as [|a v].
  { intros [= <- <- <-]. by left. }
  destruct (matchTimeInWeek (String a v)) as [[[g1 g2] g3]|].
  2:{ intros [= <- <- <-]. left. by split_and!. }
  destruct (parseWeekDay_range g1) as [E|Hw].
  { rewrite E. simpl. intros [= <- <- <-]. left. by split_and!. }
  destruct (parseWeekDay g1 =? 0) eqn:E0.
  { apply Z.eqb_eq in E0. rewrite E0 in Hw. unfold inWeek in Hw. lia. }
  destruct (ParseMinutesSinceMidnight g2 g3) as [m [err|]] eqn:EM.
  { intros [= <- <- <-]. left. by split_and!. }
  apply ParseMinutesSinceMidnight_inv in EM
    as (hours & minutes & _ & Hh & _ & Hm & Hn & ->).
  unfold bind, alloc, ret. intros [= <- <- <-]. right.
  eexists. split_and!; try done. split; [done|]. simpl. lia.
Qed.

Lemma legalEndpoint_app (h ext : heap) (p : option loc) :
  legalEndpoint h p → legalEndpoint (h ++ ext) p.
Proof.
  destruct p as [l|]; [|done]. intros (t & Hl & Ht). exists t. split; [|done].
  by apply lookup_app_l_Some.
Qed.

Lemma legal_app (h ext : heap) (oh : OpeningHours) :
  legal h oh → legal (h ++ ext) oh.
Proof. intros [HO HC]. split; by apply legalEndpoint_app. Qed.

(** What one successful [parseTimeInWeek] contributes: nil and no cell, or a
    pointer to one fresh legal cell. *)
Lemma parseTimeInWeek_ok (v : string) (h h' : heap) (p : option loc) :
  parseTimeInWeek v h = Done (p, None) h' →
  ∃ ext : heap,
    h' = h ++ ext ∧ legalEndpoint h' p
    ∧ (∀ l, l ∈ option_list p → (length h ≤ l < length h')%nat)
    ∧ NoDup (option_list p).
Proof.
  intros H. apply parseTimeInWeek_inv in H as [(-> & -> & _)|(t & _ & -> & -> & Ht)].
  - exists []. rewrite app_nil_r. split_and!; try done.
    + intros l Hl. by apply elem_of_nil in Hl.
    + constructor.
  - exists [t]. split_and!; try done.
    + exists t. split; [|done]. by apply list_lookup_middle.
    + simpl. intros l Hl. apply list_elem_of_singleton in Hl as ->.
      rewrite length_app. simpl. lia.
    + simpl. apply NoDup_singleton.
Qed.

Lemma parseSegments_inv (strs : list string) :
  ∀ (acc r : list OpeningHours) (e : option string) (h h' : heap),
    parseSegments strs acc h = Done (r, e) h' →
    ∃ ext : heap,
      h' = h ++ ext
      ∧ (e = None →
         ∃ new : list OpeningHours,
           r = acc ++ new ∧ Forall (legal h') new ∧ NoDup (ptrs new)
           ∧ ∀ l, l ∈ ptrs new → (length h ≤ l < length h')%nat).
Proof.
  induction strs as [|str strs IH]; intros acc r e h h' H.
  - injection H as <- <- <-. exists []. rewrite app_nil_r. split; [done|].
    intros _. exists []. rewrite app_nil_r. split_and!; try done.
    + constructor.
    + intros l Hl. by apply elem_of_nil in Hl.
  - destruct (decide (str = EmptyString)) as [->|Hne]; [by apply IH|].
    rewrite parseSegments_cons in H by done.
    destruct (Split str "/") as [|p0 [|p1 [|p2 ps]]];
      try (injection H as <- <- <-; exists []; rewrite app_nil_r; by split).
    destruct (parseTimeInWeek_Done p0 h) as ([o [e0|]] & h1 & P0);
      rewrite (bind_Done _ _ _ _ _ P0) in H.
    { injection H as <- <- <-.
      apply parseTimeInWeek_inv in P0 as [(_ & -> & _)|(t & ? & _)]; [|done].
      exists []. rewrite app_nil_r. by split. }
    destruct (parseTimeInWeek_Done p1 h1) as ([c [e1|]] & h2 & P1);
      rewrite (bind_Done _ _ _ _ _ P1) in H.
    { injection H as <- <- <-.
      apply parseTimeInWeek_ok in P0 as (x0 & -> & _).
      apply parseTimeInWeek_inv in P1 as [(_ & -> & _)|(t & ? & _)]; [|done].
      exists x0. by split. }
    apply parseTimeInWeek_ok in P0 as (x0 & -> & L0 & R0 & N0).
    apply parseTimeInWeek_ok in P1 as (x1 & -> & L1 & R1 & N1).
    apply IH in H as (x2 & -> & Hok).
    exists (x0 ++ x1 ++ x2). split; [by rewrite <- !app_assoc|].
    intros ->. destruct (Hok eq_refl) as (new & -> & Hl & Hn & Hr).
    exists (mkOpeningHours o c :: new). split_and!.
    + by rewrite <- app_assoc.
    + constructor; [|done]. split; simpl.
      * rewrite <- app_assoc. by apply legalEndpoint_app.
      * by apply legalEndpoint_app.
    + unfold ptrs. simpl. fold (ptrs new). rewrite <- app_assoc.
      apply NoDup_app. split_and!; [done| |].
      * intros l Hl0 Hin. apply R0 in Hl0.
        apply elem_of_app in Hin as [Hin|Hin].
        -- apply R1 in Hin. lia.
        -- apply Hr in Hin. rewrite !length_app in *. lia.
      * apply NoDup_app. split_and!; [done| |done].
        intros l Hl1 Hin. apply R1 in Hl1. apply Hr in Hin.
        rewrite !length_app in *. lia.
    + unfold ptrs. simpl. fold (ptrs new). intros l Hin.
      rewrite <- app_assoc in Hin.
      apply elem_of_app in Hin as [Hin|Hin]; [|apply elem_of_app in Hin as [Hin|Hin]].
      * apply R0 in Hin. rewrite !length_app in *. lia.
      * apply R1 in Hin. rewrite !length_app in *. lia.
      * apply Hr in Hin. rewrite !length_app in *. lia.
Qed.

(** X1. Whatever the input, a call of [ParseOpeningHours] that returns no
    error returns intervals that satisfy the data-model invariants (each
    endpoint nil, or a cell with weekday in 1..7 and minutes in 0..1440);
    every non-nil endpoint is a cell of its own, allocated by the call, and
    the caller's store is kept as it was. *)
Theorem ParseOpeningHours_result (v : string) (h h' : heap)
    (ohs : list OpeningHours) :
  ParseOpeningHours v h = Done (ohs, None) h' →
  ∃ ext : heap,
    h' = h ++ ext
    ∧ Forall (legal h') ohs
    ∧ NoDup (ptrs ohs)
    ∧ ∀ l, l ∈ ptrs ohs → (length h ≤ l < length h')%nat.
Proof.
  unfold ParseOpeningHours. intros H.
  apply parseSegments_inv in H as (ext & -> & Hok).
  destruct (Hok eq_refl) as (new & -> & Hl & Hn & Hr).
  exists ext. by split_and!.
Qed.

Lemma ParseOpeningHours_result_witness :
  ∃ ext : heap,
    [mkTimeInWeek 5 630; mkTimeInWeek 2 1200; mkTimeInWeek 3 240]
    = [mkTimeInWeek 5 630] ++ ext
    ∧ Forall (legal [mkTimeInWeek 5 630; mkTimeInWeek 2 1200; mkTimeInWeek 3 240])
        [mkOpeningHours (Some 1%nat) (Some 2%nat); mkOpeningHours None None]
    ∧ NoDup (ptrs [mkOpeningHours (Some 1%nat) (Some 2%nat); mkOpeningHours None None])
    ∧ ∀ l, l ∈ ptrs [mkOpeningHours (Some 1%nat) (Some 2%nat); mkOpeningHours None None] →
           (1 ≤ l < 3)%nat.
Proof.
  apply (ParseOpeningHours_result "W2T20:00:59/W3T04:00:00,,/" [mkTimeInWeek 5 630]).
  reflexivity.
Defined.

(* ===================================================================== *)
(** ** Canonical text                                                     *)
(* ===================================================================== *)

Lemma ParseOpeningHours_format (h hc : heap) (ohs : list OpeningHours) :
  Forall (legal h) ohs →
  ∃ (ohs' : list OpeningHours) (ext : heap),
    ParseOpeningHours (OpeningHoursSliceToString h ohs) hc
    = Done (ohs', None) (hc ++ ext)
    ∧ snapshot (hc ++ ext) ohs' = snapshot h ohs.
Proof.
  intros Hall. unfold ParseOpeningHours, OpeningHoursSliceToString.
  destruct ohs as [|oh ohs].
  - exists [], []. by rewrite app_nil_r.
  - rewrite Split_Join.
    + destruct (parseSegments_format h (oh :: ohs) Hall [] hc) as (new & ext & P & V).
      exists new, ext. split; [done|]. specialize (V []). by rewrite app_nil_r in V.
    + done.
    + apply Forall_map. eapply Forall_impl; [exact Hall|].
      intros x Hx. by destruct (OpeningHours_String_facts h x Hx) as (_ & ? & _).
Qed.

(** X2. The text printed for the result of any successful parse is a
    canonical form of the input: parsing it again (in any store) gives
    intervals with the same weekday and minute fields, and printing those
    gives the same text. *)
Theorem Format_Parse_canonical (v : string) (h h' hc : heap)
    (ohs : list OpeningHours) :
  ParseOpeningHours v h = Done (ohs, None) h' →
  ∃ (ohs2 : list OpeningHours) (ext : heap),
    ParseOpeningHours (OpeningHoursSliceToString h' ohs) hc
    = Done (ohs2, None) (hc ++ ext)
    ∧ snapshot (hc ++ ext) ohs2 = snapshot h' ohs
    ∧ OpeningHoursSliceToString (hc ++ ext) ohs2 = OpeningHoursSliceToString h' ohs.
Proof.
  intros P. unfold ParseOpeningHours in P.
  apply parseSegments_inv in P as (x & -> & Hok).
  destruct (Hok eq_refl) as (new & E & Hl & _). simpl in E. subst new.
  destruct (ParseOpeningHours_format _ hc ohs Hl) as (ohs2 & ext & P2 & S2).
  exists ohs2, ext. split_and!; try done.
  unfold OpeningHoursSliceToString. f_equal. by apply OpeningHours_String_snapshot.
Qed.

Lemma Format_Parse_canonical_witness :
  ∃ (ohs2 : list OpeningHours) (ext : heap),
    ParseOpeningHours
      (OpeningHoursSliceToString [mkTimeInWeek 2 1200; mkTimeInWeek 3 240]
         [mkOpeningHours (Some 0%nat) (Some 1%nat); mkOpeningHours None None]) []
    = Done (ohs2, None) ([] ++ ext)
    ∧ snapshot ([] ++ ext) ohs2
      = snapshot [mkTimeInWeek 2 1200; mkTimeInWeek 3 240]
          [mkOpeningHours (Some 0%nat) (Some 1%nat); mkOpeningHours None None]
    ∧ OpeningHoursSliceToString ([] ++ ext) ohs2
      = OpeningHoursSliceToString [mkTimeInWeek 2 1200; mkTimeInWeek 3 240]
          [mkOpeningHours (Some 0%nat) (Some 1%nat); mkOpeningHours None None].
Proof.
  apply (Format_Parse_canonical ",W2T20:00:59/W3T04:00:17,,/" [] _ []).
  reflexivity.
Defined.

(** X3. On sequences that satisfy the data-model invariants,
    [OpeningHoursSliceToString] is injective: two sequences printed to the
    same text have the same length and, entry by entry, the same absent
    endpoints and the same weekday and minute fields. *)
Theorem OpeningHoursSliceToString_injective (h1 h2 : heap)
    (ohs1 ohs2 : list OpeningHours) :
  Forall (legal h1) ohs1 → Forall (legal h2) ohs2 →
  OpeningHoursSliceToString h1 ohs1 = OpeningHoursSliceToString h2 ohs2 →
  snapshot h1 ohs1 = snapshot h2 ohs2.
Proof.
  intros L1 L2 E.
  destruct (ParseOpeningHours_format h1 [] ohs1 L1) as (r1 & x1 & P1 & S1).
  destruct (ParseOpeningHours_format h2 [] ohs2 L2) as (r2 & x2 & P2 & S2).
  rewrite E, P2 in P1. injection P1 as <- <-. by rewrite <- S1, <- S2.
Qed.

Lemma OpeningHoursSliceToString_injective_witness :
  snapshot [mkTimeInWeek 1 480; mkTimeInWeek 1 960]
    [mkOpeningHours (Some 0%nat) (Some 1%nat)]
  = snapshot [mkTimeInWeek 1 960; mkTimeInWeek 7 0; mkTimeInWeek 1 480]
      [mkOpeningHours (Some 2%nat) (Some 0%nat)].
Proof.
  apply OpeningHoursSliceToString_injective.
  - repeat constructor; simpl; eexists; (split; [reflexivity|]);
      split; unfold inWeek; simpl; lia.
  - repeat constructor; simpl; eexists; (split; [reflexivity|]);
      split; unfold inWeek; simpl; lia.
  - reflexivity.
Defined.

(* ===================================================================== *)
(** ** The grammar of one endpoint                                        *)
(* ===================================================================== *)

Lemma digit_cases (x : Z) :
  isDigitValue x →
  x = 0 ∨ x = 1 ∨ x = 2 ∨ x = 3 ∨ x = 4 ∨ x = 5 ∨ x = 6 ∨ x = 7 ∨ x = 8 ∨ x = 9.
Proof. unfold isDigitValue. lia. Qed.

Ltac digit_split x H :=
  destruct (digit_cases x H) as [->|[->|[->|[->|[->|[->|[->|[->|[->| ->]]]]]]]]].

Lemma isDigit_digitChar (x : Z) : isDigitValue x → isDigit (digitChar x) = true.
Proof. intros H. digit_split x H; reflexivity. Qed.

Lemma isDigit_inv (ch : ascii) :
  isDigit ch = true → ∃ x : Z, isDigitValue x ∧ ch = digitChar x.
Proof.
  unfold isDigit, digitChar, isDigitValue. intros H.
  apply andb_true_iff in H as [H1 H2].
  apply Z.leb_le in H1, H2.
  exists (Z.of_nat (nat_of_ascii ch) - 48). split; [lia|].
  replace (48 + Z.to_nat (Z.of_nat (nat_of_ascii ch) - 48))%nat
    with (nat_of_ascii ch) by lia.
  by rewrite ascii_nat_embedding.
Qed.

Lemma Atoi_digit (d : Z) :
  isDigitValue d → Atoi (String (digitChar d) EmptyString) = Some d.
Proof. intros H. digit_split d H; reflexivity. Qed.

Lemma Atoi_two_digits (a b : Z) :
  isDigitValue a → isDigitValue b →
  Atoi (String (digitChar a) (String (digitChar b) EmptyString)) = Some (10 * a + b).
Proof. intros Ha Hb. digit_split a Ha; digit_split b Hb; reflexivity. Qed.

Lemma matchTimeInWeek_tokenOf (d a b c e s1 s2 : Z) :
  isDigitValue d → isDigitValue a → isDigitValue b → isDigitValue c →
  isDigitValue e → isDigitValue s1 → isDigitValue s2 →
  matchTimeInWeek (tokenOf d a b c e s1 s2)
  = Some (String (digitChar d) EmptyString,
          String (digitChar a) (String (digitChar b) EmptyString),
          String (digitChar c) (String (digitChar e) EmptyString)).
Proof.
  intros Hd Ha Hb Hc He H1 H2. unfold tokenOf, matchTimeInWeek.
  rewrite !isDigit_digitChar by done. reflexivity.
Qed.

Lemma matchTimeInWeek_inv (v g1 g2 g3 : string) :
  matchTimeInWeek v = Some (g1, g2, g3) →
  ∃ d a b c e s1 s2 : Z,
    isDigitValue d ∧ isDigitValue a ∧ isDigitValue b ∧ isDigitValue c ∧
    isDigitValue e ∧ isDigitValue s1 ∧ isDigitValue s2 ∧
    v = tokenOf d a b c e s1 s2.
Proof.
  unfold matchTimeInWeek.
  destruct v as [|cW [|d [|cT [|h1 [|h2 [|c1 [|m1 [|m2 [|c2 [|s1 [|s2 [|]]]]]]]]]]]];
    try discriminate.
  destruct (_ && _) eqn:E; [|discriminate]. intros _.
  repeat (apply andb_true_iff in E as [E ?]).
  repeat match goal with
  | H : isDigit _ = true |- _ => apply isDigit_inv in H as (? & ? & ->)
  | H : Ascii.eqb _ _ = true |- _ => apply Ascii.eqb_eq in H; subst
  end.
  match goal with
  | |- ∃ d a b c e s1 s2 : Z, _ ∧ _ ∧ _ ∧ _ ∧ _ ∧ _ ∧ _ ∧ ?v = _ =>
      cut (∃ d a b c e s1 s2 : Z,
             v = tokenOf d a b c e s1 s2 ∧
             isDigitValue d ∧ isDigitValue a ∧ isDigitValue b ∧ isDigitValue c ∧
             isDigitValue e ∧ isDigitValue s1 ∧ isDigitValue s2)
  end.
  { intros (d & a & b & c & e & s1 & s2 & ? & ? & ? & ? & ? & ? & ? & ?).
    exists d, a, b, c, e, s1, s2. by split_and!. }
  eexists _, _, _, _, _, _, _. split; [reflexivity|]. by split_and!.
Qed.

Lemma parseTimeInWeek_tokenOf (d a b c e s1 s2 : Z) (h : heap) :
  isDigitValue d → isDigitValue a → isDigitValue b → isDigitValue c →
  isDigitValue e → isDigitValue s1 → isDigitValue s2 →
  let v := tokenOf d a b c e s1 s2 in
  let hours := 10 * a + b in
  let minutes := 10 * c + e in
  parseTimeInWeek v h
  = if (d <? 1) || (d >? 7) then
      Done (None, Some ("invalid workday in `" +:+ v +:+
              "`: expected to be between 1 (monday) and 7 (sunday)")) h
    else if hours >? 24 then
      Done (None, Some ("invalid time in `" +:+ v +:+ "`: invalid hours value")) h
    else if minutes >? 59 then
      Done (None, Some ("invalid time in `" +:+ v +:+ "`: invalid minutes value")) h
    else if (hours =? 24) && negb (minutes =? 0) then
      Done (None, Some ("invalid time in `" +:+ v +:+ "`: invalid value")) h
    else Done (Some (length h), None) (h ++ [mkTimeInWeek d (hours * 60 + minutes)]).
Proof.
  intros Hd Ha Hb Hc He H1 H2 v hours minutes.
  unfold parseTimeInWeek.
  destruct v as [|x v'] eqn:Ev; [discriminate Ev|]. rewrite <- Ev. subst v.
  rewrite matchTimeInWeek_tokenOf by done.
  unfold parseWeekDay. rewrite Atoi_digit by done.
  unfold ParseMinutesSinceMidnight. rewrite !Atoi_two_digits by done.
  fold hours. fold minutes.
  assert (0 ≤ hours ∧ 0 ≤ minutes) as [Hh Hm]
    by (unfold hours, minutes, isDigitValue in *; lia).
  destruct ((d <? 1) || (d >? 7)) eqn:Ed; [done|].
  apply orb_false_iff in Ed as [Ed1 Ed2].
  destruct (d =? 0) eqn:Ed0; [lia|].
  destruct (hours <? 0) eqn:Eh0; [lia|].
  destruct (hours >? 24) eqn:Eh; [done|]. simpl.
  destruct (minutes <? 0) eqn:Em0; [lia|].
  destruct (minutes >? 59) eqn:Em; [done|]. simpl.
  by destruct ((hours =? 24) && negb (minutes =? 0)).
Qed.

Lemma parseTimeInWeek_Some_inv (v : string) (h h' : heap) (p : loc) :
  parseTimeInWeek v h = Done (Some p, None) h' →
  ∃ d a b c e s1 s2 : Z,
    isDigitValue d ∧ isDigitValue a ∧ isDigitValue b ∧ isDigitValue c ∧
    isDigitValue e ∧ isDigitValue s1 ∧ isDigitValue s2 ∧
    v = tokenOf d a b c e s1 s2 ∧
    1 ≤ d ≤ 7 ∧ 10 * a + b ≤ 24 ∧ 10 * c + e ≤ 59 ∧
    (10 * a + b = 24 → 10 * c + e = 0) ∧
    p = length h ∧
    h' = h ++ [mkTimeInWeek d ((10 * a + b) * 60 + (10 * c + e))].
Proof.
  intros H.
  assert (∃ g1 g2 g3, matchTimeInWeek v = Some (g1, g2, g3)) as (g1 & g2 & g3 & Hm).
  { unfold parseTimeInWeek in H. destruct v as [|x v]; [discriminate H|].
    destruct (matchTimeInWeek (String x v)) as [[[g1 g2] g3]|];
      [by eexists _, _, _|discriminate H]. }
  apply matchTimeInWeek_inv in Hm
    as (d & a & b & c & e & s1 & s2 & Hd & Ha & Hb & Hc & He & H1 & H2 & ->).
  rewrite parseTimeInWeek_tokenOf in H by done.
  destruct ((d <? 1) || (d >? 7)) eqn:Ed; [discriminate H|].
  apply orb_false_iff in Ed as [Ed1 Ed2].
  destruct (10 * a + b >? 24) eqn:Eh; [discriminate H|].
  destruct (10 * c + e >? 59) eqn:Em; [discriminate H|].
  destruct ((10 * a + b =? 24) && negb (10 * c + e =? 0)) eqn:E24; [discriminate H|].
  injection H as <- <-.
  exists d, a, b, c, e, s1, s2. split_and!; try done; lia.
Qed.

(** X4. [parseTimeInWeek] returns a pointer exactly for the strings
    [W<d>T<HH>:<MM>:<SS>] of eleven bytes with [d] in 1..7, [HH] at most 24,
    [MM] at most 59 and [MM = 00] when [HH = 24]; the two seconds digits are
    free and ignored, and the cell it allocates holds weekday [d] and
    [HH*60 + MM] minutes. *)
Theorem parseTimeInWeek_accepts (v : string) (h h' : heap) (p : loc) :
  parseTimeInWeek v h = Done (Some p, None) h'
  ↔ ∃ d a b c e s1 s2 : Z,
      isDigitValue d ∧ isDigitValue a ∧ isDigitValue b ∧ isDigitValue c ∧
      isDigitValue e ∧ isDigitValue s1 ∧ isDigitValue s2 ∧
      v = tokenOf d a b c e s1 s2 ∧
      1 ≤ d ≤ 7 ∧ 10 * a + b ≤ 24 ∧ 10 * c + e ≤ 59 ∧
      (10 * a + b = 24 → 10 * c + e = 0) ∧
      p = length h ∧
      h' = h ++ [mkTimeInWeek d ((10 * a + b) * 60 + (10 * c + e))].
Proof.
  split.
  - apply parseTimeInWeek_Some_inv.
  - intros (d & a & b & c & e & s1 & s2 & Hd & Ha & Hb & Hc & He & H1 & H2
            & -> & Hd7 & Hh & Hm & H24 & -> & ->).
    rewrite parseTimeInWeek_tokenOf by done.
    destruct ((d <? 1) || (d >? 7)) eqn:Ed.
    { apply orb_true_iff in Ed as [Ed|Ed]; lia. }
    destruct (10 * a + b >? 24) eqn:Eh; [lia|].
    destruct (10 * c + e >? 59) eqn:Em; [lia|].
    destruct ((10 * a + b =? 24) && negb (10 * c + e =? 0)) eqn:E24; [|done].
    apply andb_true_iff in E24 as [E1 E2].
    apply Z.eqb_eq in E1. apply negb_true_iff, Z.eqb_neq in E2. by specialize (H24 E1).
Qed.

(** X5. The errors of [parseTimeInWeek]. The empty string is no error (nil,
    nil). A non-empty string that is not of the shape
    [W<digit>T<digit><digit>:<digit><digit>:<digit><digit>] gives
    [invalid value `v`]. A string of that shape fails, in this order of
    precedence, with the workday message when the weekday digit is 0, 8 or
    9, with [invalid time in `v`: invalid hours value] when the hours exceed
    24, with [... invalid minutes value] when the minutes exceed 59, and with
    [... invalid value] for hour 24 with non-zero minutes. No failing call
    allocates. *)
Theorem parseTimeInWeek_errors (v : string) (h : heap) :
  (v = EmptyString → parseTimeInWeek v h = Done (None, None) h)
  ∧ (v ≠ EmptyString →
     (¬ ∃ d a b c e s1 s2 : Z,
          isDigitValue d ∧ isDigitValue a ∧ isDigitValue b ∧ isDigitValue c ∧
          isDigitValue e ∧ isDigitValue s1 ∧ isDigitValue s2 ∧
          v = tokenOf d a b c e s1 s2) →
     parseTimeInWeek v h = Done (None, Some ("invalid value `" +:+ v +:+ "`")) h)
  ∧ (∀ d a b c e s1 s2 : Z,
       isDigitValue d → isDigitValue a → isDigitValue b → isDigitValue c →
       isDigitValue e → isDigitValue s1 → isDigitValue s2 →
       v = tokenOf d a b c e s1 s2 →
       (d = 0 ∨ 8 ≤ d →
        parseTimeInWeek v h
        = Done (None, Some ("invalid workday in `" +:+ v +:+
                  "`: expected to be between 1 (monday) and 7 (sunday)")) h)
       ∧ (1 ≤ d ≤ 7 → 24 < 10 * a + b →
          parseTimeInWeek v h
          = Done (None, Some ("invalid time in `" +:+ v +:+ "`: invalid hours value")) h)
       ∧ (1 ≤ d ≤ 7 → 10 * a + b ≤ 24 → 59 < 10 * c + e →
          parseTimeInWeek v h
          = Done (None, Some ("invalid time in `" +:+ v +:+ "`: invalid minutes value")) h)
       ∧ (1 ≤ d ≤ 7 → 10 * a + b = 24 → 0 < 10 * c + e ≤ 59 →
          parseTimeInWeek v h
          = Done (None, Some ("invalid time in `" +:+ v +:+ "`: invalid value")) h))
  ∧ (∀ (r : option loc) (err : string) (h' : heap),
       parseTimeInWeek v h = Done (r, Some err) h' → r = None ∧ h' = h).
Proof.
  split_and!.
  - by intros ->.
  - intros Hne Hshape. unfold parseTimeInWeek.
    destruct v as [|x v']; [done|].
    destruct (matchTimeInWeek (String x v')) as [[[g1 g2] g3]|] eqn:Hm; [|done].
    exfalso. apply Hshape. by eapply matchTimeInWeek_inv.
  - intros d a b c e s1 s2 Hd Ha Hb Hc He H1 H2 ->.
    rewrite parseTimeInWeek_tokenOf by done. unfold isDigitValue in *.
    split_and!.
    + intros Hbad. destruct ((d <? 1) || (d >? 7)) eqn:Ed; [done|].
      apply orb_false_iff in Ed as [Ed1 Ed2]. lia.
    + intros Hd7 Hh. destruct ((d <? 1) || (d >? 7)) eqn:Ed.
      { apply orb_true_iff in Ed as [Ed|Ed]; lia. }
      destruct (10 * a + b >? 24) eqn:Eh; [done|lia].
    + intros Hd7 Hh Hm. destruct ((d <? 1) || (d >? 7)) eqn:Ed.
      { apply orb_true_iff in Ed as [Ed|Ed]; lia. }
      destruct (10 * a + b >? 24) eqn:Eh; [lia|].
      destruct (10 * c + e >? 59) eqn:Em; [done|lia].
    + intros Hd7 Hh Hm. destruct ((d <? 1) || (d >? 7)) eqn:Ed.
      { apply orb_true_iff in Ed as [Ed|Ed]; lia. }
      destruct (10 * a + b >? 24) eqn:Eh; [lia|].
      destruct (10 * c + e >? 59) eqn:Em; [lia|].
      destruct (10 * a + b =? 24) eqn:E1; [|lia].
      destruct (10 * c + e =? 0) eqn:E2; [lia|done].
  - intros r err h' H.
    apply parseTimeInWeek_inv in H as [(-> & -> & _)|(t & ? & _)]; done.
Qed.

Lemma parseTimeInWeek_accepts_witness :
  parseTimeInWeek "W5T10:30:59" [mkTimeInWeek 1 0]
  = Done (Some 1%nat, None) [mkTimeInWeek 1 0; mkTimeInWeek 5 630].
Proof.
  apply (proj2 (parseTimeInWeek_accepts "W5T10:30:59" [mkTimeInWeek 1 0]
                  [mkTimeInWeek 1 0; mkTimeInWeek 5 630] 1%nat)).
  exists 5, 1, 0, 3, 0, 5, 9. unfold isDigitValue.
  split_and!; try lia; try reflexivity.
Defined.

Lemma parseTimeInWeek_errors_witness :
  parseTimeInWeek "W9T08:00:00" []
  = Done (None, Some ("invalid workday in `W9T08:00:00`: expected to be between 1 (monday) and 7 (sunday)"%string)) []
  ∧ parseTimeInWeek "monday" []
    = Done (None, Some "invalid value `monday`"%string) [].
Proof.
  pose proof (parseTimeInWeek_errors "W9T08:00:00" []) as (_ & _ & H & _).
  pose proof (parseTimeInWeek_errors "monday" []) as (_ & H' & _).
  split.
  - apply (H 9 0 8 0 0 0 0); unfold isDigitValue; try lia; try reflexivity.
  - apply H'; [discriminate|].
    intros (d & a & b & c & e & s1 & s2 & _ & _ & _ & _ & _ & _ & _ & E).
    discriminate E.
Defined.

(* ===================================================================== *)
(** ** Clock strings, weekday names and the weekday cycle                 *)
(* ===================================================================== *)

Lemma clockCheck_all : forallb (fun m => clockCheck (Z.of_nat m)) (seq 0 1441) = true.
Proof. by vm_compute. Qed.

Lemma minutesSinceMidnightToTime_parse (n : Z) :
  0 ≤ n ≤ 1440 →
  ∃ a b c d : ascii,
    minutesSinceMidnightToTime n
    = String a (String b (String ":" (String c (String d EmptyString))))
    ∧ ParseMinutesSinceMidnight (String a (String b EmptyString))
        (String c (String d EmptyString)) = (n, None).
Proof.
  intros Hn. pose proof clockCheck_all as H. rewrite forallb_forall in H.
  specialize (H (Z.to_nat n) ltac:(apply in_seq; lia)).
  rewrite Z2Nat.id in H by lia. unfold clockCheck in H.
  destruct (minutesSinceMidnightToTime n) as [|a [|b [|x [|c [|d [|]]]]]];
    try discriminate H.
  apply andb_true_iff in H as [Hx Hp]. apply Ascii.eqb_eq in Hx. subst x.
  destruct (ParseMinutesSinceMidnight _ _) as [n' [err|]] eqn:EP; [discriminate Hp|].
  apply Z.eqb_eq in Hp. subst n'. by exists a, b, c, d.
Qed.

Lemma minutesSinceMidnightToTime_inj (m m' : Z) :
  0 ≤ m ≤ 1440 → 0 ≤ m' ≤ 1440 →
  minutesSinceMidnightToTime m' = minutesSinceMidnightToTime m → m' = m.
Proof.
  intros Hm Hm' E.
  destruct (minutesSinceMidnightToTime_parse m Hm) as (a & b & c & d & E1 & P1).
  destruct (minutesSinceMidnightToTime_parse m' Hm') as (a' & b' & c' & d' & E2 & P2).
  rewrite E1, E2 in E. injection E as -> -> -> ->. rewrite P1 in P2. by injection P2.
Qed.

(** X6. For every minute count [m] in 0..1440, [minutesSinceMidnightToTime m]
    is [HH:MM] with two bytes on each side of the colon, and
    [ParseMinutesSinceMidnight HH MM] gives [m] back with no error; so the
    clock string determines [m] (1440 is "24:00", never "00:00"). *)
Theorem minutesSinceMidnightToTime_roundtrip (m : Z) :
  0 ≤ m ≤ 1440 →
  (∃ a b c d : ascii,
     minutesSinceMidnightToTime m
     = String a (String b (String ":" (String c (String d EmptyString))))
     ∧ ParseMinutesSinceMidnight (String a (String b EmptyString))
         (String c (String d EmptyString)) = (m, None))
  ∧ (∀ m' : Z, 0 ≤ m' ≤ 1440 →
       minutesSinceMidnightToTime m' = minutesSinceMidnightToTime m → m' = m).
Proof.
  intros Hm. split; [by apply minutesSinceMidnightToTime_parse|].
  intros m' Hm'. by apply minutesSinceMidnightToTime_inj.
Qed.

Lemma minutesSinceMidnightToTime_roundtrip_witness :
  ∃ a b c d : ascii,
    minutesSinceMidnightToTime 1440
    = String a (String b (String ":" (String c (String d EmptyString))))
    ∧ ParseMinutesSinceMidnight (String a (String b EmptyString))
        (String c (String d EmptyString)) = (1440, None).
Proof.
  apply (proj1 (minutesSinceMidnightToTime_roundtrip 1440 ltac:(lia))).
Defined.

(** X7. [getWeekDay] and the two name parsers. For a weekday in 1..7,
    [ParseStringWeekdayToTimeWeekday] and the older [GetWeekInt] read the
    name printed by [getWeekDay] back to the same number; outside 1..7
    [getWeekDay] prints the empty string, on which the first fails and the
    second returns 0. Whenever [GetWeekInt] returns a non-zero number the
    first parser returns it too; the converse fails on the abbreviations,
    for which [GetWeekInt] is 0. *)
Theorem weekday_name_roundtrip (unicodeLower : string → string) :
  (∀ w : Z, inWeek w →
     ParseStringWeekdayToTimeWeekday unicodeLower (getWeekDay w) = (w, None)
     ∧ TextVariant.GetWeekInt unicodeLower (getWeekDay w) = w)
  ∧ (∀ w : Z, ¬ inWeek w →
       getWeekDay w = EmptyString
       ∧ ParseStringWeekdayToTimeWeekday unicodeLower (getWeekDay w)
         = (0, Some "invalid weekday: "%string)
       ∧ TextVariant.GetWeekInt unicodeLower (getWeekDay w) = 0)
  ∧ (∀ (s : string) (k : Z),
       TextVariant.GetWeekInt unicodeLower s = k → k ≠ 0 →
       ParseStringWeekdayToTimeWeekday unicodeLower s = (k, None))
  ∧ (∀ s : string,
       ToLower unicodeLower s ∈ ["mon"; "tue"; "wed"; "thu"; "fri"; "sat"; "sun"]%string →
       TextVariant.GetWeekInt unicodeLower s = 0
       ∧ ∃ k : Z, inWeek k ∧ ParseStringWeekdayToTimeWeekday unicodeLower s = (k, None)).
Proof.
  split_and!.
  - intros w Hw.
    destruct (inWeek_cases w Hw) as [->|[->|[->|[->|[->|[->| ->]]]]]]; by split.
  - intros w Hw.
    assert (E : getWeekDay w = EmptyString).
    { unfold inWeek in Hw. unfold getWeekDay.
      destruct w as [|p|p]; try done.
      do 3 (destruct p as [p|p|]; try done; try lia). }
    rewrite E. by split_and!.
  - intros s k <-. unfold TextVariant.GetWeekInt, ParseStringWeekdayToTimeWeekday.
    generalize (ToLower unicodeLower s). intros l.
    repeat match goal with
    | |- context [String.eqb l ?name || _] =>
        let E := fresh "E" in
        destruct (String.eqb l name) eqn:E;
        [apply String.eqb_eq in E; by subst l|simpl]
    end.
    done.
  - intros s Hin. unfold TextVariant.GetWeekInt, ParseStringWeekdayToTimeWeekday.
    revert Hin. generalize (ToLower unicodeLower s). intros l Hin.
    repeat (apply elem_of_cons in Hin as [->|Hin];
            [split; [done|eexists; split; [|reflexivity]; unfold inWeek; lia]|]).
    by apply elem_of_nil in Hin.
Qed.

Lemma weekday_name_roundtrip_witness :
  ParseStringWeekdayToTimeWeekday (fun s => s) (getWeekDay 7) = (7, None)
  ∧ TextVariant.GetWeekInt (fun s => s) (getWeekDay 7) = 7.
Proof.
  apply (proj1 (weekday_name_roundtrip (fun s => s)) 7).
  unfold inWeek. lia.
Defined.

(** X8. On a cell whose weekday is in 1..7, [setNextDay] and
    [setPreviousDay] undo each other (in either order the store is as
    before); outside 1..7 they do not: from weekday 0 the two steps give 1. *)
Theorem setNextDay_setPreviousDay_inverse (h : heap) (l : loc) (t : TimeInWeek) :
  h !! l = Some t → inWeek (Weekday t) →
  (setNextDay l ;;; setPreviousDay l) h = Done tt h
  ∧ (setPreviousDay l ;;; setNextDay l) h = Done tt h
  ∧ (setPreviousDay 0%nat ;;; setNextDay 0%nat) [mkTimeInWeek 0 0]
    = Done tt [mkTimeInWeek 1 0].
Proof.
  intros Hl Hw. split_and!; [| |reflexivity].
  - rewrite (bind_Done _ _ _ _ _ (setNextDay_Some _ _ _ Hl)).
    erewrite setPreviousDay_Some by (by eapply lookup_store_eq).
    rewrite list_insert_insert_eq. simpl. f_equal. apply list_insert_id.
    rewrite Hl. f_equal. destruct t as [w m]. simpl in *. f_equal.
    destruct (nextDay_cases w Hw) as [[-> ->]|[? ->]]; [done|].
    destruct (previousDay_cases (w + 1)) as [[? ->]|[? ->]]; unfold inWeek in *; lia.
  - rewrite (bind_Done _ _ _ _ _ (setPreviousDay_Some _ _ _ Hl)).
    erewrite setNextDay_Some by (by eapply lookup_store_eq).
    rewrite list_insert_insert_eq. simpl. f_equal. apply list_insert_id.
    rewrite Hl. f_equal. destruct t as [w m]. simpl in *. f_equal.
    destruct (previousDay_cases w Hw) as [[-> ->]|[? ->]]; [done|].
    destruct (nextDay_cases (w - 1)) as [[? ->]|[? ->]]; unfold inWeek in *; lia.
Qed.

Lemma setNextDay_setPreviousDay_inverse_witness :
  (setNextDay 0%nat ;;; setPreviousDay 0%nat) [mkTimeInWeek 7 30]
  = Done tt [mkTimeInWeek 7 30].
Proof.
  apply (setNextDay_setPreviousDay_inverse [mkTimeInWeek 7 30] 0%nat
           (mkTimeInWeek 7 30) eq_refl).
  unfold inWeek. simpl. lia.
Defined.

(* ===================================================================== *)
(** ** Expansion of whole sequences                                       *)
(* ===================================================================== *)

Lemma usable_keeps (h h' : heap) (oh : OpeningHours) :
  keeps h h' → usable h oh → usable h' oh.
Proof.
  intros K [HO HC]. split.
  - destruct (Open oh) as [l|]; [|done]. destruct HO as (t & Hl & Ht).
    destruct (K l t Hl) as (t' & Hl' & I). exists t'. split; [done|by apply I].
  - destruct (Close oh) as [l|]; [|done]. destruct HC as (t & Hl & Ht).
    destruct (K l t Hl) as (t' & Hl' & I). exists t'. split; [done|by apply I].
Qed.

Lemma usable_present (h : heap) (oh : OpeningHours) :
  usable h oh → bothEndpoints oh → present h oh.
Proof.
  intros [HO HC] [[po EO] [pc EC]]. rewrite EO in HO. rewrite EC in HC.
  destruct HO as (o & Hpo & Ho). destruct HC as (c & Hpc & Hc).
  by exists po, pc, o, c.
Qed.

Lemma legal_usable (h : heap) (oh : OpeningHours) : legal h oh → usable h oh.
Proof.
  intros [HO HC]. split.
  - destruct (Open oh) as [l|]; [|done]. destruct HO as (t & Hl & Ht & _). by exists t.
  - destruct (Close oh) as [l|]; [|done]. destruct HC as (t & Hl & Ht & _). by exists t.
Qed.

Lemma usable_wellFormed (h : heap) (oh : OpeningHours) : usable h oh → wellFormed h oh.
Proof.
  intros [HO HC]. split; intros p Hp.
  - rewrite Hp in HO. destruct HO as (t & Hl & _). by exists t.
  - rewrite Hp in HC. destruct HC as (t & Hl & _). by exists t.
Qed.

Lemma daysBody_total (fuel : nat) (oh : OpeningHours)
    (times : gmap string (list TimeRange)) (h : heap) :
  present h oh → (6 ≤ fuel)%nat →
  ∃ (entries : list (Z * TimeRange)) (h' : heap),
    daysBody fuel oh times h = Done (foldl addEntry times entries) h'
    ∧ keeps h h' ∧ (1 ≤ length entries ≤ 7)%nat.
Proof.
  intros (po & pc & o & c & HO & HC & Hpo & Hpc & Ho & Hc) Hf.
  pose proof (daysClose_inWeek c Hc) as Hc1.
  assert (∃ o1, <[pc := daysClose c]> h !! po = Some o1 ∧ inWeek (Weekday o1))
    as (o1 & Hpo1 & Ho1).
  { destruct (decide (po = pc)) as [->|Hne].
    - exists (daysClose c). split; [by eapply lookup_store_eq|done].
    - exists o. split; [by rewrite list_lookup_insert_ne|done]. }
  exists (specDayEntries o1 (daysClose c)). eexists. split; [|split].
  - by apply (daysBody_run fuel oh po pc times h o1 c).
  - eapply keeps_trans; [exact (keeps_insert h pc c _ Hpc Hc1)|].
    apply (keeps_insert _ po o1 _ Hpo1). exact Hc1.
  - apply specDayEntries_length.
Qed.

Lemma daysBody_absent (fuel : nat) (oh : OpeningHours)
    (times : gmap string (list TimeRange)) (h : heap) :
  usable h oh → ¬ bothEndpoints oh →
  ∃ h' : heap, daysBody fuel oh times h = Panic h'.
Proof.
  intros [HO HC] Hn. unfold daysBody.
  destruct (Close oh) as [pc|] eqn:EC; [|by exists h].
  destruct HC as (c & Hpc & _).
  destruct (Open oh) as [po|] eqn:EO.
  { exfalso. apply Hn. split; [by rewrite EO|by rewrite EC]. }
  unfold deref. unfold bind at 1. unfold bind at 1.
  rewrite (daysNormalize_run _ _ _ Hpc). by eexists.
Qed.

Lemma ocpiBody_absent (fuel : nat) (oh : OpeningHours)
    (regularHours : list OCPIRegularHours) (h : heap) :
  usable h oh → ¬ bothEndpoints oh →
  ∃ h' : heap, ocpiBody fuel oh regularHours h = Panic h'.
Proof.
  intros [HO HC] Hn. unfold ocpiBody.
  destruct (Close oh) as [pc|] eqn:EC; [|by exists h].
  destruct HC as (c & Hpc & _).
  destruct (Open oh) as [po|] eqn:EO.
  { exfalso. apply Hn. split; [by rewrite EO|by rewrite EC]. }
  unfold deref. unfold bind at 1. unfold bind at 1.
  rewrite (ocpiNormalize_run _ _ _ Hpc). by eexists.
Qed.

Lemma bothEndpoints_dec (oh : OpeningHours) : bothEndpoints oh ∨ ¬ bothEndpoints oh.
Proof.
  unfold bothEndpoints. destruct (Open oh), (Close oh);
    [left; by split|right..]; intros [[? ?] [? ?]]; discriminate.
Qed.

Lemma daysRange_outcome (fuel : nat) (ohs : list OpeningHours) :
  ∀ (times : gmap string (list TimeRange)) (h : heap),
    Forall (usable h) ohs → (6 ≤ fuel)%nat →
    (Forall bothEndpoints ohs →
     ∃ times' h', daysRange fuel ohs times h = Done times' h')
    ∧ (Exists (fun oh => ¬ bothEndpoints oh) ohs →
       ∃ h', daysRange fuel ohs times h = Panic h').
Proof.
  induction ohs as [|oh ohs IH]; intros times h Hu Hf.
  - split; [by eexists _, _|]. intros Hex. by apply Exists_nil in Hex.
  - apply Forall_cons in Hu as [Hoh Hu]. simpl.
    destruct (bothEndpoints_dec oh) as [Hb|Hb].
    + destruct (daysBody_total fuel oh times h (usable_present _ _ Hoh Hb) Hf)
        as (es & h1 & R & K & _).
      rewrite (bind_Done _ _ _ _ _ R).
      assert (Hu1 : Forall (usable h1) ohs).
      { eapply Forall_impl; [exact Hu|]. intros x. by apply usable_keeps. }
      destruct (IH (foldl addEntry times es) h1 Hu1 Hf) as [I1 I2]. split.
      * intros Hall. apply Forall_cons in Hall as [_ Hall]. by apply I1.
      * intros Hex. apply Exists_cons in Hex as [Hex|Hex]; [done|by apply I2].
    + destruct (daysBody_absent fuel oh times h Hoh Hb) as (h1 & R).
      unfold bind. rewrite R. split.
      * intros Hall. by apply Forall_cons in Hall as [? _].
      * intros _. by eexists.
Qed.

Lemma ocpiRange_outcome (fuel : nat) (ohs : list OpeningHours) :
  ∀ (regularHours : list OCPIRegularHours) (h : heap),
    Forall (usable h) ohs → (6 ≤ fuel)%nat →
    (Forall bothEndpoints ohs →
     ∃ regularHours' h', ocpiRange fuel ohs regularHours h = Done regularHours' h')
    ∧ (Exists (fun oh => ¬ bothEndpoints oh) ohs →
       ∃ h', ocpiRange fuel ohs regularHours h = Panic h').
Proof.
  induction ohs as [|oh ohs IH]; intros rh h Hu Hf.
  - split; [by eexists _, _|]. intros Hex. by apply Exists_nil in Hex.
  - apply Forall_cons in Hu as [Hoh Hu]. simpl.
    destruct (bothEndpoints_dec oh) as [Hb|Hb].
    + destruct (ocpiBody_total fuel oh rh h (usable_present _ _ Hoh Hb) Hf)
        as (es & h1 & R & K & _).
      rewrite (bind_Done _ _ _ _ _ R).
      assert (Hu1 : Forall (usable h1) ohs).
      { eapply Forall_impl; [exact Hu|]. intros x. by apply usable_keeps. }
      destruct (IH (rh ++ es) h1 Hu1 Hf) as [I1 I2]. split.
      * intros Hall. apply Forall_cons in Hall as [_ Hall]. by apply I1.
      * intros Hex. apply Exists_cons in Hex as [Hex|Hex]; [done|by apply I2].
    + destruct (ocpiBody_absent fuel oh rh h Hoh Hb) as (h1 & R).
      unfold bind. rewrite R. split.
      * intros Hall. by apply Forall_cons in Hall as [? _].
      * intros _. by eexists.
Qed.

Lemma isTwentyFourSeven_Done (ohs : list OpeningHours) (h : heap) :
  Forall (wellFormed h) ohs → ∃ b : bool, isTwentyFourSeven ohs h = Done b h.
Proof.
  intros Hwf. unfold isTwentyFourSeven. destruct ohs as [|oh0 ohs0]; [by eexists|].
  revert Hwf. generalize (oh0 :: ohs0). clear. intros ohs Hwf.
  induction Hwf as [|oh ohs [WO WC] _ IH]; [by eexists|]. simpl.
  destruct (Open oh) as [po|] eqn:HO; [|by eexists].
  destruct (Close oh) as [pc|] eqn:HC; [|by eexists].
  destruct (WO po eq_refl) as [o Hpo]. destruct (WC pc eq_refl) as [c Hpc].
  rewrite (bind_Done _ _ _ _ _ (load_Some _ _ _ Hpo)).
  rewrite (bind_Done _ _ _ _ _ (load_Some _ _ _ Hpc)).
  destruct (negb _ || negb _); [by eexists|].
  destruct (negb _ || negb _); [by eexists|]. exact IH.
Qed.

(** X9. Given intervals whose non-nil endpoints are cells with weekdays in
    1..7, [GetHumanReadableTimes] and [GetOCPIOpeningTimes] return a result
    exactly when no endpoint is nil: with both endpoints everywhere both
    return (for any loop budget of at least 6, also when intervals share
    cells); with a nil endpoint somewhere both panic on the nil
    dereference, and neither reports an error value. *)
Theorem expansions_return_iff_endpoints (fuel : nat) (ohs : list OpeningHours)
    (h : heap) :
  Forall (usable h) ohs → (6 ≤ fuel)%nat →
  (Forall bothEndpoints ohs →
   (∃ r h', GetHumanReadableTimes fuel ohs h = Done r h')
   ∧ (∃ r h', GetOCPIOpeningTimes fuel ohs h = Done r h'))
  ∧ (Exists (fun oh => ¬ bothEndpoints oh) ohs →
     (∃ h', GetHumanReadableTimes fuel ohs h = Panic h')
     ∧ (∃ h', GetOCPIOpeningTimes fuel ohs h = Panic h')).
Proof.
  intros Hu Hf.
  destruct (daysRange_outcome fuel ohs ∅ h Hu Hf) as [D1 D2].
  destruct (ocpiRange_outcome fuel ohs [] h Hu Hf) as [O1 O2].
  assert (Hwf : Forall (wellFormed h) ohs).
  { eapply Forall_impl; [exact Hu|]. intros x. apply usable_wellFormed. }
  destruct (isTwentyFourSeven_Done ohs h Hwf) as [b Hb].
  split.
  - intros Hall. split.
    + unfold GetHumanReadableTimes. destruct ohs as [|oh ohs]; [by eexists _, _|].
      destruct (D1 Hall) as (t' & h' & R). rewrite (bind_Done _ _ _ _ _ R).
      by eexists _, _.
    + unfold GetOCPIOpeningTimes. rewrite (bind_Done _ _ _ _ _ Hb).
      destruct b; [by eexists _, _|].
      destruct (O1 Hall) as (rh & h' & R). rewrite (bind_Done _ _ _ _ _ R).
      destruct rh; by eexists _, _.
  - intros Hex. split.
    + unfold GetHumanReadableTimes. destruct ohs as [|oh ohs]; [by apply Exists_nil in Hex|].
      destruct (D2 Hex) as (h' & R). unfold bind. rewrite R. by eexists.
    + unfold GetOCPIOpeningTimes.
      assert (Hb' : isTwentyFourSeven ohs h = Done false h).
      { destruct ohs as [|oh0 ohs0]; [done|]. unfold isTwentyFourSeven.
        apply isTwentyFourSevenRange_false; [done|].
        eapply Exists_impl; [exact Hex|]. intros x Hx [FO FC]. apply Hx.
        unfold view, bothEndpoints in *.
        destruct (Open x), (Close x); try done. }
      rewrite (bind_Done _ _ _ _ _ Hb').
      destruct (O2 Hex) as (h' & R). unfold bind. rewrite R. by eexists.
Qed.

Lemma expansions_return_iff_endpoints_witness :
  ∃ h', GetHumanReadableTimes 6
          [mkOpeningHours (Some 0%nat) (Some 0%nat); mkOpeningHours None (Some 0%nat)]
          [mkTimeInWeek 3 0]
        = Panic h'.
Proof.
  apply (proj2 (expansions_return_iff_endpoints 6
                  [mkOpeningHours (Some 0%nat) (Some 0%nat); mkOpeningHours None (Some 0%nat)]
                  [mkTimeInWeek 3 0]
                  ltac:(repeat constructor; simpl; try (eexists; split; [reflexivity|]);
                        unfold inWeek; simpl; lia)
                  ltac:(lia))).
  apply Exists_cons_tl, Exists_cons_hd. intros [[? ?] _]. discriminate.
Defined.

(* ===================================================================== *)
(** ** Sequences that share no cell                                       *)
(* ===================================================================== *)

Lemma ptrs_cons (oh : OpeningHours) (ohs : list OpeningHours) :
  ptrs (oh :: ohs) = option_list (Open oh) ++ option_list (Close oh) ++ ptrs ohs.
Proof. unfold ptrs. simpl. by rewrite <- app_assoc. Qed.

Lemma ptrs_elem (oh : OpeningHours) (ohs : list OpeningHours) (l : loc) :
  oh ∈ ohs → (Open oh = Some l ∨ Close oh = Some l) → l ∈ ptrs ohs.
Proof.
  induction ohs as [|x ohs IH]; intros Hin Hl; [by apply elem_of_nil in Hin|].
  rewrite ptrs_cons. apply elem_of_cons in Hin as [<-|Hin].
  - destruct Hl as [-> | ->]; simpl.
    + apply elem_of_cons. by left.
    + apply elem_of_app. right. apply elem_of_cons. by left.
  - rewrite !elem_of_app. right. right. by apply IH.
Qed.

Lemma present_same (h h1 : heap) (oh : OpeningHours) :
  (∀ l, (Open oh = Some l ∨ Close oh = Some l) → h1 !! l = h !! l) →
  present h oh → present h1 oh.
Proof.
  intros S (po & pc & o & c & HO & HC & Hpo & Hpc & Ho & Hc).
  exists po, pc, o, c. split_and!; try done.
  - rewrite S; [done|by left].
  - rewrite S; [done|by right].
Qed.

Lemma view_same (h h1 : heap) (p : option loc) :
  (∀ l, p = Some l → h1 !! l = h !! l) → view h1 p = view h p.
Proof. destruct p as [l|]; [|done]. intros S. simpl. by apply S. Qed.

Lemma dayEntriesOf_same (h h1 : heap) (oh : OpeningHours) :
  (∀ l, (Open oh = Some l ∨ Close oh = Some l) → h1 !! l = h !! l) →
  dayEntriesOf h1 oh = dayEntriesOf h oh.
Proof.
  intros S. unfold dayEntriesOf.
  rewrite (view_same h h1 (Open oh)) by (intros l E; apply S; by left).
  by rewrite (view_same h h1 (Close oh)) by (intros l E; apply S; by right).
Qed.

Lemma ocpiEntriesOf_same (h h1 : heap) (oh : OpeningHours) :
  (∀ l, (Open oh = Some l ∨ Close oh = Some l) → h1 !! l = h !! l) →
  ocpiEntriesOf h1 oh = ocpiEntriesOf h oh.
Proof.
  intros S. unfold ocpiEntriesOf.
  rewrite (view_same h h1 (Open oh)) by (intros l E; apply S; by left).
  by rewrite (view_same h h1 (Close oh)) by (intros l E; apply S; by right).
Qed.

Lemma map_same {A B : Type} (f g : A → B) (l : list A) :
  (∀ x, x ∈ l → f x = g x) → map f l = map g l.
Proof.
  induction l as [|x l IH]; intros H; [done|]. simpl. f_equal.
  - apply H. apply elem_of_cons. by left.
  - apply IH. intros y Hy. apply H. apply elem_of_cons. by right.
Qed.

Lemma separate_head (h : heap) (oh : OpeningHours) (ohs : list OpeningHours) :
  present h oh → NoDup (ptrs (oh :: ohs)) →
  ∃ (po pc : loc) (o c : TimeInWeek),
    Open oh = Some po ∧ Close oh = Some pc ∧ h !! po = Some o ∧ h !! pc = Some c
    ∧ inWeek (Weekday o) ∧ inWeek (Weekday c)
    ∧ po ≠ pc ∧ (po ∉ ptrs ohs) ∧ (pc ∉ ptrs ohs) ∧ NoDup (ptrs ohs).
Proof.
  intros (po & pc & o & c & HO & HC & Hpo & Hpc & Ho & Hc) Hnd.
  rewrite ptrs_cons, HO, HC in Hnd. simpl in Hnd.
  apply NoDup_cons in Hnd as [N1 Hnd]. apply NoDup_cons in Hnd as [N2 Hnd].
  exists po, pc, o, c. split_and!; try done.
  - intros ->. apply N1. apply elem_of_cons. by left.
  - intros Hin. apply N1. apply elem_of_cons. by right.
Qed.

Lemma daysRange_separate (fuel : nat) (ohs : list OpeningHours) :
  ∀ (times : gmap string (list TimeRange)) (h : heap),
    Forall (present h) ohs → NoDup (ptrs ohs) → (6 ≤ fuel)%nat →
    ∃ h' : heap,
      daysRange fuel ohs times h
      = Done (foldl addEntry times (concat (map (dayEntriesOf h) ohs))) h'
      ∧ ∀ l, l ∉ ptrs ohs → h' !! l = h !! l.
Proof.
  induction ohs as [|oh ohs IH]; intros times h Hall Hnd Hf.
  - by exists h.
  - apply Forall_cons in Hall as [Hoh Hall].
    destruct (separate_head h oh ohs Hoh Hnd)
      as (po & pc & o & c & HO & HC & Hpo & Hpc & Ho & Hc & Hne & No & Nc & Hnd').
    assert (Hpo1 : <[pc := daysClose c]> h !! po = Some o)
      by (by rewrite list_lookup_insert_ne).
    pose proof (daysBody_run fuel oh po pc times h o c HO HC Hpc Hpo1 Ho
                  (daysClose_inWeek c Hc) Hf) as R.
    set (h1 := <[po := _]> (<[pc := daysClose c]> h)) in R.
    assert (S1 : ∀ l, l ≠ po → l ≠ pc → h1 !! l = h !! l).
    { intros l L1 L2. unfold h1. by rewrite !list_lookup_insert_ne. }
    assert (Srest : ∀ x, x ∈ ohs →
              ∀ l, (Open x = Some l ∨ Close x = Some l) → h1 !! l = h !! l).
    { intros x Hx l Hl. pose proof (ptrs_elem x ohs l Hx Hl) as Hin.
      apply S1; intros ->; done. }
    assert (Hall1 : Forall (present h1) ohs).
    { apply Forall_forall. intros x Hx. apply (present_same h); [by apply Srest|].
      rewrite Forall_forall in Hall. by apply Hall. }
    destruct (IH (foldl addEntry times (specDayEntries o (daysClose c))) h1 Hall1 Hnd' Hf)
      as (h' & R' & F').
    exists h'. split.
    + simpl. rewrite (bind_Done _ _ _ _ _ R). rewrite R'. f_equal.
      rewrite foldl_app. f_equal.
      * unfold dayEntriesOf. rewrite HO, HC. simpl. by rewrite Hpo, Hpc.
      * f_equal. apply map_same. intros x Hx. by apply dayEntriesOf_same, Srest.
    + intros l Hl. rewrite ptrs_cons, HO, HC in Hl. simpl in Hl.
      rewrite !not_elem_of_cons in Hl. destruct Hl as (L1 & L2 & L3).
      rewrite F' by done. by apply S1.
Qed.

Lemma ocpiRange_separate (fuel : nat) (ohs : list OpeningHours) :
  ∀ (regularHours : list OCPIRegularHours) (h : heap),
    Forall (present h) ohs → NoDup (ptrs ohs) → (6 ≤ fuel)%nat →
    ∃ h' : heap,
      ocpiRange fuel ohs regularHours h
      = Done (regularHours ++ concat (map (ocpiEntriesOf h) ohs)) h'
      ∧ ∀ l, l ∉ ptrs ohs → h' !! l = h !! l.
Proof.
  induction ohs as [|oh ohs IH]; intros rh h Hall Hnd Hf.
  - exists h. by rewrite app_nil_r.
  - apply Forall_cons in Hall as [Hoh Hall].
    destruct (separate_head h oh ohs Hoh Hnd)
      as (po & pc & o & c & HO & HC & Hpo & Hpc & Ho & Hc & Hne & No & Nc & Hnd').
    assert (Hpo1 : <[pc := ocpiClose c]> h !! po = Some o)
      by (by rewrite list_lookup_insert_ne).
    pose proof (ocpiBody_run fuel oh po pc rh h o c HO HC Hpc Hpo1 Ho
                  (ocpiClose_inWeek c Hc) Hf) as R.
    set (h1 := <[po := _]> (<[pc := ocpiClose c]> h)) in R.
    assert (S1 : ∀ l, l ≠ po → l ≠ pc → h1 !! l = h !! l).
    { intros l L1 L2. unfold h1. by rewrite !list_lookup_insert_ne. }
    assert (Srest : ∀ x, x ∈ ohs →
              ∀ l, (Open x = Some l ∨ Close x = Some l) → h1 !! l = h !! l).
    { intros x Hx l Hl. pose proof (ptrs_elem x ohs l Hx Hl) as Hin.
      apply S1; intros ->; done. }
    assert (Hall1 : Forall (present h1) ohs).
    { apply Forall_forall. intros x Hx. apply (present_same h); [by apply Srest|].
      rewrite Forall_forall in Hall. by apply Hall. }
    destruct (IH (rh ++ specOcpiEntries o (ocpiClose c)) h1 Hall1 Hnd' Hf)
      as (h' & R' & F').
    exists h'. split.
    + simpl. rewrite (bind_Done _ _ _ _ _ R). rewrite R'. f_equal.
      rewrite <- app_assoc. f_equal. f_equal.
      * unfold ocpiEntriesOf. rewrite HO, HC. simpl. by rewrite Hpo, Hpc.
      * f_equal. apply map_same. intros x Hx. by apply ocpiEntriesOf_same, Srest.
    + intros l Hl. rewrite ptrs_cons, HO, HC in Hl. simpl in Hl.
      rewrite !not_elem_of_cons in Hl. destruct Hl as (L1 & L2 & L3).
      rewrite F' by done. by apply S1.
Qed.

(** X10. For a non-empty sequence of intervals with both endpoints present,
    weekdays in 1..7 and no cell shared between endpoints,
    [GetHumanReadableTimes] returns the map obtained from the empty map by
    the [addTimeToWeek] calls of the first interval, then those of the
    second, and so on, each interval contributing the day ranges of its own
    cells as the caller passed them; cells that no interval points to are
    left as they were. *)
Theorem GetHumanReadableTimes_separate (fuel : nat) (ohs : list OpeningHours)
    (h : heap) :
  ohs ≠ [] → Forall (present h) ohs → NoDup (ptrs ohs) → (6 ≤ fuel)%nat →
  ∃ h' : heap,
    GetHumanReadableTimes fuel ohs h
    = Done (Some (foldl addEntry ∅ (concat (map (dayEntriesOf h) ohs)))) h'
    ∧ ∀ l, l ∉ ptrs ohs → h' !! l = h !! l.
Proof.
  intros Hne Hall Hnd Hf.
  destruct (daysRange_separate fuel ohs ∅ h Hall Hnd Hf) as (h' & R & F).
  exists h'. split; [|done]. unfold GetHumanReadableTimes.
  destruct ohs as [|oh ohs]; [done|]. by rewrite (bind_Done _ _ _ _ _ R).
Qed.

Lemma GetHumanReadableTimes_separate_witness :
  ∃ h' : heap,
    GetHumanReadableTimes 6
      [mkOpeningHours (Some 0%nat) (Some 1%nat); mkOpeningHours (Some 3%nat) (Some 2%nat)]
      [mkTimeInWeek 1 780; mkTimeInWeek 1 1080; mkTimeInWeek 1 720; mkTimeInWeek 7 1320]
    = Done (Some (foldl addEntry ∅
              [(1, mkTimeRange "13:00" "18:00");
               (7, mkTimeRange "22:00" "24:00");
               (1, mkTimeRange "00:00" "12:00")])) h'
    ∧ ∀ l, l ∉ ptrs [mkOpeningHours (Some 0%nat) (Some 1%nat);
                     mkOpeningHours (Some 3%nat) (Some 2%nat)] →
           h' !! l = [mkTimeInWeek 1 780; mkTimeInWeek 1 1080;
                      mkTimeInWeek 1 720; mkTimeInWeek 7 1320] !! l.
Proof.
  apply (GetHumanReadableTimes_separate 6
           [mkOpeningHours (Some 0%nat) (Some 1%nat); mkOpeningHours (Some 3%nat) (Some 2%nat)]
           [mkTimeInWeek 1 780; mkTimeInWeek 1 1080; mkTimeInWeek 1 720; mkTimeInWeek 7 1320]).
  - discriminate.
  - repeat constructor; eexists _, _, _, _;
      (split_and!; [reflexivity..| |]); unfold inWeek; simpl; lia.
  - vm_compute. repeat constructor; rewrite ?elem_of_cons, ?elem_of_nil; lia.
  - lia.
Defined.

(** X11. For a sequence of intervals with both endpoints present, weekdays
    in 1..7 and no cell shared between endpoints, one of which is not
    exactly open=(1,0), close=(7,1440), [GetOCPIOpeningTimes] returns
    [TwentyFourSeven = false] with the regular hours of the first interval,
    then those of the second, and so on, each read from the interval's own
    cells as the caller passed them. *)
Theorem GetOCPIOpeningTimes_separate (fuel : nat) (ohs : list OpeningHours)
    (h : heap) :
  Forall (present h) ohs → NoDup (ptrs ohs) →
  Exists (fun oh => ¬ fullWeek h oh) ohs → (6 ≤ fuel)%nat →
  ∃ h' : heap,
    GetOCPIOpeningTimes fuel ohs h
    = Done (mkOCPIOpeningTimes false (Some (concat (map (ocpiEntriesOf h) ohs)))) h'
    ∧ ∀ l, l ∉ ptrs ohs → h' !! l = h !! l.
Proof.
  intros Hall Hnd Hex Hf.
  destruct (ocpiRange_separate fuel ohs [] h Hall Hnd Hf) as (h' & R & F).
  exists h'. split; [|done]. unfold GetOCPIOpeningTimes.
  assert (Hwf : Forall (wellFormed h) ohs).
  { eapply Forall_impl; [exact Hall|]. intros x. apply present_wellFormed. }
  assert (Hb : isTwentyFourSeven ohs h = Done false h).
  { unfold isTwentyFourSeven. destruct ohs as [|oh0 ohs0]; [done|].
    by apply isTwentyFourSevenRange_false. }
  rewrite (bind_Done _ _ _ _ _ Hb). rewrite (bind_Done _ _ _ _ _ R). simpl.
  destruct (concat (map (ocpiEntriesOf h) ohs)) as [|e es] eqn:E; [|done].
  exfalso. destruct ohs as [|oh ohs]; [by apply Exists_nil in Hex|].
  apply Forall_cons in Hall as [(po & pc & o & c & HO & HC & Hpo & Hpc & _) _].
  simpl in E. unfold ocpiEntriesOf in E. rewrite HO, HC in E. simpl in E.
  rewrite Hpo, Hpc in E.
  pose proof (specOcpiEntries_length o (ocpiClose c)) as L.
  destruct (specOcpiEntries o (ocpiClose c)); [simpl in L; lia|discriminate E].
Qed.

Lemma GetOCPIOpeningTimes_separate_witness :
  ∃ h' : heap,
    GetOCPIOpeningTimes 6
      [mkOpeningHours (Some 0%nat) (Some 1%nat); mkOpeningHours (Some 3%nat) (Some 2%nat)]
      [mkTimeInWeek 1 780; mkTimeInWeek 1 1440; mkTimeInWeek 1 0; mkTimeInWeek 6 1320]
    = Done (mkOCPIOpeningTimes false
              (Some [mkOCPIRegularHours 1 "13:00" "00:00";
                     mkOCPIRegularHours 6 "22:00" "00:00";
                     mkOCPIRegularHours 7 "00:00" "00:00"])) h'
    ∧ ∀ l, l ∉ ptrs [mkOpeningHours (Some 0%nat) (Some 1%nat);
                     mkOpeningHours (Some 3%nat) (Some 2%nat)] →
           h' !! l = [mkTimeInWeek 1 780; mkTimeInWeek 1 1440;
                      mkTimeInWeek 1 0; mkTimeInWeek 6 1320] !! l.
Proof.
  apply (GetOCPIOpeningTimes_separate 6
           [mkOpeningHours (Some 0%nat) (Some 1%nat); mkOpeningHours (Some 3%nat) (Some 2%nat)]
           [mkTimeInWeek 1 780; mkTimeInWeek 1 1440; mkTimeInWeek 1 0; mkTimeInWeek 6 1320]).
  - repeat constructor; eexists _, _, _, _;
      (split_and!; [reflexivity..| |]); unfold inWeek; simpl; lia.
  - vm_compute. repeat constructor; rewrite ?elem_of_cons, ?elem_of_nil; lia.
  - apply Exists_cons_hd. intros [FO _]. discriminate FO.
  - lia.
Defined.

(* ===================================================================== *)
(** ** What the map of day ranges holds                                   *)
(* ===================================================================== *)

Lemma foldl_addEntry_lookup (es : list (Z * TimeRange)) (k : string) :
  ∀ times : gmap string (list TimeRange),
    foldl addEntry times es !! k
    = match map snd (filter (fun e => getWeekDay e.1 = k) es) with
      | [] => times !! k
      | ranges => Some (default [] (times !! k) ++ ranges)
      end.
Proof.
  induction es as [|e es IH]; intros times; simpl; [done|].
  rewrite IH, filter_cons.
  assert (Ea : ∀ k', addEntry times e !! k'
                     = if decide (getWeekDay e.1 = k')
                       then Some (default [] (times !! getWeekDay e.1) ++ [e.2])
                       else times !! k').
  { intros k'. unfold addEntry, addTimeToWeek. destruct e as [w [o c]]. simpl.
    destruct (decide (getWeekDay w = k')) as [<-|Hne];
      [by rewrite lookup_insert_eq|by rewrite lookup_insert_ne]. }
  rewrite Ea. clear Ea. destruct e as [w r]. simpl.
  destruct (decide (getWeekDay w = k)) as [<-|Hne]; [|done]. simpl.
  destruct (map snd _) as [|r' rs]; [done|]. by rewrite <- app_assoc.
Qed.

Lemma getWeekDay_inj (w w' : Z) :
  inWeek w → getWeekDay w = getWeekDay w' → w = w'.
Proof.
  intros Hw E.
  assert (Hw' : inWeek w').
  { destruct (decide (inWeek w')) as [|Hn]; [done|].
    exfalso. revert E.
    replace (getWeekDay w') with EmptyString.
    - by destruct (inWeek_cases w Hw) as [->|[->|[->|[->|[->|[->| ->]]]]]].
    - unfold inWeek in Hn. unfold getWeekDay.
      destruct w' as [|p|p]; try done.
      do 3 (destruct p as [p|p|]; try done; try lia). }
  destruct (inWeek_cases w Hw) as [->|[->|[->|[->|[->|[->| ->]]]]]];
    destruct (inWeek_cases w' Hw') as [->|[->|[->|[->|[->|[->| ->]]]]]];
    done.
Qed.

Lemma specDayEntries_inWeek (o c : TimeInWeek) :
  inWeek (Weekday o) → inWeek (Weekday c) →
  Forall (fun e => inWeek e.1) (specDayEntries o c).
Proof.
  intros Ho Hc. unfold specDayEntries.
  destruct (Weekday o =? Weekday c); [by constructor; [|constructor]|].
  apply Forall_app. split; [by constructor; [|constructor]|]. apply Forall_app. split.
  - apply Forall_map. unfold specWeekdaysBetween. apply Forall_map.
    apply Forall_forall. intros k _. simpl. unfold inWeek.
    pose proof (Z.mod_pos_bound (Weekday o - 1 + Z.of_nat k) 7). lia.
  - by constructor; [|constructor].
Qed.

Lemma dayEntriesOf_inWeek (h : heap) (ohs : list OpeningHours) :
  Forall (present h) ohs →
  Forall (fun e => inWeek e.1) (concat (map (dayEntriesOf h) ohs)).
Proof.
  induction 1 as [|oh ohs (po & pc & o & c & HO & HC & Hpo & Hpc & Ho & Hc) _ IH];
    [constructor|].
  simpl. apply Forall_app. split; [|done].
  unfold dayEntriesOf. rewrite HO, HC. simpl. rewrite Hpo, Hpc.
  apply specDayEntries_inWeek; [done|by apply daysClose_inWeek].
Qed.

(** X12. In the map that [GetHumanReadableTimes] returns for a non-empty
    sequence of intervals with both endpoints present, weekdays in 1..7 and
    no shared cell, the list under the name of weekday [w] holds exactly the
    ranges emitted for [w], in the order of emission (interval after
    interval); a weekday for which nothing was emitted has no key, and no key
    other than the seven weekday names exists. *)
Theorem GetHumanReadableTimes_lookup (fuel : nat) (ohs : list OpeningHours)
    (h : heap) :
  ohs ≠ [] → Forall (present h) ohs → NoDup (ptrs ohs) → (6 ≤ fuel)%nat →
  ∃ (m : gmap string (list TimeRange)) (h' : heap),
    GetHumanReadableTimes fuel ohs h = Done (Some m) h'
    ∧ (∀ w : Z, inWeek w →
         let ranges :=
           map snd (filter (fun e => e.1 = w) (concat (map (dayEntriesOf h) ohs))) in
         m !! getWeekDay w = match ranges with [] => None | _ => Some ranges end)
    ∧ (∀ k : string, (∀ w : Z, inWeek w → k ≠ getWeekDay w) → m !! k = None).
Proof.
  intros Hne Hall Hnd Hf.
  assert (∃ h', GetHumanReadableTimes fuel ohs h
                = Done (Some (foldl addEntry ∅ (concat (map (dayEntriesOf h) ohs)))) h')
    as (h' & R).
  { destruct (daysRange_separate fuel ohs ∅ h Hall Hnd Hf) as (h' & R & _).
    exists h'. unfold GetHumanReadableTimes.
    destruct ohs as [|oh ohs]; [done|]. by rewrite (bind_Done _ _ _ _ _ R). }
  pose proof (dayEntriesOf_inWeek h ohs Hall) as Hin.
  revert R Hin. generalize (concat (map (dayEntriesOf h) ohs)). intros es R Hin.
  exists (foldl addEntry ∅ es), h'. split; [done|]. split.
  - intros w Hw ranges.
    assert (Ef : filter (fun e : Z * TimeRange => getWeekDay e.1 = getWeekDay w) es
                 = filter (fun e => e.1 = w) es).
    { clear R. induction Hin as [|e es He _ IH]; [done|].
      rewrite !filter_cons, IH.
      destruct (decide (e.1 = w)) as [->|Hn]; [by rewrite decide_True|].
      rewrite decide_False; [done|]. intros E. apply Hn. by apply getWeekDay_inj. }
    rewrite foldl_addEntry_lookup, Ef, lookup_empty. fold ranges.
    by destruct ranges.
  - intros k Hk. rewrite foldl_addEntry_lookup, lookup_empty.
    replace (filter (fun e : Z * TimeRange => getWeekDay e.1 = k) es) with (@nil (Z * TimeRange));
      [done|].
    clear R. induction Hin as [|e es He _ IH]; [done|].
    rewrite filter_cons, <- IH. rewrite decide_False; [done|].
    intros E. by apply (Hk e.1 He).
Qed.

Lemma GetHumanReadableTimes_lookup_witness :
  ∃ (m : gmap string (list TimeRange)) (h' : heap),
    GetHumanReadableTimes 6
      [mkOpeningHours (Some 0%nat) (Some 1%nat); mkOpeningHours (Some 3%nat) (Some 2%nat)]
      [mkTimeInWeek 1 780; mkTimeInWeek 1 1080; mkTimeInWeek 1 720; mkTimeInWeek 7 1320]
    = Done (Some m) h'
    ∧ (∀ w : Z, inWeek w →
         let ranges :=
           map snd (filter (fun e => e.1 = w)
                      [(1, mkTimeRange "13:00" "18:00");
                       (7, mkTimeRange "22:00" "24:00");
                       (1, mkTimeRange "00:00" "12:00")]) in
         m !! getWeekDay w = match ranges with [] => None | _ => Some ranges end)
    ∧ (∀ k : string, (∀ w : Z, inWeek w → k ≠ getWeekDay w) → m !! k = None).
Proof.
  apply (GetHumanReadableTimes_lookup 6
           [mkOpeningHours (Some 0%nat) (Some 1%nat); mkOpeningHours (Some 3%nat) (Some 2%nat)]
           [mkTimeInWeek 1 780; mkTimeInWeek 1 1080; mkTimeInWeek 1 720; mkTimeInWeek 7 1320]).
  - discriminate.
  - repeat constructor; eexists _, _, _, _;
      (split_and!; [reflexivity..| |]); unfold inWeek; simpl; lia.
  - vm_compute. repeat constructor; rewrite ?elem_of_cons, ?elem_of_nil; lia.
  - lia.
Defined.

(* ===================================================================== *)
(** ** The variant that expands a string directly                         *)
(* ===================================================================== *)

Lemma TextVariant_daysLoop_run (closing : Z) (n : nat) :
  ∀ (fuel : nat) (current : Z) (times : gmap string (list TimeRange)),
    inWeek current → inWeek closing →
    Z.of_nat n = (closing - current) mod 7 → (n < fuel)%nat →
    TextVariant.daysLoop fuel current closing times
    = Some (foldl addEntry times
              (map (fun w => (w, mkTimeRange "00:00" "24:00")) (cycleDays current n))).
Proof.
  induction n as [|n IH]; intros fuel current times Hc Hcl Hn Hf.
  - destruct fuel as [|fuel]; [lia|]. simpl.
    by rewrite (steps_zero _ _ Hc Hcl Hn), Z.eqb_refl.
  - destruct fuel as [|fuel]; [lia|]. simpl.
    destruct (current =? closing) eqn:E.
    { apply Z.eqb_eq in E. rewrite E, Z.sub_diag, Z.mod_0_l in Hn by lia. lia. }
    apply Z.eqb_neq in E.
    destruct (steps_next _ _ _ Hc Hcl E Hn) as (n' & [= ->] & Hn').
    apply IH; try done; [by apply nextDay_inWeek|lia].
Qed.

Lemma TextVariant_daysLoop_unreachable (closing : Z) (fuel : nat) :
  ∀ (current : Z) (times : gmap string (list TimeRange)),
    inWeek current → ¬ inWeek closing →
    TextVariant.daysLoop fuel current closing times = None.
Proof.
  induction fuel as [|fuel IH]; intros current times Hc Hcl; [done|]. simpl.
  destruct (current =? closing) eqn:E.
  { apply Z.eqb_eq in E. by rewrite E in Hc. }
  apply IH; [by apply nextDay_inWeek|done].
Qed.

Lemma fmt02D_two_digits (a b : Z) :
  isDigitValue a → isDigitValue b →
  fmt02D (10 * a + b) = String (digitChar a) (String (digitChar b) EmptyString).
Proof. intros Ha Hb. digit_split a Ha; digit_split b Hb; reflexivity. Qed.

Lemma eqb_two_zeros (a b : Z) :
  isDigitValue a → isDigitValue b →
  String.eqb (String (digitChar a) (String (digitChar b) EmptyString)) "00"
  = (10 * a + b =? 0).
Proof. intros Ha Hb. digit_split a Ha; digit_split b Hb; reflexivity. Qed.

Lemma clock_of_digits (a b c e : Z) :
  isDigitValue a → isDigitValue b → isDigitValue c → isDigitValue e →
  10 * c + e ≤ 59 →
  minutesSinceMidnightToTime ((10 * a + b) * 60 + (10 * c + e))
  = String (digitChar a) (String (digitChar b) EmptyString) +:+ ":"
    +:+ String (digitChar c) (String (digitChar e) EmptyString).
Proof.
  intros Ha Hb Hc He Hm. unfold minutesSinceMidnightToTime.
  assert (Hq : Z.quot ((10 * a + b) * 60 + (10 * c + e)) 60 = 10 * a + b).
  { unfold isDigitValue in *. rewrite Z.quot_div_nonneg by lia.
    symmetry. apply (Z.div_unique_pos _ _ _ (10 * c + e)); lia. }
  assert (Hr : Z.rem ((10 * a + b) * 60 + (10 * c + e)) 60 = 10 * c + e).
  { unfold isDigitValue in *. rewrite Z.rem_mod_nonneg by lia.
    symmetry. apply (Z.mod_unique_pos _ _ (10 * a + b)); lia. }
  rewrite Hq, Hr. by rewrite !fmt02D_two_digits.
Qed.

(** What [getHumanReadableTime] returns on a string that [parseTimeInWeek]
    accepts, in terms of the cell that [parseTimeInWeek] allocates. *)
Lemma getHumanReadableTime_token (d a b c e s1 s2 : Z) :
  isDigitValue d → isDigitValue a → isDigitValue b → isDigitValue c →
  isDigitValue e → isDigitValue s1 → isDigitValue s2 →
  10 * c + e ≤ 59 →
  let v := tokenOf d a b c e s1 s2 in
  let t := mkTimeInWeek d ((10 * a + b) * 60 + (10 * c + e)) in
  TextVariant.getHumanReadableTime v false
  = (Weekday t, getWeekDay (Weekday t),
     minutesSinceMidnightToTime (MinutesSinceMidnight t), None)
  ∧ TextVariant.getHumanReadableTime v true
    = (Weekday (daysClose t), getWeekDay (Weekday (daysClose t)),
       minutesSinceMidnightToTime (MinutesSinceMidnight (daysClose t)), None).
Proof.
  intros Hd Ha Hb Hc He H1 H2 Hm v t.
  unfold TextVariant.getHumanReadableTime. subst v.
  rewrite matchTimeInWeek_tokenOf by done. rewrite Atoi_digit by done.
  rewrite !eqb_two_zeros by done. simpl default.
  rewrite andb_false_r. split.
  - unfold t. simpl. by rewrite clock_of_digits.
  - rewrite andb_true_r. unfold daysClose, t. simpl.
    assert (Ez : ((10 * a + b) * 60 + (10 * c + e) =? 0)
                 = (10 * a + b =? 0) && (10 * c + e =? 0)).
    { unfold isDigitValue in *.
      destruct (10 * a + b =? 0) eqn:E1; destruct (10 * c + e =? 0) eqn:E2;
        simpl; lia. }
    rewrite Ez. destruct ((10 * a + b =? 0) && (10 * c + e =? 0)) eqn:E.
    + simpl. apply andb_true_iff in E as [E1 E2].
      apply Z.eqb_eq in E1, E2. unfold isDigitValue in *.
      assert (c = 0 ∧ e = 0) as [-> ->] by lia. reflexivity.
    + simpl. by rewrite clock_of_digits.
Qed.

Lemma noByte_tokenOf (d a b c e s1 s2 : Z) :
  isDigitValue d → isDigitValue a → isDigitValue b → isDigitValue c →
  isDigitValue e → isDigitValue s1 → isDigitValue s2 →
  noByte "," (tokenOf d a b c e s1 s2) = true
  ∧ noByte "/" (tokenOf d a b c e s1 s2) = true.
Proof.
  intros Hd Ha Hb Hc He H1 H2.
  assert (Hx : ∀ x, isDigitValue x →
            Ascii.eqb (digitChar x) "," = false ∧ Ascii.eqb (digitChar x) "/" = false).
  { intros x Hx. digit_split x Hx; by split. }
  destruct (Hx d Hd) as [Ed Ed']. destruct (Hx a Ha) as [Ea Ea'].
  destruct (Hx b Hb) as [Eb Eb']. destruct (Hx c Hc) as [Ec Ec'].
  destruct (Hx e He) as [Ee Ee']. destruct (Hx s1 H1) as [E1 E1'].
  destruct (Hx s2 H2) as [E2 E2'].
  unfold tokenOf.
  generalize dependent (digitChar s2). generalize dependent (digitChar s1).
  generalize dependent (digitChar e). generalize dependent (digitChar c).
  generalize dependent (digitChar b). generalize dependent (digitChar a).
  generalize dependent (digitChar d).
  intros x1 Ed Ed' x2 Ea Ea' x3 Eb Eb' x4 Ec Ec' x5 Ee Ee' x6 E1 E1' x7 E2 E2'.
  cbn [noByte]. rewrite Ed, Ed', Ea, Ea', Eb, Eb', Ec, Ec', Ee, Ee', E1, E1', E2, E2'.
  by split.
Qed.

(** The ranges that one segment adds in [TextVariant.segments], for an
    opening and a closing weekday in 1..7. *)
Lemma TextVariant_emit (fuel : nat) (o c : TimeInWeek)
    (times : gmap string (list TimeRange)) :
  inWeek (Weekday o) → inWeek (Weekday c) → (6 ≤ fuel)%nat →
  (if Weekday o =? Weekday c then
     Some (addTimeToWeek times (getWeekDay (Weekday o))
             (minutesSinceMidnightToTime (MinutesSinceMidnight o))
             (minutesSinceMidnightToTime (MinutesSinceMidnight c)))
   else
     match TextVariant.daysLoop fuel (TextVariant.Next (Weekday o)) (Weekday c)
             (addTimeToWeek times (getWeekDay (Weekday o))
                (minutesSinceMidnightToTime (MinutesSinceMidnight o)) "24:00") with
     | None => None
     | Some times' =>
         Some (addTimeToWeek times' (getWeekDay (Weekday c)) "00:00"
                 (minutesSinceMidnightToTime (MinutesSinceMidnight c)))
     end)
  = Some (foldl addEntry times (specDayEntries o c)).
Proof.
  intros Ho Hc Hf. unfold specDayEntries.
  destruct (Weekday o =? Weekday c) eqn:E; [done|].
  apply Z.eqb_neq in E.
  rewrite (TextVariant_daysLoop_run (Weekday c)
             (Z.to_nat ((Weekday c - nextDay (Weekday o)) mod 7))).
  - rewrite cycleDays_between by done. by rewrite !foldl_app.
  - by apply nextDay_inWeek.
  - done.
  - pose proof (Z.mod_pos_bound (Weekday c - nextDay (Weekday o)) 7).
    change (TextVariant.Next (Weekday o)) with (nextDay (Weekday o)). lia.
  - destruct (nextDay_cases _ Ho) as [[? ->]|[? ->]]; unfold inWeek in *;
      Z.div_mod_to_equations; lia.
Qed.

Lemma TextVariant_segments_cons (fuel : nat) (str : string) (rest : list string)
    (openingTimes : gmap string (list TimeRange)) :
  str ≠ EmptyString →
  TextVariant.segments fuel (str :: rest) openingTimes
  = match Split str "/" with
    | [part0; part1] =>
        match TextVariant.getHumanReadableTime part0 false with
        | (_, _, _, Some _) =>
            Some (None, Some ("invalid opening hours string `" +:+ str +:+ "`"))
        | (openingWeekInt, openingWeekday, openingTime, None) =>
            match TextVariant.getHumanReadableTime part1 true with
            | (_, _, _, Some _) =>
                Some (None, Some ("invalid opening hours string `" +:+ str +:+ "`"))
            | (closingWeekInt, closingWeekday, closingTime, None) =>
                if openingWeekInt =? closingWeekInt then
                  TextVariant.segments fuel rest
                    (addTimeToWeek openingTimes openingWeekday openingTime closingTime)
                else
                  match TextVariant.daysLoop fuel (TextVariant.Next openingWeekInt)
                          closingWeekInt
                          (addTimeToWeek openingTimes openingWeekday
                             openingTime "24:00") with
                  | None => None
                  | Some times =>
                      TextVariant.segments fuel rest
                        (addTimeToWeek times closingWeekday "00:00" closingTime)
                  end
            end
        end
    | _ => Some (None, Some ("invalid opening hours string `" +:+ str +:+ "`"))
    end.
Proof. intros H. by destruct str. Qed.

Lemma TextVariant_segments_agree (fuel : nat) (strs : list string) :
  (6 ≤ fuel)%nat →
  ∀ (acc r new : list OpeningHours) (hc h' : heap)
    (times : gmap string (list TimeRange)),
    parseSegments strs acc hc = Done (r, None) h' →
    r = acc ++ new → Forall bothEndpoints new →
    TextVariant.segments fuel strs times
    = Some (Some (foldl addEntry times (concat (map (dayEntriesOf h') new))), None).
Proof.
  intros Hf. induction strs as [|str strs IH]; intros acc r new hc h' times H Hr Hb.
  - injection H as <- <-. rewrite <- (app_nil_r acc) in Hr at 1.
    apply app_inv_head in Hr as <-. done.
  - destruct (decide (str = EmptyString)) as [->|Hne]; [by eapply IH|].
    rewrite parseSegments_cons in H by done.
    rewrite TextVariant_segments_cons by done.
    destruct (Split str "/") as [|p0 [|p1 [|p2 ps]]]; try discriminate H.
    destruct (parseTimeInWeek_Done p0 hc) as ([o [e0|]] & h1 & P0);
      rewrite (bind_Done _ _ _ _ _ P0) in H; [discriminate H|].
    destruct (parseTimeInWeek_Done p1 h1) as ([c [e1|]] & h2 & P1);
      rewrite (bind_Done _ _ _ _ _ P1) in H; [discriminate H|].
    pose proof H as H0.
    apply parseSegments_inv in H0 as (x2 & Hh' & Hok).
    destruct (Hok eq_refl) as (new' & Hr' & _). rewrite Hr in Hr'.
    rewrite <- app_assoc in Hr'. apply app_inv_head in Hr'. simpl in Hr'. subst new.
    apply Forall_cons in Hb as [[[po Po] [pc Pc]] Hb]. simpl in Po, Pc. subst o c.
    apply parseTimeInWeek_Some_inv in P0
      as (d & a & b & c & e & s1 & s2 & Hd & Ha & Hb0 & Hc & He & H1 & H2
          & -> & Hd7 & _ & Hm & _ & -> & ->).
    apply parseTimeInWeek_Some_inv in P1
      as (d' & a' & b' & c' & e' & s1' & s2' & Hd' & Ha' & Hb' & Hc' & He' & H1' & H2'
          & -> & Hd7' & _ & Hm' & _ & -> & ->).
    destruct (getHumanReadableTime_token d a b c e s1 s2) as [-> _]; try done.
    destruct (getHumanReadableTime_token d' a' b' c' e' s1' s2') as [_ ->]; try done.
    set (to := mkTimeInWeek d ((10 * a + b) * 60 + (10 * c + e))) in *.
    set (tc := mkTimeInWeek d' ((10 * a' + b') * 60 + (10 * c' + e'))) in *.
    assert (Hto : inWeek (Weekday to)) by done.
    assert (Htc : inWeek (Weekday (daysClose tc))) by by apply daysClose_inWeek.
    assert (Ev : dayEntriesOf h' (mkOpeningHours (Some (length hc))
                                   (Some (length (hc ++ [to]))))
                 = specDayEntries to (daysClose tc)).
    { unfold dayEntriesOf, view. simpl. rewrite Hh'.
      rewrite (lookup_app_l_Some _ _ _ to).
      2:{ apply lookup_app_l_Some. by apply list_lookup_middle. }
      rewrite (lookup_app_l_Some _ _ _ tc); [done|].
      by apply list_lookup_middle. }
    simpl concat. rewrite foldl_app, Ev. cbv beta iota.
    pose proof (TextVariant_emit fuel to (daysClose tc) times Hto Htc Hf) as Em.
    destruct (Weekday to =? Weekday (daysClose tc)) eqn:E.
    + apply (inj Some) in Em. rewrite Em.
      eapply IH; [exact H|by rewrite <- app_assoc|done].
    + destruct (TextVariant.daysLoop _ _ _ _) as [times'|]; [|discriminate Em].
      apply (inj Some) in Em. rewrite Em.
      eapply IH; [exact H|by rewrite <- app_assoc|done].
Qed.

(** X13. The older [GetHumanReadableTimes], which takes the text, agrees with
    the composition of [ParseOpeningHours] and the pointer-based
    [GetHumanReadableTimes]: whenever the parser accepts [s] and every interval
    it returns has both endpoints, the older function returns without error
    the map that the newer one builds from the parsed intervals. The one
    difference is the empty result: the older function returns an empty map
    where the newer one returns the nil map. *)
Theorem TextVariant_agrees (fuel : nat) (s : string) (h h' : heap)
    (ohs : list OpeningHours) :
  ParseOpeningHours s h = Done (ohs, None) h' →
  Forall bothEndpoints ohs → (6 ≤ fuel)%nat →
  ∃ m : gmap string (list TimeRange),
    TextVariant.GetHumanReadableTimes fuel s = Some (Some m, None)
    ∧ (ohs ≠ [] → ∃ h'', GetHumanReadableTimes fuel ohs h' = Done (Some m) h'')
    ∧ (ohs = [] → m = ∅ ∧ GetHumanReadableTimes fuel ohs h' = Done None h').
Proof.
  intros P Hb Hf. exists (foldl addEntry ∅ (concat (map (dayEntriesOf h') ohs))).
  unfold ParseOpeningHours in P. split_and!.
  - unfold TextVariant.GetHumanReadableTimes.
    by apply (TextVariant_segments_agree fuel _ Hf [] ohs ohs h h').
  - intros Hne.
    apply parseSegments_inv in P as (ext & -> & Hok).
    destruct (Hok eq_refl) as (new & E & Hl & Hn & _). simpl in E. subst new.
    assert (Hall : Forall (present (h ++ ext)) ohs).
    { apply Forall_forall. intros x Hx.
      apply usable_present; [apply legal_usable|].
      - by apply (proj1 (Forall_forall _ _) Hl).
      - by apply (proj1 (Forall_forall _ _) Hb). }
    destruct (daysRange_separate fuel ohs ∅ (h ++ ext) Hall Hn Hf) as (h'' & R & _).
    exists h''. unfold GetHumanReadableTimes.
    destruct ohs as [|oh ohs]; [done|]. by rewrite (bind_Done _ _ _ _ _ R).
  - intros ->. done.
Qed.

Lemma TextVariant_agrees_witness :
  ∃ m : gmap string (list TimeRange),
    TextVariant.GetHumanReadableTimes 6 "W5T22:00:00/W1T00:00:00,,W2T08:30:00/W2T12:00:00"
    = Some (Some m, None)
    ∧ ([mkOpeningHours (Some 0%nat) (Some 1%nat); mkOpeningHours (Some 2%nat) (Some 3%nat)]
       ≠ [] →
       ∃ h'', GetHumanReadableTimes 6
                [mkOpeningHours (Some 0%nat) (Some 1%nat);
                 mkOpeningHours (Some 2%nat) (Some 3%nat)]
                [mkTimeInWeek 5 1320; mkTimeInWeek 1 0;
                 mkTimeInWeek 2 510; mkTimeInWeek 2 720]
              = Done (Some m) h'')
    ∧ ([mkOpeningHours (Some 0%nat) (Some 1%nat); mkOpeningHours (Some 2%nat) (Some 3%nat)]
       = [] →
       m = ∅ ∧
       GetHumanReadableTimes 6
         [mkOpeningHours (Some 0%nat) (Some 1%nat);
          mkOpeningHours (Some 2%nat) (Some 3%nat)]
         [mkTimeInWeek 5 1320; mkTimeInWeek 1 0;
          mkTimeInWeek 2 510; mkTimeInWeek 2 720]
       = Done None
           [mkTimeInWeek 5 1320; mkTimeInWeek 1 0;
            mkTimeInWeek 2 510; mkTimeInWeek 2 720]).
Proof.
  apply (TextVariant_agrees 6 "W5T22:00:00/W1T00:00:00,,W2T08:30:00/W2T12:00:00" []).
  - reflexivity.
  - repeat constructor; by eexists.
  - lia.
Defined.

Lemma tokenOf_nonempty (d a b c e s1 s2 : Z) : tokenOf d a b c e s1 s2 ≠ EmptyString.
Proof. discriminate. Qed.

(** X14. [getHumanReadableTime] of the older variant checks the shape of its
    argument and nothing else. On [W<d>T<HH>:<MM>:<SS>] with any seven digits
    it returns no error: the weekday number is the digit [d] as written, its
    name by [getWeekDay] (empty for 0, 8 and 9), and the time the text
    [HH:MM] as written, whatever its value; for an end time written [00:00]
    it returns 24:00 on the day before. On every other string it returns
    [invalid value `v`]. *)
Theorem getHumanReadableTime_shape (v : string) (endTime : bool) :
  (∀ d a b c e s1 s2 : Z,
     isDigitValue d → isDigitValue a → isDigitValue b → isDigitValue c →
     isDigitValue e → isDigitValue s1 → isDigitValue s2 →
     v = tokenOf d a b c e s1 s2 →
     TextVariant.getHumanReadableTime v endTime
     = if endTime && (10 * a + b =? 0) && (10 * c + e =? 0)
       then (TextVariant.Previous d, getWeekDay (TextVariant.Previous d),
             "24:00"%string, None)
       else (d, getWeekDay d,
             String (digitChar a) (String (digitChar b) (String ":"
               (String (digitChar c) (String (digitChar e) EmptyString)))), None))
  ∧ ((¬ ∃ d a b c e s1 s2 : Z,
         isDigitValue d ∧ isDigitValue a ∧ isDigitValue b ∧ isDigitValue c ∧
         isDigitValue e ∧ isDigitValue s1 ∧ isDigitValue s2 ∧
         v = tokenOf d a b c e s1 s2) →
     TextVariant.getHumanReadableTime v endTime
     = (0, EmptyString, EmptyString, Some ("invalid value `" +:+ v +:+ "`"))).
Proof.
  split.
  - intros d a b c e s1 s2 Hd Ha Hb Hc He H1 H2 ->.
    unfold TextVariant.getHumanReadableTime.
    rewrite matchTimeInWeek_tokenOf by done. rewrite Atoi_digit by done.
    rewrite !eqb_two_zeros by done. simpl default.
    destruct endTime; [|by rewrite andb_false_r].
    rewrite andb_true_r. simpl andb.
    destruct ((10 * a + b =? 0) && (10 * c + e =? 0)) eqn:E; [|done].
    apply andb_true_iff in E as [E1 E2]. apply Z.eqb_eq in E1, E2.
    unfold isDigitValue in *. assert (c = 0 ∧ e = 0) as [-> ->] by lia. reflexivity.
  - intros Hn. unfold TextVariant.getHumanReadableTime.
    destruct (matchTimeInWeek v) as [[[g1 g2] g3]|] eqn:Hm; [|done].
    destruct Hn. by apply matchTimeInWeek_inv in Hm.
Qed.

Lemma getHumanReadableTime_shape_witness :
  TextVariant.getHumanReadableTime "W0T99:77:00" true
  = (0, EmptyString, "99:77"%string, None)
  ∧ TextVariant.getHumanReadableTime "monday" true
    = (0, EmptyString, EmptyString, Some "invalid value `monday`"%string).
Proof.
  split.
  - apply (proj1 (getHumanReadableTime_shape "W0T99:77:00" true) 0 9 9 7 7 0 0);
      unfold isDigitValue; try lia; reflexivity.
  - apply (proj2 (getHumanReadableTime_shape "monday" true)).
    intros (d & a & b & c & e & s1 & s2 & _ & _ & _ & _ & _ & _ & _ & E).
    discriminate E.
Defined.

(** The weekday number of a successful [getHumanReadableTime]. *)
Lemma getHumanReadableTime_Some_inv (v : string) (endTime : bool)
    (w : Z) (n t : string) :
  TextVariant.getHumanReadableTime v endTime = (w, n, t, None) →
  ∃ d a b c e s1 s2 : Z,
    isDigitValue d ∧ isDigitValue a ∧ isDigitValue b ∧ isDigitValue c ∧
    isDigitValue e ∧ isDigitValue s1 ∧ isDigitValue s2 ∧
    v = tokenOf d a b c e s1 s2 ∧
    (w = d ∨ (endTime = true ∧ w = TextVariant.Previous d)).
Proof.
  unfold TextVariant.getHumanReadableTime.
  destruct (matchTimeInWeek v) as [[[g1 g2] g3]|] eqn:Hm; [|discriminate].
  pose proof Hm as Hm'.
  apply matchTimeInWeek_inv in Hm'
    as (d & a & b & c & e & s1 & s2 & Hd & Ha & Hb & Hc & He & H1 & H2 & ->).
  rewrite matchTimeInWeek_tokenOf in Hm by done. injection Hm as <- <- <-.
  rewrite Atoi_digit by done. simpl default.
  intros H. exists d, a, b, c, e, s1, s2. split_and!; try done.
  destruct (_ && _ && endTime) eqn:E.
  - right. apply andb_true_iff in E as [_ ->]. split; [done|]. congruence.
  - left. congruence.
Qed.

(** X15. The older [GetHumanReadableTimes] does not return on a segment whose
    two endpoints have the shape it asks for when the closing weekday it
    computes is outside 1..7 (digit 9, or 0 or 8 away from 00:00) and differs
    from the opening one: [Next] only ever yields 1..7, so the walk never
    meets the closing weekday, whatever the budget. [ParseOpeningHours]
    rejects every such text. *)
Theorem TextVariant_unbounded_walk (fuel : nat) (p0 p1 : string)
    (wo wc : Z) (n0 t0 n1 t1 : string) (h : heap) :
  TextVariant.getHumanReadableTime p0 false = (wo, n0, t0, None) →
  TextVariant.getHumanReadableTime p1 true = (wc, n1, t1, None) →
  wo ≠ wc → ¬ inWeek wc →
  TextVariant.GetHumanReadableTimes fuel (p0 +:+ "/" +:+ p1) = None
  ∧ ∃ (e : string) (h' : heap),
      ParseOpeningHours (p0 +:+ "/" +:+ p1) h = Done ([], Some e) h'.
Proof.
  intros G0 G1 Hne Hout.
  pose proof G0 as I0. pose proof G1 as I1.
  apply getHumanReadableTime_Some_inv in I0
    as (d & a & b & c & e & s1 & s2 & Hd & Ha & Hb & Hc & He & H1 & H2 & E0 & Hwo).
  apply getHumanReadableTime_Some_inv in I1
    as (d' & a' & b' & c' & e' & s1' & s2' & Hd' & Ha' & Hb' & Hc' & He' & H1' & H2'
        & E1 & Hwc).
  destruct Hwo as [->|[? _]]; [|done].
  destruct (noByte_tokenOf d a b c e s1 s2) as [C0 S0]; try done.
  destruct (noByte_tokenOf d' a' b' c' e' s1' s2') as [C1 S1]; try done.
  rewrite <- E0 in C0, S0. rewrite <- E1 in C1, S1.
  assert (Hsc : Split (p0 +:+ "/" +:+ p1) "," = [p0 +:+ "/" +:+ p1]).
  { apply Split_noByte. rewrite noByte_app, C0. simpl. exact C1. }
  assert (Hss : Split (p0 +:+ "/" +:+ p1) "/" = [p0; p1]).
  { change ("/" +:+ p1) with (String "/" p1).
    rewrite Split_app by done. by rewrite Split_noByte. }
  assert (Hnon : p0 +:+ "/" +:+ p1 ≠ EmptyString).
  { rewrite E0. discriminate. }
  assert (Hd'out : (d' <? 1) || (d' >? 7) = true).
  { destruct ((d' <? 1) || (d' >? 7)) eqn:E; [done|].
    apply orb_false_iff in E as [Ea Eb]. destruct Hout.
    assert (inWeek d') by (unfold inWeek; lia).
    destruct Hwc as [->|[_ ->]]; [done|by apply previousDay_inWeek]. }
  split.
  - unfold TextVariant.GetHumanReadableTimes. rewrite Hsc.
    rewrite TextVariant_segments_cons by done. rewrite Hss, G0, G1. cbv beta iota.
    destruct (d =? wc) eqn:E; [apply Z.eqb_eq in E; done|].
    rewrite TextVariant_daysLoop_unreachable; [done| |done].
    unfold TextVariant.Next, inWeek, isDigitValue in *.
    rewrite Z.rem_mod_nonneg by lia. pose proof (Z.mod_pos_bound d 7). lia.
  - unfold ParseOpeningHours. rewrite Hsc.
    rewrite parseSegments_cons by done. rewrite Hss.
    destruct (parseTimeInWeek_Done p0 h) as ([o [e0|]] & h1 & P0);
      rewrite (bind_Done _ _ _ _ _ P0); [by eexists _, _|].
    assert (P1 : parseTimeInWeek p1 h1
                 = Done (None, Some ("invalid workday in `" +:+ p1 +:+
                     "`: expected to be between 1 (monday) and 7 (sunday)")) h1).
    { rewrite E1. rewrite parseTimeInWeek_tokenOf by done. by rewrite Hd'out. }
    rewrite (bind_Done _ _ _ _ _ P1). by eexists _, _.
Qed.

Lemma TextVariant_unbounded_walk_witness :
  TextVariant.GetHumanReadableTimes 1000 "W1T08:00:00/W9T10:00:00" = None
  ∧ ∃ (e : string) (h' : heap),
      ParseOpeningHours "W1T08:00:00/W9T10:00:00" [] = Done ([], Some e) h'.
Proof.
  apply (TextVariant_unbounded_walk 1000 "W1T08:00:00" "W9T10:00:00"
           1 9 "monday" "08:00" EmptyString "10:00" []).
  - reflexivity.
  - reflexivity.
  - lia.
  - unfold inWeek. lia.
Defined.

Lemma append_assoc (x y z : string) : x +:+ (y +:+ z) = (x +:+ y) +:+ z.
Proof.
  induction x as [|a x IH]; [done|].
  change (String a (x +:+ (y +:+ z)) = String a ((x +:+ y) +:+ z)). by rewrite IH.
Qed.

Lemma TextVariant_segments_error (fuel : nat) (strs : list string) :
  ∀ (times : gmap string (list TimeRange))
    (m : option (gmap string (list TimeRange))) (e : string),
    TextVariant.segments fuel strs times = Some (m, Some e) →
    m = None
    ∧ ∃ seg : string,
        seg ∈ strs ∧ seg ≠ EmptyString
        ∧ e = "invalid opening hours string `" +:+ seg +:+ "`".
Proof.
  induction strs as [|str strs IH]; intros times m e H; [discriminate H|].
  assert (Hrest : ∀ t, TextVariant.segments fuel strs t = Some (m, Some e) →
            m = None ∧ ∃ seg : string, seg ∈ str :: strs ∧ seg ≠ EmptyString
              ∧ e = "invalid opening hours string `" +:+ seg +:+ "`").
  { intros t Ht. destruct (IH _ _ _ Ht) as (-> & seg & Hin & Hne & ->).
    split; [done|]. exists seg. split_and!; try done. by apply list_elem_of_further. }
  destruct (decide (str = EmptyString)) as [->|Hne]; [by apply (Hrest times)|].
  assert (Hfail : Some (None, Some ("invalid opening hours string `" +:+ str +:+ "`"))
                  = Some (m, Some e) →
            m = None ∧ ∃ seg : string, seg ∈ str :: strs ∧ seg ≠ EmptyString
              ∧ e = "invalid opening hours string `" +:+ seg +:+ "`").
  { intros [= <- <-]. split; [done|]. exists str. split_and!; try done.
    apply list_elem_of_here. }
  rewrite TextVariant_segments_cons in H by done.
  destruct (Split str "/") as [|p0 [|p1 [|p2 ps]]]; try by apply Hfail.
  destruct (TextVariant.getHumanReadableTime p0 false) as [[[wo n0] t0] [e0|]];
    [by apply Hfail|].
  destruct (TextVariant.getHumanReadableTime p1 true) as [[[wc n1] t1] [e1|]];
    [by apply Hfail|].
  destruct (wo =? wc); [by eapply Hrest|].
  destruct (TextVariant.daysLoop _ _ _ _) as [times'|]; [by eapply Hrest|discriminate H].
Qed.

(** X16. The errors of the older [GetHumanReadableTimes]. Every error comes
    with the nil map and reads [invalid opening hours string `seg`], where
    [seg] is a non-empty comma-separated segment of the input: the cause
    (wrong number of slashes, opening or closing part) is not reported. A
    segment with an absent endpoint, which [ParseOpeningHours] accepts, is
    such an error. *)
Theorem TextVariant_errors (fuel : nat) (s : string) :
  (∀ (m : option (gmap string (list TimeRange))) (e : string),
     TextVariant.GetHumanReadableTimes fuel s = Some (m, Some e) →
     m = None
     ∧ ∃ seg : string,
         seg ∈ Split s "," ∧ seg ≠ EmptyString
         ∧ e = "invalid opening hours string `" +:+ seg +:+ "`")
  ∧ (noByte "," s = true → noByte "/" s = true →
     TextVariant.GetHumanReadableTimes fuel (s +:+ "/")
     = Some (None, Some ("invalid opening hours string `" +:+ s +:+ "/`"))
     ∧ TextVariant.GetHumanReadableTimes fuel ("/" +:+ s)
       = Some (None, Some ("invalid opening hours string `/" +:+ s +:+ "`"))).
Proof.
  split.
  - intros m e H. by apply (TextVariant_segments_error fuel _ ∅).
  - intros Hc Hs.
    assert (G : ∀ b, TextVariant.getHumanReadableTime EmptyString b
                = (0, EmptyString, EmptyString, Some "invalid value ``"%string))
      by done.
    split.
    + unfold TextVariant.GetHumanReadableTimes.
      rewrite Split_noByte by (rewrite noByte_app, Hc; done).
      rewrite TextVariant_segments_cons by (destruct s; discriminate).
      change (s +:+ "/") with (s +:+ String "/" EmptyString).
      rewrite Split_app by done. simpl Split.
      destruct (TextVariant.getHumanReadableTime s false) as [[[wo n0] t0] [e0|]].
      * by rewrite <- append_assoc.
      * rewrite G. by rewrite <- append_assoc.
    + unfold TextVariant.GetHumanReadableTimes.
      change ("/" +:+ s) with (String "/" s).
      rewrite Split_noByte by (simpl; by rewrite Hc).
      rewrite TextVariant_segments_cons by discriminate.
      change (Split (String "/" s) "/") with (Split (EmptyString +:+ String "/" s) "/").
      rewrite (Split_app "/" EmptyString s) by done.
      rewrite Split_noByte by done. by rewrite G.
Qed.

Lemma TextVariant_errors_witness :
  TextVariant.GetHumanReadableTimes 6 ("W1T08:00:00" +:+ "/")
  = Some (None, Some ("invalid opening hours string `" +:+ "W1T08:00:00" +:+ "/`"))
  ∧ ∃ (ohs : list OpeningHours) (h' : heap),
      ParseOpeningHours "W1T08:00:00/" [] = Done (ohs, None) h'.
Proof.
  split.
  - apply (proj2 (TextVariant_errors 6 "W1T08:00:00")); reflexivity.
  - by eexists _, _.
Defined.

(* ===================================================================== *)
(** ** The variant that returns printed ranges                            *)
(* ===================================================================== *)

Lemma StringVariant_getHumanReadableTime (v : string) (endTime : bool) :
  StringVariant.getHumanReadableTime v endTime
  = TextVariant.getHumanReadableTime v endTime.
Proof. reflexivity. Qed.

Lemma StringVariant_addTimeToWeek (times : gmap string (list TimeRange))
    (weekday openingTime closingTime : string) :
  StringVariant.addTimeToWeek (map rangeText <$> times) weekday openingTime closingTime
  = map rangeText <$> addTimeToWeek times weekday openingTime closingTime.
Proof.
  unfold StringVariant.addTimeToWeek, addTimeToWeek.
  rewrite fmap_insert, lookup_fmap. f_equal.
  destruct (times !! weekday) as [l|]; simpl; [|done]. by rewrite map_app.
Qed.

Lemma StringVariant_daysLoop (fuel : nat) :
  ∀ (current closing : Z) (times : gmap string (list TimeRange)),
    StringVariant.daysLoop fuel current closing (map rangeText <$> times)
    = fmap (M := option) (fmap (M := gmap string) (map rangeText))
        (TextVariant.daysLoop fuel current closing times).
Proof.
  induction fuel as [|fuel IH]; intros current closing times; [done|]. simpl.
  destruct (current =? closing); [done|].
  rewrite StringVariant_addTimeToWeek. apply IH.
Qed.

Lemma StringVariant_segments (fuel : nat) (strs : list string) :
  ∀ times : gmap string (list TimeRange),
    StringVariant.segments fuel strs (map rangeText <$> times)
    = printed (TextVariant.segments fuel strs times).
Proof.
  induction strs as [|str strs IH]; intros times; [done|].
  destruct str as [|x str]; [apply IH|].
  cbn [StringVariant.segments TextVariant.segments].
  destruct (Split (String x str) "/") as [|p0 [|p1 [|p2 ps]]]; try reflexivity.
  rewrite (StringVariant_getHumanReadableTime p0), (StringVariant_getHumanReadableTime p1).
  destruct (TextVariant.getHumanReadableTime p0 false) as [[[wo n0] t0] [e0|]];
    [reflexivity|].
  destruct (TextVariant.getHumanReadableTime p1 true) as [[[wc n1] t1] [e1|]];
    [reflexivity|].
  destruct (wo =? wc).
  - rewrite StringVariant_addTimeToWeek. apply IH.
  - rewrite StringVariant_addTimeToWeek, StringVariant_daysLoop.
    change (Z.rem wo 7 + 1) with (TextVariant.Next wo).
    destruct (TextVariant.daysLoop fuel (TextVariant.Next wo) wc _) as [times'|];
      [|done].
    simpl. rewrite StringVariant_addTimeToWeek. apply IH.
Qed.

(** X17. The [GetHumanReadableTimes] of [openinghours.go], which returns
    [map[string][]string], is the one that returns [map[string][]TimeRange]
    with every range printed as [open: <Open>, close: <Close>]: on every
    input the two return, fail with the same error, or do not return,
    together, with the same weekday keys and the ranges in the same order. *)
Theorem StringVariant_prints_TextVariant (fuel : nat) (s : string) :
  StringVariant.GetHumanReadableTimes fuel s
  = printed (TextVariant.GetHumanReadableTimes fuel s).
Proof.
  unfold StringVariant.GetHumanReadableTimes, TextVariant.GetHumanReadableTimes.
  rewrite <- StringVariant_segments. by rewrite fmap_empty.
Qed.

(* ===================================================================== *)
(** ** Day ranges and OCPI regular hours                                  *)
(* ===================================================================== *)

Lemma close_clock (c : TimeInWeek) :
  0 ≤ MinutesSinceMidnight c ≤ 1440 →
  Weekday (ocpiClose c) = Weekday (daysClose c)
  ∧ minutesSinceMidnightToTime (MinutesSinceMidnight (ocpiClose c))
    = (if String.eqb (minutesSinceMidnightToTime (MinutesSinceMidnight (daysClose c)))
            "24:00"
       then "00:00"%string
       else minutesSinceMidnightToTime (MinutesSinceMidnight (daysClose c))).
Proof.
  intros Hm. unfold ocpiClose, daysClose.
  destruct (MinutesSinceMidnight c =? 0) eqn:E0; [by split|].
  destruct (MinutesSinceMidnight c =? 1440) eqn:E1.
  - apply Z.eqb_eq in E1. rewrite E1. by split.
  - split; [done|].
    destruct (String.eqb _ "24:00") eqn:E; [|done].
    apply String.eqb_eq in E. apply Z.eqb_neq in E1. destruct E1.
    by apply (minutesSinceMidnightToTime_inj 1440).
Qed.

Lemma toRegularHours_entries (o c : TimeInWeek) :
  0 ≤ MinutesSinceMidnight c ≤ 1440 →
  specOcpiEntries o (ocpiClose c) = map toRegularHours (specDayEntries o (daysClose c)).
Proof.
  intros Hm. destruct (close_clock c Hm) as [Ew Et].
  unfold specOcpiEntries, specDayEntries. rewrite Ew.
  destruct (Weekday o =? Weekday (daysClose c)).
  - unfold toRegularHours. simpl. by rewrite Et.
  - rewrite !map_app, map_map. unfold toRegularHours. simpl. by rewrite Et.
Qed.

Lemma toRegularHours_entriesOf (h : heap) (oh : OpeningHours) :
  legal h oh → ocpiEntriesOf h oh = map toRegularHours (dayEntriesOf h oh).
Proof.
  intros [_ HC]. unfold ocpiEntriesOf, dayEntriesOf.
  destruct (view h (Open oh)) as [o|]; [|done].
  destruct (Close oh) as [pc|]; [|done]. simpl.
  destruct HC as (c & -> & _ & Hm). by apply toRegularHours_entries.
Qed.

(** X18. The two expansions list the same day ranges. For intervals that
    satisfy the data-model invariants, have both endpoints and share no
    cell, not all of them open=(1,0), close=(7,1440), the regular hours of
    [GetOCPIOpeningTimes] are, entry by entry and in the same order, the
    ranges that [GetHumanReadableTimes] adds to its map: the same weekday
    and begin, and the same end with 24:00 written 00:00. *)
Theorem GetOCPIOpeningTimes_lists_day_ranges (fuel : nat)
    (ohs : list OpeningHours) (h : heap) :
  Forall (legal h) ohs → Forall bothEndpoints ohs → NoDup (ptrs ohs) →
  Exists (fun oh => ¬ fullWeek h oh) ohs → (6 ≤ fuel)%nat →
  let entries := concat (map (dayEntriesOf h) ohs) in
  ∃ h1 h2 : heap,
    GetHumanReadableTimes fuel ohs h = Done (Some (foldl addEntry ∅ entries)) h1
    ∧ GetOCPIOpeningTimes fuel ohs h
      = Done (mkOCPIOpeningTimes false (Some (map toRegularHours entries))) h2.
Proof.
  intros Hl Hb Hnd Hex Hf entries. subst entries.
  assert (Hall : Forall (present h) ohs).
  { apply Forall_forall. intros x Hx.
    apply usable_present; [apply legal_usable|].
    - by apply (proj1 (Forall_forall _ _) Hl).
    - by apply (proj1 (Forall_forall _ _) Hb). }
  destruct (daysRange_separate fuel ohs ∅ h Hall Hnd Hf) as (h1 & R1 & _).
  destruct (ocpiRange_separate fuel ohs [] h Hall Hnd Hf) as (h2 & R2 & _).
  exists h1, h2. split.
  - unfold GetHumanReadableTimes.
    destruct ohs as [|oh ohs]; [by apply Exists_nil in Hex|].
    by rewrite (bind_Done _ _ _ _ _ R1).
  - assert (E : concat (map (ocpiEntriesOf h) ohs)
                = map toRegularHours (concat (map (dayEntriesOf h) ohs))).
    { clear -Hl. induction Hl as [|oh ohs Hoh _ IH]; [done|]. simpl.
      by rewrite map_app, IH, toRegularHours_entriesOf. }
    unfold GetOCPIOpeningTimes.
    assert (Hwf : Forall (wellFormed h) ohs).
    { eapply Forall_impl; [exact Hall|]. intros x. apply present_wellFormed. }
    assert (H247 : isTwentyFourSeven ohs h = Done false h).
    { unfold isTwentyFourSeven. destruct ohs as [|oh0 ohs0]; [done|].
      by apply isTwentyFourSevenRange_false. }
    rewrite (bind_Done _ _ _ _ _ H247). rewrite (bind_Done _ _ _ _ _ R2). simpl.
    rewrite E.
    destruct (map toRegularHours (concat (map (dayEntriesOf h) ohs)))
      as [|e es] eqn:E'; [|done].
    exfalso. clear E'.
    destruct ohs as [|oh ohs]; [by apply Exists_nil in Hex|].
    apply Forall_cons in Hall as [(po & pc & o & c & HO & HC & Hpo & Hpc & _) _].
    simpl in E. unfold ocpiEntriesOf in E. rewrite HO, HC in E. simpl in E.
    rewrite Hpo, Hpc in E.
    pose proof (specOcpiEntries_length o (ocpiClose c)) as L.
    destruct (specOcpiEntries o (ocpiClose c)); [simpl in L; lia|discriminate E].
Qed.

Lemma GetOCPIOpeningTimes_lists_day_ranges_witness :
  ∃ h1 h2 : heap,
    GetHumanReadableTimes 6
      [mkOpeningHours (Some 0%nat) (Some 1%nat); mkOpeningHours (Some 3%nat) (Some 2%nat)]
      [mkTimeInWeek 1 780; mkTimeInWeek 1 1440; mkTimeInWeek 1 0; mkTimeInWeek 6 1320]
    = Done (Some (foldl addEntry ∅
                    [(1, mkTimeRange "13:00" "24:00"); (6, mkTimeRange "22:00" "24:00");
                     (7, mkTimeRange "00:00" "24:00")])) h1
    ∧ GetOCPIOpeningTimes 6
        [mkOpeningHours (Some 0%nat) (Some 1%nat); mkOpeningHours (Some 3%nat) (Some 2%nat)]
        [mkTimeInWeek 1 780; mkTimeInWeek 1 1440; mkTimeInWeek 1 0; mkTimeInWeek 6 1320]
      = Done (mkOCPIOpeningTimes false
                (Some (map toRegularHours
                   [(1, mkTimeRange "13:00" "24:00"); (6, mkTimeRange "22:00" "24:00");
                    (7, mkTimeRange "00:00" "24:00")]))) h2.
Proof.
  apply (GetOCPIOpeningTimes_lists_day_ranges 6
           [mkOpeningHours (Some 0%nat) (Some 1%nat); mkOpeningHours (Some 3%nat) (Some 2%nat)]
           [mkTimeInWeek 1 780; mkTimeInWeek 1 1440; mkTimeInWeek 1 0; mkTimeInWeek 6 1320]).
  - repeat constructor; eexists; (split; [reflexivity|]); split; unfold inWeek; simpl; lia.
  - repeat constructor; by eexists.
  - vm_compute. repeat constructor; rewrite ?elem_of_cons, ?elem_of_nil; lia.
  - apply Exists_cons_hd. intros [_ H]. discriminate H.
  - lia.
Defined.
